(** * pyip: address ranges in CIDR and dash notation

    A shallow embedding of [pyip.py] (classes [Converter], [IPAddress],
    [IPNetwork], [IPRange]) and the properties of its range arithmetic,
    indexing, slicing and iteration.

    Conventions of the embedding.
    - The interpreter is Python 3 (CPython 3.11 on a 64-bit platform, whose
      messages the exceptions of the runtime carry).  Integers are
      unbounded; they are [Z].  There is one integer class, [int]; the name
      [long] that line 63 reads is not defined, and reading it raises
      [NameError].
    - A raised exception is a value: its class and the format string of its
      message.  Code that may raise returns [result].
    - Text is [string]: the texts whose characters have code points below
      256.
    - [inet_pton], [inet_ntop], [pack] and [unpack] come from the platform;
      the address functions are embedded as the character loops of the BSD
      reference implementation, which reports an illegal text with the
      [OSError] that lines 28 and 36 catch. *)

From Stdlib Require Import ZArith List Bool Ascii String Lia.
Import ListNotations.

Local Open Scope string_scope.
Local Open Scope list_scope.
Local Open Scope Z_scope.

(** ** Exceptions and results *)

Inductive exn : Type :=
| ValueError (msg : string)
| AttributeError (msg : string)
| IndexError (msg : string)
| TypeError (msg : string)
| OverflowError (msg : string)
| OSError (msg : string)
| StructError (msg : string)
| NameError (msg : string).

Inductive result (A : Type) : Type :=
| Ok (a : A)
| Raise (e : exn).

Arguments Ok {A} a.
Arguments Raise {A} e.

Definition bind {A B : Type} (m : result A) (k : A -> result B) : result B :=
  match m with
  | Ok a => k a
  | Raise e => Raise e
  end.

Notation "x <- m ;; k" := (bind m (fun x => k))
  (at level 61, m at next level, right associativity).
Notation "' pat <- m ;; k" := (bind m (fun x => match x with pat => k end))
  (at level 61, pat pattern, m at next level, right associativity).

Definition succeeds {A : Type} (m : result A) : Prop := exists a, m = Ok a.
Definition fails {A : Type} (m : result A) : Prop := exists e, m = Raise e.

(** The error kinds of the specification, as the exceptions the code raises. *)
Definition InvalidAddress : exn := ValueError "illegal IP address %s".
Definition MalformedCidr : exn := AttributeError "cidr identifying attribute missing '/'".
Definition MalformedRange : exn := AttributeError "range identifying attribute missing '-'".
Definition InvalidCidr : exn := ValueError "invalid IPNetwork %s".
Definition InvalidRange : exn := ValueError "lower bound IP greater than upper bound".
Definition IndexOutOfRange : exn := IndexError "index out range".
Definition InvalidIndexType : exn := TypeError "unsupported index type %r".

(** ** The pieces of the Python runtime the module calls *)

Module Py.

Definition code (c : ascii) : Z := Z.of_N (N_of_ascii c).

(** [c in s] for a one-character [c]. *)
Fixpoint contains (c : ascii) (s : string) : bool :=
  match s with
  | EmptyString => false
  | String x r => Ascii.eqb x c || contains c r
  end.

(** [str.isspace] on one character: the white space of Unicode below 256. *)
Definition isspace (c : ascii) : bool :=
  let n := code c in
  ((9 <=? n) && (n <=? 13)) || ((28 <=? n) && (n <=? 32))
  || (n =? 133) || (n =? 160).

Fixpoint lstrip (s : string) : string :=
  match s with
  | EmptyString => EmptyString
  | String x r => if isspace x then lstrip r else s
  end.

Fixpoint rstrip (s : string) : string :=
  match s with
  | EmptyString => EmptyString
  | String x r =>
      match rstrip r with
      | EmptyString => if isspace x then EmptyString else String x EmptyString
      | r' => String x r'
      end
  end.

(** [s.strip()] *)
Definition strip (s : string) : string := rstrip (lstrip s).

(** [s.split(c)] for a one-character separator: never empty. *)
Fixpoint split (c : ascii) (s : string) : list string :=
  match s with
  | EmptyString => [EmptyString]
  | String x r =>
      if Ascii.eqb x c then EmptyString :: split c r
      else match split c r with
           | h :: t => String x h :: t
           | [] => [String x EmptyString]
           end
  end.

(** [a, b = parts]: the tuple assignment of a two-name target. *)
Definition unpack2 (parts : list string) : result (string * string) :=
  match parts with
  | [a; b] => Ok (a, b)
  | [] | [_] => Raise (ValueError "not enough values to unpack (expected %d, got %d)")
  | _ => Raise (ValueError "too many values to unpack (expected %d)")
  end.

Definition digit_value (c : ascii) : option Z :=
  let n := code c in
  if (48 <=? n) && (n <=? 57) then Some (n - 48) else None.

(** The white space [int()] skips around a literal: tab to carriage return
    and the space, and the two blanks above 127, which are read as spaces;
    the separators chr(28) to chr(31) are not skipped. *)
Definition int_space (c : ascii) : bool :=
  let n := code c in
  ((9 <=? n) && (n <=? 13)) || (n =? 32) || (n =? 133) || (n =? 160).

Fixpoint skip_space (s : string) : string :=
  match s with
  | EmptyString => EmptyString
  | String x r => if int_space x then skip_space r else s
  end.

(** The run of digits at the head of a literal, in which single underscores
    may separate digits: its value, the number of its digits and the text
    after it. [prev] tells whether the previous character was a digit; the
    run may neither be empty nor start or end with an underscore. *)
Fixpoint digits (acc count : Z) (prev : bool) (s : string)
  : option (Z * Z * string) :=
  match s with
  | EmptyString => if prev then Some (acc, count, s) else None
  | String c r =>
      match digit_value c with
      | Some d => digits (acc * 10 + d) (count + 1) true r
      | None =>
          if Ascii.eqb c "_" then (if prev then digits acc count false r else None)
          else if prev then Some (acc, count, s) else None
      end
  end.

Definition bad_literal : exn := ValueError "invalid literal for int() with base 10: %r".

(** [sys.get_int_max_str_digits()], which the module leaves at its default. *)
Definition int_max_str_digits : Z := 4300.

Definition too_many_digits : exn :=
  ValueError "Exceeds the limit (%d digits) for integer string conversion: value has %zd digits; use sys.set_int_max_str_digits() to increase the limit".

(** The literal after its sign. *)
Definition magnitude (s : string) : result Z :=
  match digits 0 0 false s with
  | None => Raise bad_literal
  | Some (n, count, rest) =>
      if int_max_str_digits <? count then Raise too_many_digits
      else
        match skip_space rest with
        | EmptyString => Ok n
        | String _ _ => Raise bad_literal
        end
  end.

(** [int(s)] for text [s]. *)
Definition int_of_str (s : string) : result Z :=
  match skip_space s with
  | String "-" r => n <- magnitude r ;; Ok (- n)
  | String "+" r => magnitude r
  | r => magnitude r
  end.

(** A float: a finite one is [m * 2^e]. *)
Inductive float : Type :=
| Finite (m e : Z)
| Inf (negative : bool)
| NaN.

(** [int(f)] truncates towards zero. *)
Definition int_of_float (f : float) : result Z :=
  match f with
  | Finite m e => Ok (if 0 <=? e then m * 2 ^ e else Z.quot m (2 ^ (- e)))
  | Inf _ => Raise (OverflowError "cannot convert float infinity to integer")
  | NaN => Raise (ValueError "cannot convert float NaN to integer")
  end.

(** A slice object [slice(start, stop, step)], each part [None] or an integer. *)
Record slice : Type := Slice {
  sl_start : option Z;
  sl_stop : option Z;
  sl_step : option Z
}.

(** One bound of [slice.indices]: [None] takes the default, a negative
    value counts from the end, and the result is clamped. *)
Definition clamp (bound : option Z) (default lower upper length : Z) : Z :=
  match bound with
  | None => default
  | Some b =>
      if b <? 0 then (if b + length <? lower then lower else b + length)
      else (if upper <? b then upper else b)
  end.

(** [sl.indices(length)] *)
Definition indices (sl : slice) (length : Z) : result (Z * Z * Z) :=
  let step := match sl_step sl with None => 1 | Some k => k end in
  if length <? 0 then Raise (ValueError "length should not be negative")
  else if step =? 0 then Raise (ValueError "slice step cannot be zero")
  else
    let lower := if step <? 0 then -1 else 0 in
    let upper := if step <? 0 then length - 1 else length in
    let start := clamp (sl_start sl) (if step <? 0 then upper else lower) lower upper length in
    let stop := clamp (sl_stop sl) (if step <? 0 then lower else upper) lower upper length in
    Ok (start, stop, step).

(** [len(range(start, stop, step))] for a non-zero step. *)
Definition range_len (start stop step : Z) : Z :=
  if (0 <? step) && (start <? stop) then (stop - start - 1) / step + 1
  else if (step <? 0) && (stop <? start) then (start - stop - 1) / (- step) + 1
  else 0.

(** The elements [start, start + step, ...] counted off. *)
Fixpoint count_from (start step : Z) (n : nat) : list Z :=
  match n with
  | O => []
  | S n' => start :: count_from (start + step) step n'
  end.

(** [list(range(start, stop, step))] *)
Definition range (start stop step : Z) : result (list Z) :=
  if step =? 0 then Raise (ValueError "range() arg 3 must not be zero")
  else Ok (count_from start step (Z.to_nat (range_len start stop step))).

(** [[f(x) for x in xs]]: the elements are built in order, and the first
    exception ends the comprehension. *)
Fixpoint comprehension {A B : Type} (f : A -> result B) (xs : list A)
  : result (list B) :=
  match xs with
  | [] => Ok []
  | x :: r => b <- f x ;; l <- comprehension f r ;; Ok (b :: l)
  end.

End Py.

(** ** The platform's address parser and [struct.unpack] *)

Module Inet.

(** A store to an [unsigned char]. *)
Definition u8 (x : Z) : Z := x mod 256.

(** The state of the dotted-decimal loop: the octets completed so far, the
    octet being read, whether a digit of it was seen, and the count of
    octets started. *)
Fixpoint pton4_loop (done : list Z) (cur : Z) (saw_digit : bool) (octets : Z)
         (src : string) : option (list Z) :=
  match src with
  | EmptyString => if octets <? 4 then None else Some (done ++ [cur])
  | String ch rest =>
      match Py.digit_value ch with
      | Some d =>
          let new := cur * 10 + d in
          if saw_digit && (cur =? 0) then None
          else if 255 <? new then None
          else if saw_digit then pton4_loop done (u8 new) true octets rest
          else if 4 <? octets + 1 then None
          else pton4_loop done (u8 new) true (octets + 1) rest
      | None =>
          if Ascii.eqb ch "." && saw_digit then
            if octets =? 4 then None
            else pton4_loop (done ++ [cur]) 0 false octets rest
          else None
      end
  end.

(** [inet_pton(AF_INET, src)]: four bytes, or nothing for an illegal text. *)
Definition inet_pton4 (src : string) : option (list Z) :=
  pton4_loop [] 0 false 0 src.

Definition hex_digit_value (c : ascii) : option Z :=
  let n := Py.code c in
  if (48 <=? n) && (n <=? 57) then Some (n - 48)
  else if (97 <=? n) && (n <=? 102) then Some (n - 87)
  else if (65 <=? n) && (n <=? 70) then Some (n - 55)
  else None.

Definition len (b : list Z) : Z := Z.of_nat (List.length b).

(** What the colon-hex loop holds when it stops: the bytes written, where
    a [::] was seen, and the group being read. *)
Record st6 : Type := St6 {
  tp : list Z;
  colonp : option nat;
  xdigits_seen : Z;
  val : Z
}.

(** The two bytes of a finished group. *)
Definition group_bytes (v : Z) : list Z :=
  [Z.land (u8 (Z.shiftr v 8)) 255; Z.land (u8 v) 255].

(** The colon-hex loop; [curtok] is the text from the start of the current
    group, which a dotted-decimal tail is parsed from. *)
Fixpoint pton6_loop (curtok : string) (s : st6) (src : string) : option st6 :=
  match src with
  | EmptyString => Some s
  | String ch rest =>
      match hex_digit_value ch with
      | Some digit =>
          if xdigits_seen s =? 4 then None
          else
            let v := Z.lor (Z.shiftl (val s) 4) digit in
            if 65535 <? v then None
            else pton6_loop curtok (St6 (tp s) (colonp s) (xdigits_seen s + 1) v) rest
      | None =>
          if Ascii.eqb ch ":" then
            if xdigits_seen s =? 0 then
              match colonp s with
              | Some _ => None
              | None => pton6_loop rest (St6 (tp s) (Some (List.length (tp s))) 0 (val s)) rest
              end
            else
              match rest with
              | EmptyString => None
              | _ =>
                  if 16 <? len (tp s) + 2 then None
                  else pton6_loop rest (St6 (tp s ++ group_bytes (val s)) (colonp s) 0 0) rest
              end
          else if Ascii.eqb ch "." && (len (tp s) + 4 <=? 16) then
            match inet_pton4 curtok with
            | Some b4 => Some (St6 (tp s ++ b4) (colonp s) 0 (val s))
            | None => None
            end
          else None
      end
  end.

(** After the loop: the last group is stored, a [::] is filled with
    zero bytes, and sixteen bytes must have resulted. *)
Definition pton6_finish (s : st6) : option (list Z) :=
  let last :=
    if 0 <? xdigits_seen s then
      if 16 <? len (tp s) + 2 then None else Some (tp s ++ group_bytes (val s))
    else Some (tp s) in
  match last with
  | None => None
  | Some t =>
      match colonp s with
      | Some c =>
          if len t =? 16 then None
          else Some (firstn c t ++ repeat 0 (16 - List.length t) ++ skipn c t)
      | None => if len t =? 16 then Some t else None
      end
  end.

(** [inet_pton(AF_INET6, src)]: sixteen bytes, or nothing for an illegal text. *)
Definition inet_pton6 (src : string) : option (list Z) :=
  let start :=
    match src with
    | EmptyString => None
    | String ":" (String ":" _ as rest) => Some rest
    | String ":" _ => None
    | _ => Some src
    end in
  match start with
  | None => None
  | Some src' =>
      match pton6_loop src' (St6 [] None 0 0) src' with
      | Some s => pton6_finish s
      | None => None
      end
  end.

Inductive family : Type := AF_INET | AF_INET6.

(** [socket.inet_pton(af, ip)] *)
Definition inet_pton (af : family) (ip : string) : result (list Z) :=
  if Py.contains zero ip then Raise (ValueError "embedded null character")
  else
    match (match af with AF_INET => inet_pton4 ip | AF_INET6 => inet_pton6 ip end) with
    | Some b => Ok b
    | None => Raise (OSError "illegal IP address string passed to inet_pton")
    end.

(** Big-endian value of a run of bytes. *)
Definition be_value (bytes : list Z) : Z :=
  fold_left (fun acc b => acc * 256 + b) bytes 0.

Definition bad_size : exn := StructError "unpack requires a buffer of %zd bytes".

(** [unpack('!L', b)[0]] *)
Definition unpack_L (b : list Z) : result Z :=
  if len b =? 4 then Ok (be_value b) else Raise bad_size.

(** [unpack('!QQ', b)] *)
Definition unpack_QQ (b : list Z) : result (Z * Z) :=
  if len b =? 16
  then Ok (be_value (firstn 8 b), be_value (skipn 8 b))
  else Raise bad_size.

(** *** Rendering: [struct.pack] and [inet_ntop] *)

(** The [n] bytes of [x], most significant first. *)
Fixpoint be_bytes (n : nat) (x : Z) : list Z :=
  match n with
  | O => []
  | S n' => be_bytes n' (x / 256) ++ [x mod 256]
  end.

(** The messages of [struct.error]: for the format [L] an integer that fits
    the platform's unsigned long (64 bits) but not 32 bits is told the
    bounds, any other one is out of range; for [Q] there is one message. *)
Definition out_of_range : exn := StructError "argument out of range".
Definition L_requires : exn :=
  StructError "'L' format requires 0 <= number <= 4294967295".
Definition too_large : exn := StructError "int too large to convert".

(** [pack('!L', x)] *)
Definition pack_L (x : Z) : result (list Z) :=
  if (0 <=? x) && (x <=? 4294967295) then Ok (be_bytes 4 x)
  else if (0 <=? x) && (x <=? 18446744073709551615) then Raise L_requires
  else Raise out_of_range.

(** [pack('!QQ', hi, lo)]: the arguments are packed in order. *)
Definition pack_QQ (hi lo : Z) : result (list Z) :=
  if (0 <=? hi) && (hi <=? 18446744073709551615) then
    if (0 <=? lo) && (lo <=? 18446744073709551615)
    then Ok (be_bytes 8 hi ++ be_bytes 8 lo)
    else Raise too_large
  else Raise too_large.

(** The character of a decimal or hexadecimal digit, lower case. *)
Definition digit_char (d : Z) : ascii :=
  ascii_of_N (Z.to_N (if d <? 10 then 48 + d else 87 + d)).

(** [sprintf "%u"] of a byte. *)
Definition decimal (b : Z) : string :=
  if b <? 10 then String (digit_char b) EmptyString
  else if b <? 100 then
    String (digit_char (b / 10)) (String (digit_char (b mod 10)) EmptyString)
  else
    String (digit_char (b / 100))
      (String (digit_char (b / 10 mod 10))
         (String (digit_char (b mod 10)) EmptyString)).

(** [sprintf "%u.%u.%u.%u"] when there are four bytes. *)
Fixpoint dotted (bs : list Z) : string :=
  match bs with
  | [] => EmptyString
  | [b] => decimal b
  | b :: rest => (decimal b ++ String "." (dotted rest))%string
  end.

Definition inet_ntop4 (src : list Z) : string := dotted src.

(** [sprintf "%x"] of a sixteen-bit word. *)
Definition hex (w : Z) : string :=
  if w <? 16 then String (digit_char w) EmptyString
  else if w <? 256 then
    String (digit_char (w / 16)) (String (digit_char (w mod 16)) EmptyString)
  else if w <? 4096 then
    String (digit_char (w / 256))
      (String (digit_char (w / 16 mod 16))
         (String (digit_char (w mod 16)) EmptyString))
  else
    String (digit_char (w / 4096))
      (String (digit_char (w / 256 mod 16))
         (String (digit_char (w / 16 mod 16))
            (String (digit_char (w mod 16)) EmptyString))).

(** The sixteen-bit words of a run of bytes. *)
Fixpoint words_of (src : list Z) : list Z :=
  match src with
  | b1 :: b2 :: rest => Z.lor (Z.shiftl b1 8) b2 :: words_of rest
  | _ => []
  end.

(** A run of zero words: where it starts and how long it is. *)
Definition run : Type := option (nat * nat).

(** [if (best.base == -1 || cur.len > best.len) best = cur], for a [cur]
    that is set. *)
Definition keep_longer (best cur : run) : run :=
  match cur with
  | None => best
  | Some (_, cur_len) =>
      match best with
      | None => cur
      | Some (_, best_len) => if (best_len <? cur_len)%nat then cur else best
      end
  end.

(** The scan for the longest run of zero words, from word [i] on. *)
Fixpoint scan_runs (i : nat) (words : list Z) (best cur : run) : run :=
  match words with
  | [] => keep_longer best cur
  | w :: rest =>
      if w =? 0 then
        scan_runs (S i) rest best
          (match cur with
           | None => Some (i, 1%nat)
           | Some (base, len) => Some (base, S len)
           end)
      else scan_runs (S i) rest (keep_longer best cur) None
  end.

(** The run that is written as [::]: the first longest one, of two words
    at least. *)
Definition best_run (words : list Z) : run :=
  match scan_runs 0 words None None with
  | Some (base, len) => if (len <? 2)%nat then None else Some (base, len)
  | None => None
  end.

Definition in_run (best : run) (i : nat) : bool :=
  match best with
  | Some (base, len) => (base <=? i)%nat && (i <? base + len)%nat
  | None => false
  end.

(** Whether word 6 starts an embedded dotted-decimal tail. *)
Definition encapsulated (best : run) (word5 : Z) : bool :=
  match best with
  | Some (O, len) =>
      (len =? 6)%nat || ((len =? 5)%nat && (word5 =? 65535))
  | _ => false
  end.

(** The writing loop, from word [i] on; [src] is the whole address and
    [word5] its sixth word. *)
Fixpoint ntop6_loop (i : nat) (words : list Z) (best : run) (word5 : Z)
         (src : list Z) : string :=
  match words with
  | [] =>
      match best with
      | Some (base, len) =>
          if (base + len =? 8)%nat then String ":" EmptyString else EmptyString
      | None => EmptyString
      end
  | w :: rest =>
      if in_run best i then
        match best with
        | Some (base, _) =>
            if (i =? base)%nat
            then String ":" (ntop6_loop (S i) rest best word5 src)
            else ntop6_loop (S i) rest best word5 src
        | None => ntop6_loop (S i) rest best word5 src
        end
      else
        let tail :=
          if (i =? 6)%nat && encapsulated best word5
          then inet_ntop4 (skipn 12 src)
          else (hex w ++ ntop6_loop (S i) rest best word5 src)%string in
        if (i =? 0)%nat then tail else String ":" tail
  end.

Definition inet_ntop6 (src : list Z) : string :=
  let words := words_of src in
  ntop6_loop 0 words (best_run words) (nth 5 words 0) src.

(** [socket.inet_ntop(af, packed)] *)
Definition inet_ntop (af : family) (packed : list Z) : result string :=
  match af with
  | AF_INET =>
      if len packed =? 4 then Ok (inet_ntop4 packed)
      else Raise (ValueError "invalid length of packed IP address string")
  | AF_INET6 =>
      if len packed =? 16 then Ok (inet_ntop6 packed)
      else Raise (ValueError "invalid length of packed IP address string")
  end.

End Inet.

(** ** class Converter (lines 10-51) *)

Module Converter.

Definition v4_MAX : Z := 4294967295.
Definition v6_MAX : Z := 340282366920938463463374607431768211455.

(** What a caller may pass where an address is expected. *)
Inductive value : Type :=
| VNone
| VStr (s : string)
| VInt (n : Z).

(** [get_version] *)
Definition get_version (ip : value) : Z :=
  match ip with
  | VInt n => if (0 <=? n) && (n <=? v4_MAX) then 4 else 6
  | VStr s => if Py.contains "." s then 4 else 6
  | VNone => 4
  end.

(** [try: ... except OSError: raise ValueError("illegal IP address %s" % ip)] *)
Definition except_OSError {A : Type} (body : result A) : result A :=
  match body with
  | Raise (OSError _) => Raise InvalidAddress
  | r => r
  end.

(** [v4_to_int] *)
Definition v4_to_int (ip : string) : result Z :=
  except_OSError (b <- Inet.inet_pton Inet.AF_INET ip ;; Inet.unpack_L b).

(** [v6_to_int] *)
Definition v6_to_int (ip : string) : result Z :=
  except_OSError
    ('(hi, lo) <- (b <- Inet.inet_pton Inet.AF_INET6 ip ;; Inet.unpack_QQ b) ;;
     Ok (Z.lor (Z.shiftl hi 64) lo)).

(** [version or get_version(x)]: [None] and [0] are false. *)
Definition version_or (version : option Z) (fallback : Z) : Z :=
  match version with
  | Some v => if v =? 0 then fallback else v
  | None => fallback
  end.

(** [v4_to_int if version == 4 else v6_to_int] *)
Definition select_to_int (version : Z) : string -> result Z :=
  if version =? 4 then v4_to_int else v6_to_int.

(** [try: ... except OSError: raise ValueError("illegal IP integer %d" % int_)] *)
Definition except_OSError_integer {A : Type} (body : result A) : result A :=
  match body with
  | Raise (OSError _) => Raise (ValueError "illegal IP integer %d")
  | r => r
  end.

(** [int_to_v4] *)
Definition int_to_v4 (int_ : Z) : result string :=
  except_OSError_integer
    (b <- Inet.pack_L int_ ;; Inet.inet_ntop Inet.AF_INET b).

(** [int_to_v6] *)
Definition int_to_v6 (int_ : Z) : result string :=
  except_OSError_integer
    (b <- Inet.pack_QQ (Z.shiftr int_ 64) (Z.land int_ (2 ^ 64 - 1)) ;;
     Inet.inet_ntop Inet.AF_INET6 b).

(** [int_to_v4 if version == 4 else int_to_v6] *)
Definition select_to_addr (version : Z) : Z -> result string :=
  if version =? 4 then int_to_v4 else int_to_v6.

End Converter.

(** ** class IPAddress (lines 55-73) *)

Module IPAddress.

Import Converter.

(** The class line 63 stores: [int] is the integer class of the
    interpreter, which has no other. *)
Inductive pyclass : Type := int.

Record t : Type := Build {
  ip : value;
  version : Z;
  int_ : pyclass;
  to_int : string -> result Z;
  to_addr : Z -> result string
}.

(** What reading the name [long] raises. *)
Definition undefined_long : exn := NameError "name 'long' is not defined".

(** [int if self.version == 4 else long] (line 63) *)
Definition select_class (version : Z) : result pyclass :=
  if version =? 4 then Ok int else Raise undefined_long.

(** [IPAddress(ip, version)]: nothing is parsed here. *)
Definition __init__ (ip : value) (version : option Z) : result t :=
  let v := version_or version (get_version ip) in
  int_ <- select_class v ;;
  Ok {| ip := ip;
        version := v;
        int_ := int_;
        to_int := select_to_int v;
        to_addr := select_to_addr v |}.

(** [int(self)]: a stored text goes through the address's own codec. *)
Definition __int__ (self : t) : result Z :=
  match ip self with
  | VStr s => to_int self s
  | VInt n => Ok n
  | VNone => Raise (TypeError "__int__ returned non-int (type %.200s)")
  end.

(** [str(self)] (lines 71-73): a stored integer is rendered, a stored text
    is returned as it is. *)
Definition __str__ (self : t) : result string :=
  match ip self with
  | VInt n => to_addr self n
  | VStr s => Ok s
  | VNone => Raise (TypeError "__str__ returned non-string (type %.200s)")
  end.

End IPAddress.

(** ** The methods [IPNetwork] and [IPRange] have in common

    Lines 92-135 and 149-159 of [IPNetwork] are repeated word for word as
    lines 186-229 and 241-251 of [IPRange]; they read three attributes of
    [self]. *)

Class RangeObject (R : Type) : Type := {
  range : R -> Z * Z;
  version : R -> Z;
  to_int : R -> string -> result Z
}.

(** What [__contains__] is asked about. *)
Inductive candidate : Type :=
| CAddr (a : IPAddress.t)
| CInt (n : Z)
| CStr (s : string)
| CNone.

(** What [__getitem__] is indexed with. *)
Inductive index : Type :=
| ISlice (sl : Py.slice)
| IInt (n : Z)
| IFloat (f : Py.float)
| IStr (s : string)
| INone.

(** What [__getitem__] returns: one address, or a list for a slice. *)
Inductive item : Type :=
| One (a : IPAddress.t)
| Many (l : list IPAddress.t).

(** [int(index)] *)
Definition int_of_index (i : index) : result Z :=
  match i with
  | IInt n => Ok n
  | IFloat f => Py.int_of_float f
  | IStr s => Py.int_of_str s
  | ISlice _ | INone => Raise (TypeError "int() argument must be a string, a bytes-like object or a real number, not '%.200s'")
  end.

(** [try: ... except ValueError: raise TypeError('unsupported index type %r' % index)] *)
Definition except_ValueError {A : Type} (body : result A) : result A :=
  match body with
  | Raise (ValueError _) => Raise InvalidIndexType
  | r => r
  end.

Section RangeMethods.

Context {R : Type} `{RangeObject R}.

Definition lo (self : R) : Z := fst (range self).
Definition hi (self : R) : Z := snd (range self).

(** [IPAddress(x, self.version)] *)
Definition address (self : R) (x : Z) : result IPAddress.t :=
  IPAddress.__init__ (Converter.VInt x) (Some (version self)).

(** [__len__] (lines 92-93, 186-187) *)
Definition __len__ (self : R) : Z := (hi self + 1) - lo self.

(** The integer [__contains__] compares (lines 96-99, 190-193): an address
    converts itself, an integer is taken as it is, anything else goes to
    [self.to_int]. *)
Definition normalize (self : R) (ip : candidate) : result Z :=
  match ip with
  | CAddr a => IPAddress.__int__ a
  | CInt n => Ok n
  | CStr s => to_int self s
  | CNone => Raise (TypeError "inet_pton() argument 2 must be str, not %.50s")
  end.

(** [__contains__] (lines 95-100, 189-194) *)
Definition __contains__ (self : R) (ip : candidate) : result bool :=
  ip <- normalize self ip ;;
  Ok ((lo self <=? ip) && (ip <=? hi self)).

(** [__getitem__] (lines 105-135, 199-229) *)
Definition __getitem__ (self : R) (i : index) : result item :=
  match i with
  | ISlice sl =>
      '(start, stop, step) <- Py.indices sl (__len__ self) ;;
      if (start + step <? 0) || (stop <? step) then
        a <- address self (lo self) ;;
        Ok (Many [a])
      else
        let start := lo self + start in
        let stop := lo self + stop in
        xs <- Py.range start stop step ;;
        l <- Py.comprehension (address self) xs ;;
        Ok (Many l)
  | _ =>
      except_ValueError
        (n <- int_of_index i ;;
         if (- __len__ self <=? n) && (n <? 0) then
           a <- address self (hi self + n + 1) ;;
           Ok (One a)
         else if (0 <=? n) && (n <=? __len__ self - 1) then
           a <- address self (lo self + n) ;;
           Ok (One a)
         else Raise IndexOutOfRange)
  end.

(** The generator object [iter_] returns (lines 149-159, 241-251): not yet
    started, suspended at the [yield] with its three locals, or finished. *)
Inductive generator : Type :=
| Created (self : R)
| Suspended (self : R) (start stop index : Z)
| Finished.

Definition iter_ (self : R) : generator := Created self.

(** [__iter__] (lines 102-103, 196-197) *)
Definition __iter__ (self : R) : generator := iter_ self.

(** One turn of [while True]: the generator yields an address and is
    suspended, or ends, at [break] or with the exception its body raises. *)
Definition loop_body (self : R) (start stop index : Z)
  : result (option IPAddress.t) * generator :=
  let ip := start + index in
  let index := index + 1 in
  if stop <? ip then (Ok None, Finished)
  else match address self ip with
       | Ok a => (Ok (Some a), Suspended self start stop index)
       | Raise e => (Raise e, Finished)
       end.

(** [next(g)]: the address yielded, nothing at [StopIteration], or the
    exception that comes out of the generator. *)
Definition next (g : generator) : result (option IPAddress.t) * generator :=
  match g with
  | Created self => loop_body self (lo self) (hi self) 0
  | Suspended self start stop index => loop_body self start stop index
  | Finished => (Ok None, Finished)
  end.

(** [list(g)], given up after [fuel] calls of [next]. *)
Fixpoint drain (fuel : nat) (g : generator)
  : option (result (list IPAddress.t)) :=
  match fuel with
  | O => None
  | S fuel' =>
      match next g with
      | (Ok None, _) => Some (Ok [])
      | (Raise e, _) => Some (Raise e)
      | (Ok (Some a), g') =>
          match drain fuel' g' with
          | Some (Ok l) => Some (Ok (a :: l))
          | Some (Raise e) => Some (Raise e)
          | None => None
          end
      end
  end.

(** [n] calls of [next]: the generator afterwards. *)
Fixpoint advance (n : nat) (g : generator) : generator :=
  match n with
  | O => g
  | S n' => advance n' (snd (next g))
  end.

End RangeMethods.

(** ** class IPNetwork (lines 77-90, 137-147) *)

Module IPNetwork.

Import Converter.

Record t : Type := Build {
  network : string;
  version : Z;
  to_int : string -> result Z;
  bit : Z;
  range : Z * Z
}.

(** [expand]; it reads [self.network], [self.bit] and [self.to_int].  The
    shift count [bits] is never negative here. *)
Definition expand (network : string) (bit : Z) (to_int : string -> result Z)
  : result (Z * Z) :=
  '(ip, cidr) <- Py.unpack2 (Py.split "/" network) ;;
  c <- Py.int_of_str cidr ;;
  if bit <? c then Raise InvalidCidr
  else
    let bits := bit - c in
    ip <- to_int ip ;;
    let lo := Z.shiftl (Z.shiftr ip bits) bits in
    let hi := Z.lor lo (Z.shiftl 1 bits - 1) in
    Ok (lo, hi).

(** [IPNetwork(network, version)] *)
Definition __init__ (network : string) (version : option Z) : result t :=
  if negb (Py.contains "/" network) then Raise MalformedCidr
  else
    let version := version_or version (get_version (VStr network)) in
    let to_int := select_to_int version in
    let bit := if version =? 4 then 32 else 128 in
    range <- expand network bit to_int ;;
    Ok {| network := network; version := version; to_int := to_int;
          bit := bit; range := range |}.

End IPNetwork.

#[export] Instance IPNetwork_RangeObject : RangeObject IPNetwork.t := {
  range := IPNetwork.range;
  version := IPNetwork.version;
  to_int := IPNetwork.to_int
}.

(** ** class IPRange (lines 163-184, 231-239) *)

Module IPRange.

Import Converter.

Record t : Type := Build {
  range_ : option string;
  version : Z;
  to_int : string -> result Z;
  range : Z * Z
}.

(** The truth value of an optional text: [None] and [''] are false. *)
Definition truthy (x : option string) : bool :=
  match x with
  | Some (String _ _) => true
  | _ => false
  end.

Definition as_value (x : option string) : value :=
  match x with
  | Some s => VStr s
  | None => VNone
  end.

Definition text (x : option string) : string :=
  match x with
  | Some s => s
  | None => EmptyString
  end.

(** [expand]; it reads [self.range_] and [self.to_int]. *)
Definition expand (range_ : string) (to_int : string -> result Z)
  : result (Z * Z) :=
  '(start, end_) <- Py.unpack2 (Py.split "-" range_) ;;
  lo <- to_int (Py.strip start) ;;
  hi <- to_int (Py.strip end_) ;;
  if hi <? lo then Raise InvalidRange
  else Ok (lo, hi).

(** [IPRange(range_, start, stop, version)] *)
Definition __init__ (range_ start stop : option string) (version : option Z)
  : result t :=
  let self_range_ := if truthy range_ then range_ else start in
  let version := version_or version (get_version (as_value self_range_)) in
  let to_int := select_to_int version in
  if truthy range_ then
    if negb (Py.contains "-" (text range_)) then Raise MalformedRange
    else
      range <- expand (text self_range_) to_int ;;
      Ok {| range_ := self_range_; version := version; to_int := to_int;
            range := range |}
  else if truthy start && truthy stop then
    lo <- to_int (Py.strip (text start)) ;;
    hi <- to_int (Py.strip (text stop)) ;;
    Ok {| range_ := self_range_; version := version; to_int := to_int;
          range := (lo, hi) |}
  else Raise (ValueError "missing parameter for IPRange initialization").

End IPRange.

#[export] Instance IPRange_RangeObject : RangeObject IPRange.t := {
  range := IPRange.range;
  version := IPRange.version;
  to_int := IPRange.to_int
}.

(** ** Vocabulary of the properties *)

(** The normalization that the specification words for [contains]: every
    form of candidate, an address included, goes through the codec of the
    range's own version. *)
Definition normalize_by_range_codec {R : Type} `{RangeObject R}
           (self : R) (ip : candidate) : result Z :=
  match ip with
  | CAddr a =>
      match IPAddress.ip a with
      | Converter.VStr s => to_int self s
      | Converter.VInt n => Ok n
      | Converter.VNone => Raise (TypeError "not an address")
      end
  | CInt n => Ok n
  | CStr s => to_int self s
  | CNone => Raise (TypeError "not an address")
  end.

(** An index that is neither an integer nor a slice specification. *)
Definition other_index (i : index) : Prop :=
  match i with
  | ISlice _ | IInt _ => False
  | IFloat _ | IStr _ | INone => True
  end.

(** The Address of the integer [x] with version 4: what lines 61-65 store
    for [IPAddress(x, 4)], written out. *)
Definition Address_v4 (x : Z) : IPAddress.t :=
  {| IPAddress.ip := Converter.VInt x;
     IPAddress.version := 4;
     IPAddress.int_ := IPAddress.int;
     IPAddress.to_int := Converter.v4_to_int;
     IPAddress.to_addr := Converter.int_to_v4 |}.

(** The Address of the text [s] with version 4. *)
Definition Address_v4_of_text (s : string) : IPAddress.t :=
  {| IPAddress.ip := Converter.VStr s;
     IPAddress.version := 4;
     IPAddress.int_ := IPAddress.int;
     IPAddress.to_int := Converter.v4_to_int;
     IPAddress.to_addr := Converter.int_to_v4 |}.

(** The comparison [lo <= x <= hi] that membership returns. *)
Definition within {R : Type} `{RangeObject R} (self : R) (x : Z) : bool :=
  (fst (range self) <=? x) && (x <=? snd (range self)).

(** The integers [start], [start + 1], ... of an ascending walk. *)
Definition walk (start : Z) (n : nat) : list Z := Py.count_from start 1 n.

(** A byte of a packed address. *)
Definition byte (b : Z) : Prop := 0 <= b < 256.

(** A sixteen-bit word of a packed address. *)
Definition word16 (w : Z) : Prop := 0 <= w < 65536.

(** A run of words, all zero, within a list of words. *)
Definition zero_run (words : list Z) (r : Inet.run) : Prop :=
  match r with
  | None => True
  | Some (base, len) =>
      (1 <= len)%nat /\ (base + len <= List.length words)%nat /\
      forall i : nat, (base <= i < base + len)%nat -> nth i words 1 = 0
  end.

(** How many digits [sprintf "%x"] writes for a sixteen-bit word. *)
Definition hexlen (w : Z) : Z :=
  if w <? 16 then 1 else if w <? 256 then 2 else if w <? 4096 then 3 else 4.

(** The address space of a version: 32 bits for 4, 128 bits otherwise. *)
Definition bitwidth (version : Z) : Z := if version =? 4 then 32 else 128.

(** The objects the examples of the specification are about. *)

Definition net_10_0_0_0_24 : IPNetwork.t :=
  {| IPNetwork.network := "10.0.0.0/24";
     IPNetwork.version := 4;
     IPNetwork.to_int := Converter.v4_to_int;
     IPNetwork.bit := 32;
     IPNetwork.range := (167772160, 167772415) |}.

Definition net_192_168_1_0_24 : IPNetwork.t :=
  {| IPNetwork.network := "192.168.1.0/24";
     IPNetwork.version := 4;
     IPNetwork.to_int := Converter.v4_to_int;
     IPNetwork.bit := 32;
     IPNetwork.range := (3232235776, 3232236031) |}.

Definition net_v6_all : IPNetwork.t :=
  {| IPNetwork.network := "::/0";
     IPNetwork.version := 6;
     IPNetwork.to_int := Converter.v6_to_int;
     IPNetwork.bit := 128;
     IPNetwork.range := (0, 2 ^ 128 - 1) |}.

Definition span_10_0_0_1_to_3 : IPRange.t :=
  {| IPRange.range_ := Some "10.0.0.1-10.0.0.3";
     IPRange.version := 4;
     IPRange.to_int := Converter.v4_to_int;
     IPRange.range := (167772161, 167772163) |}.

(** What the pair path returns for ("10.0.0.10", "10.0.0.5"). *)
Definition span_10_0_0_10_to_5 : IPRange.t :=
  {| IPRange.range_ := Some "10.0.0.10";
     IPRange.version := 4;
     IPRange.to_int := Converter.v4_to_int;
     IPRange.range := (167772170, 167772165) |}.

Definition net_10_0_0_5_32 : IPNetwork.t :=
  {| IPNetwork.network := "10.0.0.5/32";
     IPNetwork.version := 4;
     IPNetwork.to_int := Converter.v4_to_int;
     IPNetwork.bit := 32;
     IPNetwork.range := (167772165, 167772165) |}.

Definition net_v6_one : IPNetwork.t :=
  {| IPNetwork.network := "::1/128";
     IPNetwork.version := 6;
     IPNetwork.to_int := Converter.v6_to_int;
     IPNetwork.bit := 128;
     IPNetwork.range := (1, 1) |}.

(** The slices [1:2:3], [2:5:7], [1::-2], [5:2] and [2:5], and the index
    1.5. *)
Definition slice_1_2_3 : Py.slice := Py.Slice (Some 1) (Some 2) (Some 3).
Definition slice_2_5_7 : Py.slice := Py.Slice (Some 2) (Some 5) (Some 7).
Definition slice_1_back_2 : Py.slice := Py.Slice (Some 1) None (Some (-2)).
Definition slice_5_2 : Py.slice := Py.Slice (Some 5) (Some 2) None.
Definition slice_2_5 : Py.slice := Py.Slice (Some 2) (Some 5) None.
Definition one_and_a_half : Py.float := Py.Finite 3 (-1).

(** ** Proof automation *)

(** Splits on the conditions a hypothesis branches on. *)
Ltac split_cases H :=
  repeat match type of H with
         | context [match ?x with _ => _ end] => destruct x eqn:?
         | context [if ?x then _ else _] => destruct x eqn:?
         end;
  try discriminate H.

(** Turns the boolean tests among the hypotheses into propositions. *)
Ltac bools :=
  repeat match goal with
         | H : (_ && _)%bool = true |- _ => apply andb_prop in H as [? ?]
         | H : (_ || _)%bool = false |- _ => apply orb_false_elim in H as [? ?]
         | H : negb _ = true |- _ => apply negb_true_iff in H
         | H : negb _ = false |- _ => apply negb_false_iff in H
         | H : (_ =? _) = true |- _ => apply Z.eqb_eq in H
         | H : (_ =? _) = false |- _ => apply Z.eqb_neq in H
         | H : (_ <? _) = true |- _ => apply Z.ltb_lt in H
         | H : (_ <? _) = false |- _ => apply Z.ltb_ge in H
         | H : (_ <=? _) = true |- _ => apply Z.leb_le in H
         | H : (_ <=? _) = false |- _ => apply Z.leb_gt in H
         end.

(** * Properties *)

(** ** The runtime pieces on concrete inputs *)

Example pton4_ex1 : Inet.inet_pton4 "10.0.0.255" = Some [10; 0; 0; 255].
Proof. reflexivity. Qed.
Example pton4_ex2 : Inet.inet_pton4 "10.0.0.256" = None.
Proof. reflexivity. Qed.
Example pton4_ex3 : Inet.inet_pton4 "10.0.0" = None.
Proof. reflexivity. Qed.
Example pton4_ex4 : Inet.inet_pton4 "10.0.0.01" = None.
Proof. reflexivity. Qed.
Example int_ex1 : Py.int_of_str " -12 " = Ok (-12).
Proof. reflexivity. Qed.
Example int_ex2 : Py.int_of_str "1_0" = Ok 10.
Proof. reflexivity. Qed.
Example int_ex3 : Py.int_of_str (String "028" "5") = Raise Py.bad_literal.
Proof. reflexivity. Qed.
Example int_ex4 : Py.int_of_str (String "160" (String "5" (String "133" EmptyString))) = Ok 5.
Proof. reflexivity. Qed.
Example int_ex5 : Py.int_of_str "1_" = Raise Py.bad_literal.
Proof. reflexivity. Qed.
Example int_ex6 :
  Py.int_of_str (string_of_list_ascii (repeat "0"%char 4300)) = Ok 0.
Proof. vm_compute. reflexivity. Qed.
Example int_ex7 :
  Py.int_of_str (string_of_list_ascii (repeat "0"%char 4301 ++ ["x"%char]))
  = Raise Py.too_many_digits.
Proof. vm_compute. reflexivity. Qed.
Example strip_ex1 : Py.strip (String "028" (String "5" (String "160" EmptyString))) = "5".
Proof. reflexivity. Qed.
Example strip_ex2 : Py.strip " 10.0.0.1 " = "10.0.0.1".
Proof. reflexivity. Qed.
Example pack_ex1 : Inet.pack_L 4294967296 = Raise Inet.L_requires.
Proof. reflexivity. Qed.
Example pack_ex2 : Inet.pack_L (-1) = Raise Inet.out_of_range.
Proof. reflexivity. Qed.
Example pack_ex3 : Inet.pack_L (2 ^ 64) = Raise Inet.out_of_range.
Proof. reflexivity. Qed.
Example pack_ex4 : Inet.pack_QQ (2 ^ 64) 0 = Raise Inet.too_large.
Proof. reflexivity. Qed.
Example address_ex1 :
  IPAddress.__init__ (Converter.VInt 1) (Some 6) = Raise IPAddress.undefined_long.
Proof. reflexivity. Qed.
Example address_ex2 :
  IPAddress.__init__ (Converter.VStr "::1") None = Raise IPAddress.undefined_long.
Proof. reflexivity. Qed.
Example address_ex3 :
  IPAddress.__init__ (Converter.VInt (2 ^ 32)) None = Raise IPAddress.undefined_long.
Proof. reflexivity. Qed.
Example split_ex : Py.split "/" "10.0.0.0/24" = ["10.0.0.0"; "24"].
Proof. reflexivity. Qed.
Example range_ex : Py.range 9 (-1) (-2) = Ok [9; 7; 5; 3; 1].
Proof. reflexivity. Qed.
Example indices_ex : Py.indices (Py.Slice None None (Some (-1))) 10 = Ok (9, -1, -1).
Proof. reflexivity. Qed.
Example pton6_ex1 : Inet.inet_pton6 "::" = Some (repeat 0 16).
Proof. reflexivity. Qed.
Example pton6_ex2 : Inet.inet_pton6 "::ffff:1.2.3.4" = Some [0;0;0;0;0;0;0;0;0;0;255;255;1;2;3;4].
Proof. reflexivity. Qed.
Example pton6_ex3 : Inet.inet_pton6 "2001:db8::" = Some [32;1;13;184;0;0;0;0;0;0;0;0;0;0;0;0].
Proof. reflexivity. Qed.
Example pton6_ex4 : Inet.inet_pton6 "1:2:3:4:5:6:7:8" = Some [0;1;0;2;0;3;0;4;0;5;0;6;0;7;0;8].
Proof. reflexivity. Qed.
Example pton6_ex5 : Inet.inet_pton6 "1:2:3:4:5:6:7::8" = None.
Proof. reflexivity. Qed.
Example pton6_ex6 : Inet.inet_pton6 "1.2.3.4" = None.
Proof. reflexivity. Qed.
Example pton6_ex7 : Inet.inet_pton6 ":1::" = None.
Proof. reflexivity. Qed.
Example pton6_ex8 : Inet.inet_pton6 "1:2:3:4:5:6:1.2.3.4" = Some [0;1;0;2;0;3;0;4;0;5;0;6;1;2;3;4].
Proof. reflexivity. Qed.
Example pton6_ex9 : Inet.inet_pton6 "1::2:" = None.
Proof. reflexivity. Qed.
Example v4_ex : Converter.v4_to_int "10.0.0.255" = Ok 167772415.
Proof. reflexivity. Qed.
Example v6_ex : Converter.v6_to_int "2001:db8::" = Ok (0x20010db8 * 2 ^ 96).
Proof. reflexivity. Qed.
Example v6_ex2 : Converter.v6_to_int "10.0.0.1" = Raise InvalidAddress.
Proof. reflexivity. Qed.
(** ** Text: membership and splitting *)

Lemma split_not_nil (c : ascii) (s : string) : Py.split c s <> [].
Proof.
  destruct s as [|x r]; simpl; [discriminate|].
  destruct (Ascii.eqb x c); [discriminate|].
  destruct (Py.split c r); discriminate.
Qed.

Lemma split_without_separator (c : ascii) (s : string) :
  Py.contains c s = false -> Py.split c s = [s].
Proof.
  induction s as [|x r IH]; simpl; intros Hc; [reflexivity|].
  apply orb_false_elim in Hc as [Hx Hr].
  rewrite Hx, (IH Hr). reflexivity.
Qed.

Lemma split_two_has_separator (c : ascii) (s a b : string) :
  Py.split c s = [a; b] -> Py.contains c s = true.
Proof.
  intros Hs. destruct (Py.contains c s) eqn:Hc; [reflexivity|].
  rewrite (split_without_separator _ _ Hc) in Hs. discriminate.
Qed.

Lemma split_part_contains (c d : ascii) (s part : string) :
  In part (Py.split c s) -> Py.contains d part = true -> Py.contains d s = true.
Proof.
  revert part. induction s as [|x r IH]; simpl; intros part Hin Hd.
  - destruct Hin as [<-|[]]. discriminate.
  - destruct (Ascii.eqb x c).
    + destruct Hin as [<-|Hin]; [discriminate|].
      rewrite (IH _ Hin Hd). apply orb_true_r.
    + destruct (Py.split c r) as [|h t] eqn:Hsp.
      * destruct Hin as [<-|[]]. simpl in Hd.
        rewrite orb_false_r in Hd. now rewrite Hd.
      * destruct Hin as [<-|Hin].
        -- simpl in Hd. apply orb_true_iff in Hd as [Hd|Hd].
           ++ now rewrite Hd.
           ++ rewrite (IH h (or_introl eq_refl) Hd). apply orb_true_r.
        -- rewrite (IH part (or_intror Hin) Hd). apply orb_true_r.
Qed.

(** ** Bytes and their big-endian value *)

Lemma u8_byte (x : Z) : byte (Inet.u8 x).
Proof. unfold byte, Inet.u8. apply Z.mod_pos_bound. lia. Qed.

Lemma be_fold_bound (bs : list Z) (acc : Z) :
  0 <= acc -> Forall byte bs ->
  0 <= fold_left (fun a b => a * 256 + b) bs acc
    <= acc * 256 ^ Inet.len bs + (256 ^ Inet.len bs - 1).
Proof.
  revert acc. induction bs as [|b bs IH]; intros acc Hacc Hb.
  - unfold Inet.len. simpl. lia.
  - inversion Hb as [|? ? Hb1 Hb2]; subst. unfold byte in Hb1.
    simpl fold_left.
    assert (Hacc' : 0 <= acc * 256 + b) by lia.
    specialize (IH _ Hacc' Hb2).
    replace (Inet.len (b :: bs)) with (Z.succ (Inet.len bs))
      by (unfold Inet.len; simpl List.length; lia).
    rewrite Z.pow_succ_r by (unfold Inet.len; lia).
    assert (0 < 256 ^ Inet.len bs) by (apply Z.pow_pos_nonneg; unfold Inet.len; lia).
    nia.
Qed.

Lemma be_value_bound (bs : list Z) :
  Forall byte bs -> 0 <= Inet.be_value bs < 256 ^ Inet.len bs.
Proof.
  intros Hb. unfold Inet.be_value.
  pose proof (be_fold_bound bs 0 (Z.le_refl 0) Hb). lia.
Qed.

(** ** The dotted-decimal parser *)

Lemma digit_not_colon (ch : ascii) (d : Z) :
  Py.digit_value ch = Some d -> Ascii.eqb ch ":" = false.
Proof.
  intros Hd. destruct (Ascii.eqb_spec ch ":") as [->|]; [|reflexivity].
  discriminate Hd.
Qed.

Lemma dot_not_colon (ch : ascii) :
  Ascii.eqb ch "." = true -> Ascii.eqb ch ":" = false.
Proof.
  intros Hd. apply Ascii.eqb_eq in Hd. now subst.
Qed.

Lemma pton4_loop_no_colon (src : string) :
  forall done cur saw octets b,
    Inet.pton4_loop done cur saw octets src = Some b ->
    Py.contains ":" src = false.
Proof.
  induction src as [|ch rest IH]; intros done cur saw octets b Hp;
    [reflexivity|].
  cbn [Inet.pton4_loop] in Hp. cbn [Py.contains].
  destruct (Py.digit_value ch) as [d|] eqn:Hd.
  - rewrite (digit_not_colon _ _ Hd). split_cases Hp; eauto.
  - destruct (Ascii.eqb ch ".") eqn:Hdot; [|discriminate Hp].
    rewrite (dot_not_colon _ Hdot). split_cases Hp; eauto.
Qed.

Lemma pton4_loop_bytes (src : string) :
  forall done cur saw octets b,
    Forall byte done -> byte cur ->
    Inet.pton4_loop done cur saw octets src = Some b ->
    Forall byte b.
Proof.
  induction src as [|ch rest IH]; intros done cur saw octets b Hdone Hcur Hp;
    cbn [Inet.pton4_loop] in Hp.
  - split_cases Hp. injection Hp as <-.
    apply Forall_app. split; [assumption|]. now constructor.
  - split_cases Hp.
    + eapply IH; [exact Hdone|apply u8_byte|exact Hp].
    + eapply IH; [exact Hdone|apply u8_byte|exact Hp].
    + eapply IH; [| |exact Hp]; [|split; lia].
      apply Forall_app. split; [assumption|]. now constructor.
Qed.

Lemma pton4_loop_length (src : string) :
  forall done cur (saw : bool) octets b,
    Inet.len done + (if saw then 1 else 0) = octets ->
    Inet.len done <= 3 ->
    Inet.pton4_loop done cur saw octets src = Some b ->
    Inet.len b = 4.
Proof.
  assert (Hsnoc : forall (l : list Z) (x : Z), Inet.len (l ++ [x]) = Inet.len l + 1).
  { intros l x. unfold Inet.len. rewrite length_app. simpl. lia. }
  induction src as [|ch rest IH]; intros done cur saw octets b Hinv Hle Hp;
    cbn [Inet.pton4_loop] in Hp.
  - split_cases Hp. injection Hp as <-. rewrite Hsnoc.
    bools. destruct saw; lia.
  - split_cases Hp.
    + bools. eapply IH; [| |exact Hp]; cbv iota; lia.
    + bools. eapply IH; [| |exact Hp]; cbv iota; lia.
    + bools. subst saw. cbv iota in Hinv.
      eapply IH; [| |exact Hp]; rewrite Hsnoc.
      all: lia.
Qed.

Lemma inet_pton4_bytes (src : string) (b : list Z) :
  Inet.inet_pton4 src = Some b -> Forall byte b /\ Inet.len b = 4.
Proof.
  unfold Inet.inet_pton4. intros Hp. split.
  - eapply pton4_loop_bytes; [| |exact Hp]; [constructor|split; lia].
  - eapply pton4_loop_length; [| |exact Hp]; unfold Inet.len; simpl; lia.
Qed.

Lemma inet_pton4_no_colon (src : string) (b : list Z) :
  Inet.inet_pton4 src = Some b -> Py.contains ":" src = false.
Proof. apply pton4_loop_no_colon. Qed.

(** ** The colon-hex parser *)

Lemma land_255_byte (x : Z) : byte (Z.land x 255).
Proof.
  unfold byte. change 255 with (Z.ones 8).
  rewrite Z.land_ones by lia. apply Z.mod_pos_bound. lia.
Qed.

Lemma group_bytes_bytes (v : Z) : Forall byte (Inet.group_bytes v).
Proof. repeat constructor; apply land_255_byte. Qed.

Lemma pton6_loop_bytes (src : string) :
  forall curtok s s',
    Forall byte (Inet.tp s) ->
    Inet.pton6_loop curtok s src = Some s' ->
    Forall byte (Inet.tp s').
Proof.
  induction src as [|ch rest IH]; intros curtok s s' Hb Hp;
    cbn [Inet.pton6_loop] in Hp.
  - now injection Hp as <-.
  - split_cases Hp; try (eapply IH; [|exact Hp]; cbn [Inet.tp]; try assumption).
    + apply Forall_app. split; [assumption|apply group_bytes_bytes].
    + injection Hp as <-. cbn [Inet.tp].
      apply Forall_app. split; [assumption|].
      now apply inet_pton4_bytes with (src := curtok).
Qed.

Lemma Forall_firstn_skipn {A : Type} (P : A -> Prop) (n : nat) (l : list A) :
  Forall P l -> Forall P (firstn n l) /\ Forall P (skipn n l).
Proof.
  intros Hl. rewrite <- (firstn_skipn n l) in Hl.
  now apply Forall_app in Hl.
Qed.

Lemma pton6_finish_bytes (s : Inet.st6) (b : list Z) :
  Forall byte (Inet.tp s) -> Inet.pton6_finish s = Some b -> Forall byte b.
Proof.
  unfold Inet.pton6_finish. intros Hb Hf.
  assert (Hlast : forall t,
             (if 0 <? Inet.xdigits_seen s
              then if 16 <? Inet.len (Inet.tp s) + 2 then None
                   else Some (Inet.tp s ++ Inet.group_bytes (Inet.val s))
              else Some (Inet.tp s)) = Some t -> Forall byte t).
  { intros t Ht. split_cases Ht; injection Ht as <-; [|assumption].
    apply Forall_app. split; [assumption|apply group_bytes_bytes]. }
  destruct (if 0 <? Inet.xdigits_seen s then _ else _) as [t|] eqn:Ht;
    [|discriminate Hf].
  specialize (Hlast t eq_refl).
  split_cases Hf; injection Hf as <-; [|assumption].
  apply Forall_app. split; [now apply Forall_firstn_skipn|].
  apply Forall_app. split; [|now apply Forall_firstn_skipn].
  apply Forall_forall. intros x Hx. apply repeat_spec in Hx. subst x.
  split; lia.
Qed.

Lemma inet_pton6_bytes (src : string) (b : list Z) :
  Inet.inet_pton6 src = Some b -> Forall byte b.
Proof.
  unfold Inet.inet_pton6. intros Hp.
  destruct (match src with EmptyString => None | String _ _ => _ end)
    as [src'|]; [|discriminate Hp].
  destruct (Inet.pton6_loop src' _ src') as [s|] eqn:Hl; [|discriminate Hp].
  eapply pton6_finish_bytes; [|exact Hp].
  eapply pton6_loop_bytes; [|exact Hl]. constructor.
Qed.

(** Without a colon the loop writes at most a dotted-decimal tail. *)
Lemma pton6_loop_without_colon (src : string) :
  forall curtok s s',
    Py.contains ":" src = false ->
    Inet.tp s = [] -> Inet.colonp s = None ->
    Inet.pton6_loop curtok s src = Some s' ->
    Inet.colonp s' = None /\
    (Inet.tp s' = [] \/ (Inet.len (Inet.tp s') = 4 /\ Inet.xdigits_seen s' = 0)).
Proof.
  induction src as [|ch rest IH]; intros curtok s s' Hc Htp Hcol Hp;
    cbn [Inet.pton6_loop] in Hp.
  - injection Hp as <-. auto.
  - cbn [Py.contains] in Hc. apply orb_false_elim in Hc as [Hch Hrest].
    rewrite Hch in Hp. split_cases Hp.
    + eapply IH; [exact Hrest| | |exact Hp]; assumption.
    + injection Hp as <-. cbn [Inet.tp Inet.colonp Inet.xdigits_seen].
      split; [assumption|right]. rewrite Htp. cbn [app].
      split; [|reflexivity].
      now apply inet_pton4_bytes with (src := curtok).
Qed.

Lemma pton6_finish_short (s : Inet.st6) :
  Inet.colonp s = None ->
  Inet.tp s = [] \/ (Inet.len (Inet.tp s) = 4 /\ Inet.xdigits_seen s = 0) ->
  Inet.pton6_finish s = None.
Proof.
  unfold Inet.pton6_finish. intros -> [Htp|[Hlen Hseen]].
  - rewrite Htp. destruct (0 <? Inet.xdigits_seen s); reflexivity.
  - rewrite Hseen. cbn. rewrite Hlen. reflexivity.
Qed.

Lemma inet_pton6_has_colon (src : string) (b : list Z) :
  Inet.inet_pton6 src = Some b -> Py.contains ":" src = true.
Proof.
  intros Hp. destruct (Py.contains ":" src) eqn:Hc; [reflexivity|].
  exfalso. unfold Inet.inet_pton6 in Hp.
  destruct src as [|c r]; [discriminate Hp|].
  cbn [Py.contains] in Hc. apply orb_false_elim in Hc as [Hc Hr].
  apply Ascii.eqb_neq in Hc.
  destruct c as [[] [] [] [] [] [] [] []];
    try (exfalso; apply Hc; reflexivity).
  all: destruct (Inet.pton6_loop _ _ _) as [s|] eqn:Hl; [|discriminate Hp].
  all: apply pton6_loop_without_colon in Hl as [Hcol Hshape];
    [|cbn [Py.contains]; rewrite Hr; reflexivity|reflexivity|reflexivity].
  all: rewrite (pton6_finish_short _ Hcol Hshape) in Hp; discriminate Hp.
Qed.

Lemma pton6_rejects_pton4 (src : string) (b : list Z) :
  Inet.inet_pton6 src = Some b -> Inet.inet_pton4 src = None.
Proof.
  intros H6. destruct (Inet.inet_pton4 src) as [b4|] eqn:H4; [|reflexivity].
  apply inet_pton4_no_colon in H4. apply inet_pton6_has_colon in H6.
  congruence.
Qed.

(** ** Converter: the integers of the two codecs *)

Lemma inet_pton_ok (af : Inet.family) (ip : string) (b : list Z) :
  Inet.inet_pton af ip = Ok b ->
  Py.contains zero ip = false /\
  match af with
  | Inet.AF_INET => Inet.inet_pton4 ip
  | Inet.AF_INET6 => Inet.inet_pton6 ip
  end = Some b.
Proof.
  unfold Inet.inet_pton. intros Hp. split_cases Hp.
  injection Hp as <-. auto.
Qed.

Lemma v4_to_int_ok (ip : string) (n : Z) :
  Converter.v4_to_int ip = Ok n ->
  exists b, Inet.inet_pton Inet.AF_INET ip = Ok b /\ Inet.len b = 4 /\
            n = Inet.be_value b.
Proof.
  unfold Converter.v4_to_int, Converter.except_OSError, bind, Inet.unpack_L.
  intros Hv. destruct (Inet.inet_pton Inet.AF_INET ip) as [b|e] eqn:Hp.
  - exists b. destruct (Inet.len b =? 4) eqn:Hlen; [|discriminate Hv].
    cbv beta iota in Hv. injection Hv as <-. bools. auto.
  - destruct e; discriminate Hv.
Qed.

Lemma v6_to_int_ok (ip : string) (n : Z) :
  Converter.v6_to_int ip = Ok n ->
  exists b, Inet.inet_pton Inet.AF_INET6 ip = Ok b /\ Inet.len b = 16 /\
            n = Z.lor (Z.shiftl (Inet.be_value (firstn 8 b)) 64)
                      (Inet.be_value (skipn 8 b)).
Proof.
  unfold Converter.v6_to_int, Converter.except_OSError, bind, Inet.unpack_QQ.
  intros Hv. destruct (Inet.inet_pton Inet.AF_INET6 ip) as [b|e] eqn:Hp.
  - exists b. destruct (Inet.len b =? 16) eqn:Hlen; [|discriminate Hv].
    cbv beta iota in Hv. injection Hv as <-. bools. auto.
  - destruct e; discriminate Hv.
Qed.

Lemma v4_to_int_bound (ip : string) (n : Z) :
  Converter.v4_to_int ip = Ok n -> 0 <= n <= Converter.v4_MAX.
Proof.
  intros Hv. apply v4_to_int_ok in Hv as (b & Hp & Hlen & ->).
  apply inet_pton_ok in Hp as [_ Hp]. apply inet_pton4_bytes in Hp as [Hb _].
  pose proof (be_value_bound b Hb) as Hbound. rewrite Hlen in Hbound.
  unfold Converter.v4_MAX. change (256 ^ 4) with 4294967296 in Hbound. lia.
Qed.

Lemma lor_below_pow2 (a b n : Z) :
  0 <= n -> 0 <= a < 2 ^ n -> 0 <= b < 2 ^ n -> 0 <= Z.lor a b < 2 ^ n.
Proof.
  intros Hn Ha Hb.
  assert (Hnn : 0 <= Z.lor a b) by (apply Z.lor_nonneg; lia).
  split; [assumption|].
  assert (0 < 2 ^ n) by (apply Z.pow_pos_nonneg; lia).
  destruct (Z.eq_dec (Z.lor a b) 0) as [->|Hnz]; [lia|].
  assert (0 < Z.lor a b) by lia.
  assert (0 < n).
  { destruct (Z.eq_dec n 0) as [->|]; [|lia].
    change (2 ^ 0) with 1 in *.
    replace a with 0 in Hnz by lia. replace b with 0 in Hnz by lia.
    now elim Hnz. }
  apply Z.log2_lt_pow2; [assumption|].
  rewrite Z.log2_lor by lia.
  apply Z.max_lub_lt.
  - destruct (Z.eq_dec a 0) as [->|]; [simpl; lia|].
    apply Z.log2_lt_pow2; lia.
  - destruct (Z.eq_dec b 0) as [->|]; [simpl; lia|].
    apply Z.log2_lt_pow2; lia.
Qed.

Lemma v6_to_int_bound (ip : string) (n : Z) :
  Converter.v6_to_int ip = Ok n -> 0 <= n <= Converter.v6_MAX.
Proof.
  intros Hv. apply v6_to_int_ok in Hv as (b & Hp & Hlen & ->).
  apply inet_pton_ok in Hp as [_ Hp]. apply inet_pton6_bytes in Hp.
  destruct (Forall_firstn_skipn byte 8 b Hp) as [Hhi Hlo].
  pose proof (be_value_bound _ Hhi) as Bhi.
  pose proof (be_value_bound _ Hlo) as Blo.
  assert (Lhi : Inet.len (firstn 8 b) = 8).
  { unfold Inet.len in *. rewrite length_firstn. lia. }
  assert (Llo : Inet.len (skipn 8 b) = 8).
  { unfold Inet.len in *. rewrite length_skipn. lia. }
  rewrite Lhi in Bhi. rewrite Llo in Blo.
  change (256 ^ 8) with (2 ^ 64) in *.
  assert (Hsh : 0 <= Z.shiftl (Inet.be_value (firstn 8 b)) 64 < 2 ^ 128).
  { rewrite Z.shiftl_mul_pow2 by lia.
    change (2 ^ 128) with (2 ^ 64 * 2 ^ 64). nia. }
  assert (Hlo128 : 0 <= Inet.be_value (skipn 8 b) < 2 ^ 128).
  { change (2 ^ 128) with (2 ^ 64 * 2 ^ 64). nia. }
  pose proof (lor_below_pow2 _ _ 128 ltac:(lia) Hsh Hlo128) as Hl.
  unfold Converter.v6_MAX.
  change (2 ^ 128) with 340282366920938463463374607431768211456 in Hl. lia.
Qed.

Lemma select_to_int_bound (version : Z) (ip : string) (n : Z) :
  Converter.select_to_int version ip = Ok n -> 0 <= n < 2 ^ bitwidth version.
Proof.
  unfold Converter.select_to_int, bitwidth. destruct (version =? 4); intros Hv.
  - apply v4_to_int_bound in Hv. unfold Converter.v4_MAX in Hv.
    change (2 ^ 32) with 4294967296. lia.
  - apply v6_to_int_bound in Hv. unfold Converter.v6_MAX in Hv.
    change (2 ^ 128) with 340282366920938463463374607431768211456. lia.
Qed.

(** A text the colon-hex codec accepts is illegal for the dotted-decimal one. *)
Lemma v6_text_illegal_for_v4 (ip : string) (n : Z) :
  Converter.v6_to_int ip = Ok n -> Converter.v4_to_int ip = Raise InvalidAddress.
Proof.
  intros Hv. apply v6_to_int_ok in Hv as (b & Hp & _).
  apply inet_pton_ok in Hp as [Hz Hp]. apply pton6_rejects_pton4 in Hp.
  unfold Converter.v4_to_int, Inet.inet_pton. rewrite Hz, Hp. reflexivity.
Qed.

(** ** The arithmetic of a CIDR block *)

Lemma cidr_block (a bits : Z) :
  0 <= bits ->
  Z.shiftl (Z.shiftr a bits) bits = a - a mod 2 ^ bits /\
  Z.lor (Z.shiftl (Z.shiftr a bits) bits) (Z.shiftl 1 bits - 1)
  = Z.shiftl (Z.shiftr a bits) bits + 2 ^ bits - 1.
Proof.
  intros Hb.
  assert (Hpow : 0 < 2 ^ bits) by (apply Z.pow_pos_nonneg; lia).
  rewrite Z.shiftr_div_pow2, !Z.shiftl_mul_pow2 by lia.
  split.
  - pose proof (Z.div_mod a (2 ^ bits)). lia.
  - replace (1 * 2 ^ bits - 1) with (Z.ones bits)
      by (rewrite Z.ones_equiv; lia).
    assert (Hland : Z.land (a / 2 ^ bits * 2 ^ bits) (Z.ones bits) = 0).
    { rewrite Z.land_ones by lia. apply Z.mod_mul. lia. }
    rewrite <- (Z.lxor_lor _ _ Hland), <- (Z.add_nocarry_lxor _ _ Hland).
    rewrite Z.ones_equiv. lia.
Qed.

Lemma cidr_block_within (a bits width : Z) :
  0 <= bits <= width -> 0 <= a < 2 ^ width ->
  0 <= Z.shiftl (Z.shiftr a bits) bits <= a /\
  a <= Z.lor (Z.shiftl (Z.shiftr a bits) bits) (Z.shiftl 1 bits - 1) < 2 ^ width.
Proof.
  intros Hb Ha.
  destruct (cidr_block a bits (proj1 Hb)) as [Hlo Hhi].
  rewrite Hhi, Hlo.
  assert (Hpow : 0 < 2 ^ bits) by (apply Z.pow_pos_nonneg; lia).
  pose proof (Z.mod_pos_bound a (2 ^ bits) Hpow) as Hmod.
  assert (Hsplit : 2 ^ width = 2 ^ (width - bits) * 2 ^ bits).
  { rewrite <- Z.pow_add_r by lia. f_equal. lia. }
  assert (Hq : a / 2 ^ bits < 2 ^ (width - bits)).
  { apply Z.div_lt_upper_bound; lia. }
  pose proof (Z.div_mod a (2 ^ bits) ltac:(lia)) as Hdm.
  assert (Htop : a - a mod 2 ^ bits + 2 ^ bits - 1 < 2 ^ width).
  { rewrite Hsplit. nia. }
  assert (Hq0 : 0 <= a / 2 ^ bits) by (apply Z.div_pos; lia).
  assert (Hbot : 0 <= a - a mod 2 ^ bits) by nia.
  lia.
Qed.

(** ** Construction of an [IPNetwork] *)

Lemma unpack2_two (a b : string) : Py.unpack2 [a; b] = Ok (a, b).
Proof. reflexivity. Qed.

Lemma IPNetwork_expand_ok (network addr cidr : string) (bit p a : Z)
      (to_int : string -> result Z) :
  Py.split "/" network = [addr; cidr] ->
  Py.int_of_str cidr = Ok p ->
  p <= bit ->
  to_int addr = Ok a ->
  IPNetwork.expand network bit to_int
  = Ok (Z.shiftl (Z.shiftr a (bit - p)) (bit - p),
        Z.lor (Z.shiftl (Z.shiftr a (bit - p)) (bit - p))
              (Z.shiftl 1 (bit - p) - 1)).
Proof.
  intros Hs Hp Hle Ha. unfold IPNetwork.expand.
  rewrite Hs, unpack2_two. cbn [bind]. rewrite Hp. cbn [bind].
  destruct (bit <? p) eqn:Hlt; [bools; lia|].
  rewrite Ha. reflexivity.
Qed.

Lemma IPNetwork_init_ok (network : string) (version : option Z)
      (addr cidr : string) (p a : Z) :
  let v := Converter.version_or version
             (Converter.get_version (Converter.VStr network)) in
  Py.split "/" network = [addr; cidr] ->
  Py.int_of_str cidr = Ok p ->
  p <= bitwidth v ->
  Converter.select_to_int v addr = Ok a ->
  IPNetwork.__init__ network version
  = Ok {| IPNetwork.network := network;
          IPNetwork.version := v;
          IPNetwork.to_int := Converter.select_to_int v;
          IPNetwork.bit := bitwidth v;
          IPNetwork.range :=
            (Z.shiftl (Z.shiftr a (bitwidth v - p)) (bitwidth v - p),
             Z.lor (Z.shiftl (Z.shiftr a (bitwidth v - p)) (bitwidth v - p))
                   (Z.shiftl 1 (bitwidth v - p) - 1)) |}.
Proof.
  intros v Hs Hp Hle Ha. unfold IPNetwork.__init__.
  rewrite (split_two_has_separator _ _ _ _ Hs). cbn [negb].
  fold v. fold (bitwidth v).
  rewrite (IPNetwork_expand_ok _ _ _ _ _ _ _ Hs Hp Hle Ha). reflexivity.
Qed.

(** [InvalidCidr] is raised by the prefix test of [expand] and by nothing else. *)
Lemma to_int_never_InvalidCidr (v : Z) (s : string) :
  Converter.select_to_int v s <> Raise InvalidCidr.
Proof.
  unfold Converter.select_to_int, Converter.v4_to_int, Converter.v6_to_int,
    Converter.except_OSError, Inet.inet_pton, Inet.unpack_L, Inet.unpack_QQ, bind.
  destruct (v =? 4), (Py.contains zero s);
    try destruct (Inet.inet_pton4 s); try destruct (Inet.inet_pton6 s);
    try destruct (Inet.len _ =? _); discriminate.
Qed.

Lemma IPNetwork_InvalidCidr_iff (network : string) (version : option Z)
      (addr cidr : string) (p : Z) :
  let v := Converter.version_or version
             (Converter.get_version (Converter.VStr network)) in
  Py.split "/" network = [addr; cidr] ->
  Py.int_of_str cidr = Ok p ->
  (IPNetwork.__init__ network version = Raise InvalidCidr <-> bitwidth v < p).
Proof.
  intros v Hs Hp. unfold IPNetwork.__init__.
  rewrite (split_two_has_separator _ _ _ _ Hs). cbn [negb].
  fold v. fold (bitwidth v). unfold IPNetwork.expand.
  rewrite Hs, unpack2_two. cbn [bind]. rewrite Hp. cbn [bind].
  destruct (bitwidth v <? p) eqn:Hlt; bools.
  - cbn [bind]. split; [lia|reflexivity].
  - split; [|lia]. intros Hr. exfalso.
    destruct (Converter.select_to_int v addr) as [a|e] eqn:Ha;
      cbn [bind] in Hr; [discriminate Hr|].
    injection Hr as ->. now apply (to_int_never_InvalidCidr v addr).
Qed.

Example net_10_0_0_0_24_built :
  IPNetwork.__init__ "10.0.0.0/24" None = Ok net_10_0_0_0_24.
Proof. reflexivity. Qed.

Example net_192_168_1_0_24_built :
  IPNetwork.__init__ "192.168.1.0/24" None = Ok net_192_168_1_0_24.
Proof. reflexivity. Qed.

Example net_v6_all_built : IPNetwork.__init__ "::/0" None = Ok net_v6_all.
Proof. reflexivity. Qed.

(** C4. A CIDR text "<address>/<p>" with 0 <= p <= bitwidth builds the range
    lo = (toInt(address) >> (bitwidth - p)) << (bitwidth - p),
    hi = lo | ((1 << (bitwidth - p)) - 1), whose length is hi - lo + 1, which
    is 2^(bitwidth - p).  "10.0.0.0/24" runs from toInt("10.0.0.0") to
    toInt("10.0.0.255") and has length 256; "2001:db8::/32" has length 2^96. *)
Theorem cidr_expansion :
  (forall (network : string) (version : option Z) (addr cidr : string) (p a : Z),
      let v := Converter.version_or version
                 (Converter.get_version (Converter.VStr network)) in
      Py.split "/" network = [addr; cidr] ->
      Py.int_of_str cidr = Ok p ->
      0 <= p <= bitwidth v ->
      Converter.select_to_int v addr = Ok a ->
      exists r : IPNetwork.t,
        IPNetwork.__init__ network version = Ok r /\
        lo r = Z.shiftl (Z.shiftr a (bitwidth v - p)) (bitwidth v - p) /\
        hi r = Z.lor (lo r) (Z.shiftl 1 (bitwidth v - p) - 1) /\
        __len__ r = hi r - lo r + 1 /\
        __len__ r = 2 ^ (bitwidth v - p))
  /\ (exists r : IPNetwork.t,
        IPNetwork.__init__ "10.0.0.0/24" None = Ok r /\
        Converter.v4_to_int "10.0.0.0" = Ok (lo r) /\
        Converter.v4_to_int "10.0.0.255" = Ok (hi r) /\
        __len__ r = 256)
  /\ (exists r : IPNetwork.t,
        IPNetwork.__init__ "2001:db8::/32" None = Ok r /\
        __len__ r = 2 ^ 96).
Proof.
  assert (Hgen : forall (network : string) (version : option Z)
                        (addr cidr : string) (p a : Z),
             let v := Converter.version_or version
                        (Converter.get_version (Converter.VStr network)) in
             Py.split "/" network = [addr; cidr] ->
             Py.int_of_str cidr = Ok p ->
             0 <= p <= bitwidth v ->
             Converter.select_to_int v addr = Ok a ->
             exists r : IPNetwork.t,
               IPNetwork.__init__ network version = Ok r /\
               lo r = Z.shiftl (Z.shiftr a (bitwidth v - p)) (bitwidth v - p) /\
               hi r = Z.lor (lo r) (Z.shiftl 1 (bitwidth v - p) - 1) /\
               __len__ r = hi r - lo r + 1 /\
               __len__ r = 2 ^ (bitwidth v - p)).
  { intros network version addr cidr p a v Hs Hp Hrange Ha.
    pose proof (IPNetwork_init_ok network version addr cidr p a Hs Hp
                  (proj2 Hrange) Ha) as Hinit.
    cbv zeta in Hinit. fold v in Hinit. clearbody v.
    eexists. split; [exact Hinit|].
    unfold __len__, lo, hi.
    cbn [range IPNetwork_RangeObject IPNetwork.range fst snd].
    destruct (cidr_block a (bitwidth v - p)) as [_ Hhi]; [lia|].
    repeat split; try reflexivity; lia. }
  split; [exact Hgen|split].
  - exists net_10_0_0_0_24. repeat split.
  - destruct (Hgen "2001:db8::/32" None "2001:db8::" "32" 32
                   (0x20010db8 * 2 ^ 96))
      as (r & Hr & _ & _ & _ & Hlen);
      [vm_compute; reflexivity | vm_compute; reflexivity
       | vm_compute; split; discriminate | vm_compute; reflexivity |].
    exists r. split; [exact Hr|]. rewrite Hlen. vm_compute. reflexivity.
Qed.

(** C4 on "10.0.0.0/24". *)
Lemma cidr_expansion_witness :
  Py.split "/" "10.0.0.0/24" = ["10.0.0.0"; "24"]
  /\ Py.int_of_str "24" = Ok 24
  /\ 0 <= 24 <= bitwidth 4
  /\ Converter.select_to_int 4 "10.0.0.0" = Ok 167772160
  /\ exists r : IPNetwork.t,
      IPNetwork.__init__ "10.0.0.0/24" None = Ok r /\
      lo r = Z.shiftl (Z.shiftr 167772160 8) 8 /\
      hi r = Z.lor (lo r) (Z.shiftl 1 8 - 1) /\
      __len__ r = hi r - lo r + 1 /\
      __len__ r = 2 ^ 8.
Proof.
  assert (Hp : 0 <= 24 <= bitwidth 4) by (vm_compute; split; discriminate).
  split; [reflexivity|]. split; [reflexivity|]. split; [exact Hp|].
  split; [reflexivity|].
  exact (proj1 cidr_expansion "10.0.0.0/24" None "10.0.0.0" "24" 24 167772160
               eq_refl eq_refl Hp eq_refl).
Defined.

(** ** Construction of an [IPRange] *)

Lemma IPRange_expand_ok (range_ : string) (to_int : string -> result Z)
      (bounds : Z * Z) :
  IPRange.expand range_ to_int = Ok bounds ->
  exists start end_,
    Py.split "-" range_ = [start; end_] /\
    to_int (Py.strip start) = Ok (fst bounds) /\
    to_int (Py.strip end_) = Ok (snd bounds) /\
    fst bounds <= snd bounds.
Proof.
  unfold IPRange.expand. intros He.
  destruct (Py.split "-" range_) as [|start [|end_ [|]]]; try discriminate He.
  cbn [Py.unpack2 bind] in He.
  destruct (to_int (Py.strip start)) as [l|] eqn:Hl; [|discriminate He].
  destruct (to_int (Py.strip end_)) as [h|] eqn:Hh; [|discriminate He].
  cbn [bind] in He. destruct (h <? l) eqn:Hlt; [discriminate He|].
  injection He as <-. exists start, end_. cbn [fst snd]. bools. auto.
Qed.

(** The dash-text path keeps the invariant of a range. *)
Lemma IPRange_dash_invariant (text : string) (start stop : option string)
      (version : option Z) (r : IPRange.t) :
  IPRange.truthy (Some text) = true ->
  IPRange.__init__ (Some text) start stop version = Ok r ->
  0 <= lo r /\ lo r <= hi r /\ hi r < 2 ^ bitwidth (IPRange.version r).
Proof.
  intros Ht. unfold IPRange.__init__. rewrite Ht. cbn [IPRange.text].
  intros Hi. destruct (negb (Py.contains "-" text)); [discriminate Hi|].
  destruct (IPRange.expand _ _) as [bounds|] eqn:He; [|discriminate Hi].
  cbn [bind] in Hi. injection Hi as <-.
  apply IPRange_expand_ok in He as (s & e & _ & Hl & Hh & Hle).
  apply select_to_int_bound in Hl, Hh.
  unfold lo, hi. cbn [range IPRange_RangeObject IPRange.range IPRange.version].
  cbn [IPRange.as_value Converter.get_version] in *. lia.
Qed.

(** The dash-text path refuses a span whose end is below its start. *)
Lemma IPRange_dash_unordered (text start_ end_ : string)
      (start stop : option string) (version : option Z) (l h : Z) :
  let v := Converter.version_or version
             (Converter.get_version (Converter.VStr text)) in
  Py.split "-" text = [start_; end_] ->
  Converter.select_to_int v (Py.strip start_) = Ok l ->
  Converter.select_to_int v (Py.strip end_) = Ok h ->
  h < l ->
  IPRange.__init__ (Some text) start stop version = Raise InvalidRange.
Proof.
  intros v Hs Hl Hh Hlt. unfold IPRange.__init__.
  assert (Ht : IPRange.truthy (Some text) = true).
  { destruct text; [discriminate Hs|reflexivity]. }
  rewrite Ht. cbn [IPRange.text IPRange.as_value]. fold v.
  rewrite (split_two_has_separator _ _ _ _ Hs). cbn [negb].
  unfold IPRange.expand. rewrite Hs, unpack2_two. cbn [bind].
  rewrite Hl. cbn [bind]. rewrite Hh. cbn [bind].
  destruct (h <? l) eqn:Hc; [reflexivity|bools; lia].
Qed.

(** A CIDR text with a prefix length in [0, bitwidth] keeps the invariant. *)
Lemma IPNetwork_invariant (network : string) (version : option Z)
      (addr cidr : string) (p : Z) (r : IPNetwork.t) :
  Py.split "/" network = [addr; cidr] ->
  Py.int_of_str cidr = Ok p ->
  0 <= p ->
  IPNetwork.__init__ network version = Ok r ->
  0 <= lo r /\ lo r <= hi r /\ hi r < 2 ^ bitwidth (IPNetwork.version r).
Proof.
  intros Hs Hp Hp0. unfold IPNetwork.__init__.
  rewrite (split_two_has_separator _ _ _ _ Hs). cbn [negb].
  set (v := Converter.version_or version _). fold (bitwidth v).
  unfold IPNetwork.expand. rewrite Hs, unpack2_two. cbn [bind].
  rewrite Hp. cbn [bind].
  destruct (bitwidth v <? p) eqn:Hlt; [discriminate|]. bools.
  destruct (Converter.select_to_int v addr) as [a|] eqn:Ha; [|discriminate].
  cbn [bind]. intros Hi. injection Hi as <-.
  apply select_to_int_bound in Ha.
  unfold lo, hi. cbn [range IPNetwork_RangeObject IPNetwork.range IPNetwork.version fst snd].
  pose proof (cidr_block_within a (bitwidth v - p) (bitwidth v)
                ltac:(lia) Ha). lia.
Qed.

(** C1. The invariant lo <= hi with both bounds inside the version's address
    space fails on the code at two inputs: the pair ("10.0.0.10", "10.0.0.5")
    is stored as it is, with lo above hi, and "10.0.0.0/-1" builds a
    version 4 range whose hi is 2^33 - 1. *)
Theorem range_invariant_broken :
  (exists r : IPRange.t,
      IPRange.__init__ None (Some "10.0.0.10") (Some "10.0.0.5") None = Ok r /\
      IPRange.version r = 4 /\ hi r < lo r)
  /\ (exists r : IPNetwork.t,
        IPNetwork.__init__ "10.0.0.0/-1" None = Ok r /\
        IPNetwork.version r = 4 /\ 2 ^ 32 - 1 < hi r).
Proof.
  split; eexists; (split; [reflexivity|]); split; reflexivity.
Qed.

(** C2. The pair path stores an unordered pair: for start "10.0.0.10" and
    stop "10.0.0.5" the code returns the range (167772170, 167772165), where
    the dash text of the same two addresses raises InvalidRange. *)
Theorem span_pair_unordered_accepted :
  (exists r : IPRange.t,
      IPRange.__init__ None (Some "10.0.0.10") (Some "10.0.0.5") None = Ok r /\
      IPRange.range r = (167772170, 167772165))
  /\ Converter.v4_to_int "10.0.0.10" = Ok 167772170
  /\ Converter.v4_to_int "10.0.0.5" = Ok 167772165
  /\ IPRange.__init__ (Some "10.0.0.10-10.0.0.5") None None None
     = Raise InvalidRange.
Proof.
  repeat split. eexists. split; reflexivity.
Qed.

(** C3. A negative prefix length is not refused: "10.0.0.0/-1" parses to the
    prefix -1 and builds the range (0, 2^33 - 1); "::/-1" builds
    (0, 2^129 - 1). *)
Theorem negative_prefix_accepted :
  Py.int_of_str "-1" = Ok (-1)
  /\ (exists r : IPNetwork.t,
        IPNetwork.__init__ "10.0.0.0/-1" None = Ok r /\
        IPNetwork.range r = (0, 2 ^ 33 - 1))
  /\ (exists r : IPNetwork.t,
        IPNetwork.__init__ "::/-1" None = Ok r /\
        IPNetwork.range r = (0, 2 ^ 129 - 1)).
Proof.
  split; [reflexivity|]. split; eexists; split; reflexivity.
Qed.

(** ** The methods of a range *)

Lemma count_from_length (start step : Z) (n : nat) :
  List.length (Py.count_from start step n) = n.
Proof.
  revert start. induction n as [|n IH]; intros start; simpl; [reflexivity|].
  now rewrite IH.
Qed.

Lemma count_from_nth (start step : Z) (n i : nat) :
  (i < n)%nat -> nth i (Py.count_from start step n) 0 = start + Z.of_nat i * step.
Proof.
  revert start i. induction n as [|n IH]; intros start i Hi; [lia|].
  destruct i as [|i]; cbn [Py.count_from nth]; [lia|].
  rewrite IH by lia. lia.
Qed.

Lemma count_from_shift (d start step : Z) (n : nat) :
  Py.count_from (d + start) step n = map (Z.add d) (Py.count_from start step n).
Proof.
  revert start. induction n as [|n IH]; intros start; simpl; [reflexivity|].
  f_equal. rewrite <- IH. f_equal. lia.
Qed.

Lemma range_len_shift (d start stop step : Z) :
  Py.range_len (d + start) (d + stop) step = Py.range_len start stop step.
Proof.
  unfold Py.range_len.
  replace (d + start <? d + stop) with (start <? stop) by lia.
  replace (d + stop <? d + start) with (stop <? start) by lia.
  replace (d + stop - (d + start) - 1) with (stop - start - 1) by lia.
  replace (d + start - (d + stop) - 1) with (start - stop - 1) by lia.
  reflexivity.
Qed.

(** Moving both ends of a [range] moves each of its elements. *)
Lemma range_shift (d start stop step : Z) :
  Py.range (d + start) (d + stop) step
  = (xs <- Py.range start stop step ;; Ok (map (Z.add d) xs)).
Proof.
  unfold Py.range. destruct (step =? 0); [reflexivity|]. cbn [bind].
  now rewrite range_len_shift, count_from_shift.
Qed.

Section RangeProperties.

Context {R : Type} `{RangeObject R}.

(** On a range of version 4, [IPAddress(x, self.version)] is the Address of
    [x]. *)
Lemma address_v4 (self : R) (x : Z) :
  version self = 4 -> address self x = Ok (Address_v4 x).
Proof.
  intros Hv. unfold address, IPAddress.__init__.
  cbn [Converter.version_or]. rewrite Hv. reflexivity.
Qed.

(** On a range of another version line 63 reads the name [long]. *)
Lemma address_not_v4 (self : R) (x : Z) :
  version self <> 4 -> version self <> 0 ->
  address self x = Raise IPAddress.undefined_long.
Proof.
  intros H4 H0. unfold address, IPAddress.__init__, IPAddress.select_class.
  cbn [Converter.version_or].
  replace (version self =? 0) with false by lia.
  now replace (version self =? 4) with false by lia.
Qed.

Lemma Address_v4_injective (x y : Z) : Address_v4 x = Address_v4 y -> x = y.
Proof.
  intros Ha. apply (f_equal IPAddress.ip) in Ha. now injection Ha.
Qed.

Lemma NoDup_Address_v4 (xs : list Z) :
  NoDup xs -> NoDup (map Address_v4 xs).
Proof.
  induction 1 as [|x xs Hx _ IH]; cbn [map]; constructor; [|exact IH].
  intros Hin. apply in_map_iff in Hin as (y & Hy & Hin).
  apply Address_v4_injective in Hy. now subst y.
Qed.

Lemma comprehension_v4 (self : R) (xs : list Z) :
  version self = 4 ->
  Py.comprehension (address self) xs = Ok (map Address_v4 xs).
Proof.
  intros Hv. induction xs as [|x xs IH]; cbn [Py.comprehension map];
    [reflexivity|].
  now rewrite (address_v4 self x Hv), IH.
Qed.

(** The slices of a range of version 4.  With (s, t, k) = slice.indices(N):
    when s + k < 0 or k > t the result is the one-element list
    [Address(lo)]; otherwise it is the list of the Addresses lo + i for i
    running over range(s, t, k). *)
Lemma slice_of_v4_range (self : R) (sl : Py.slice) (s t k : Z) :
  version self = 4 ->
  Py.indices sl (__len__ self) = Ok (s, t, k) ->
  if (s + k <? 0) || (t <? k)
  then __getitem__ self (ISlice sl) = Ok (Many [Address_v4 (lo self)])
  else exists positions : list Z,
      Py.range s t k = Ok positions /\
      __getitem__ self (ISlice sl)
      = Ok (Many (map (fun i => Address_v4 (lo self + i)) positions)).
Proof.
  intros Hv Hi. cbn [__getitem__]. rewrite Hi. cbn [bind].
  destruct ((s + k <? 0) || (t <? k)).
  - now rewrite (address_v4 self _ Hv).
  - rewrite range_shift.
    destruct (Py.range s t k) as [positions|e] eqn:Hr.
    + exists positions. split; [reflexivity|]. cbn [bind].
      rewrite (comprehension_v4 self _ Hv). cbn [bind].
      now rewrite map_map.
    + unfold Py.range in Hr. unfold Py.indices in Hi.
      destruct (k =? 0) eqn:Hk; [|discriminate Hr].
      destruct (__len__ self <? 0); [discriminate Hi|].
      destruct (match Py.sl_step sl with Some k0 => k0 | None => 1 end =? 0)
        eqn:Hs; [discriminate Hi|].
      injection Hi as _ _ Hstep. rewrite Hstep in Hs. congruence.
Qed.

(** An integer index outside [-N, N - 1] is refused, whatever the version. *)
Lemma getitem_out_of_range (self : R) (i : Z) :
  ~ (- __len__ self <= i < __len__ self) ->
  __getitem__ self (IInt i) = Raise IndexOutOfRange.
Proof.
  intros Hi. cbn [__getitem__ int_of_index bind].
  replace ((- __len__ self <=? i) && (i <? 0)) with false by lia.
  replace ((0 <=? i) && (i <=? __len__ self - 1)) with false by lia.
  reflexivity.
Qed.

(** Building an Address raises nothing but the NameError of line 63. *)
Lemma address_cases (self : R) (x : Z) :
  (exists a : IPAddress.t, address self x = Ok a) \/
  address self x = Raise IPAddress.undefined_long.
Proof.
  unfold address, IPAddress.__init__, IPAddress.select_class.
  destruct (_ =? 4); cbn [bind]; eauto.
Qed.

(** An integer index within [-N, N - 1] builds the Address of its position. *)
Lemma getitem_in_range (self : R) (i : Z) :
  - __len__ self <= i < __len__ self ->
  __getitem__ self (IInt i)
  = (a <- address self (if i <? 0 then hi self + i + 1 else lo self + i) ;;
     Ok (One a)).
Proof.
  intros Hi. cbn [__getitem__ int_of_index bind].
  destruct (Z_lt_le_dec i 0) as [Hneg|Hpos].
  - replace ((- __len__ self <=? i) && (i <? 0)) with true by lia.
    replace (i <? 0) with true by lia.
    now destruct (address_cases self (hi self + i + 1)) as [[a ->]| ->].
  - replace ((- __len__ self <=? i) && (i <? 0)) with false by lia.
    replace ((0 <=? i) && (i <=? __len__ self - 1)) with true by lia.
    replace (i <? 0) with false by lia.
    now destruct (address_cases self (lo self + i)) as [[a ->]| ->].
Qed.

Lemma getitem_from_start (self : R) (i : Z) :
  version self = 4 ->
  0 <= i < __len__ self ->
  __getitem__ self (IInt i) = Ok (One (Address_v4 (lo self + i))).
Proof.
  intros Hv Hi. rewrite getitem_in_range by lia.
  replace (i <? 0) with false by lia. now rewrite (address_v4 self _ Hv).
Qed.

Lemma getitem_from_end (self : R) (i : Z) :
  version self = 4 ->
  - __len__ self <= i < 0 ->
  __getitem__ self (IInt i) = Ok (One (Address_v4 (hi self + i + 1))).
Proof.
  intros Hv Hi. rewrite getitem_in_range by lia.
  replace (i <? 0) with true by lia. now rewrite (address_v4 self _ Hv).
Qed.

(** C7, as amended.  An index that is neither an integer nor a slice is
    first converted by int(): a value int() accepts (a fractional float is
    truncated towards zero, a numeric text is read) is used as that integer
    position; a value int() refuses with a ValueError (a text that is no
    number, NaN) makes indexing fail with InvalidIndexType; any other error
    of int() is passed on. *)
Theorem other_index_converted (self : R) (i : index) :
  other_index i ->
  (forall n, int_of_index i = Ok n ->
             __getitem__ self i = __getitem__ self (IInt n))
  /\ (forall msg, int_of_index i = Raise (ValueError msg) ->
                  __getitem__ self i = Raise InvalidIndexType)
  /\ (forall e, int_of_index i = Raise e ->
                (forall msg, e <> ValueError msg) ->
                __getitem__ self i = Raise e).
Proof.
  intros Hother. destruct i as [sl|n|f|s|]; try contradiction Hother.
  all: cbn [__getitem__]; repeat split.
  all: try (intros n Hn; rewrite Hn; reflexivity).
  all: try (intros msg Hm; rewrite Hm; reflexivity).
  all: intros e He Hne; rewrite He; cbn [bind except_ValueError];
    destruct e; try reflexivity; now elim (Hne msg).
Qed.

(** What an Address that was built holds. *)
Lemma IPAddress_init_inv (ip : Converter.value) (version : option Z)
      (a : IPAddress.t) :
  IPAddress.__init__ ip version = Ok a ->
  IPAddress.ip a = ip /\
  IPAddress.version a
  = Converter.version_or version (Converter.get_version ip) /\
  IPAddress.to_int a = Converter.select_to_int (IPAddress.version a).
Proof.
  unfold IPAddress.__init__.
  destruct (IPAddress.select_class _); [|discriminate].
  cbn [bind]. intros Ha. injection Ha as <-. repeat split.
Qed.

(** C8, as amended.  A candidate normalized to x is contained exactly when
    lo <= x <= hi, and the test does not raise: a raw integer is x as it
    is; a text is converted by the codec of the range; an Address that
    stores an integer gives that integer; an Address that stores a text
    converts it with the codec of its own version, whatever the codec of
    the range, and when that codec refuses the text the test raises.  An
    Address that stores an integer, or whose codec is the range's, is
    normalized as by the codec of the range. *)
Theorem contains_normalized (self : R) :
  (forall n : Z, __contains__ self (CInt n) = Ok (within self n))
  /\ (forall (s : string) (x : Z),
         to_int self s = Ok x ->
         __contains__ self (CStr s) = Ok (within self x))
  /\ (forall (n : Z) (version : option Z) (a : IPAddress.t),
         IPAddress.__init__ (Converter.VInt n) version = Ok a ->
         __contains__ self (CAddr a) = Ok (within self n))
  /\ (forall (s : string) (version : option Z) (a : IPAddress.t),
         IPAddress.__init__ (Converter.VStr s) version = Ok a ->
         (forall x : Z,
             Converter.select_to_int (IPAddress.version a) s = Ok x ->
             __contains__ self (CAddr a) = Ok (within self x)) /\
         (forall e : exn,
             Converter.select_to_int (IPAddress.version a) s = Raise e ->
             __contains__ self (CAddr a) = Raise e))
  /\ (forall x : Z, within self x = true <-> lo self <= x <= hi self)
  /\ (forall c : candidate,
         match c with
         | CAddr a =>
             match IPAddress.ip a with
             | Converter.VInt _ => True
             | Converter.VStr _ => IPAddress.to_int a = to_int self
             | Converter.VNone => False
             end
         | CInt _ | CStr _ => True
         | CNone => False
         end ->
         normalize self c = normalize_by_range_codec self c).
Proof.
  split; [reflexivity|]. split; [|split; [|split; [|split]]].
  - intros s x Hx. unfold __contains__. cbn [normalize]. now rewrite Hx.
  - intros n version a Ha. apply IPAddress_init_inv in Ha as (Hip & _).
    unfold __contains__. cbn [normalize]. unfold IPAddress.__int__.
    now rewrite Hip.
  - intros s version a Ha. apply IPAddress_init_inv in Ha as (Hip & _ & Hto).
    unfold __contains__. cbn [normalize]. unfold IPAddress.__int__.
    rewrite Hip, Hto. split; intros y Hy; now rewrite Hy.
  - intros x. unfold within, lo, hi. lia.
  - intros c Hc. destruct c as [a|n|s|]; try reflexivity; [|contradiction].
    cbn [normalize normalize_by_range_codec]. unfold IPAddress.__int__.
    destruct (IPAddress.ip a); [contradiction|now rewrite Hc|reflexivity].
Qed.

Lemma contains_Address_v4 (self : R) (x : Z) :
  lo self <= x <= hi self ->
  __contains__ self (CAddr (Address_v4 x)) = Ok true.
Proof.
  intros Hx. unfold __contains__. cbn [normalize IPAddress.__int__
    Address_v4 IPAddress.ip bind]. f_equal. lia.
Qed.

(** *** Iteration *)

Lemma next_stop (g g' : generator) : next g = (Ok None, g') -> g' = Finished.
Proof.
  destruct g as [self|self start stop index|]; cbn [next]; unfold loop_body;
    try destruct (_ <? _); try destruct (address _ _);
    intros Hn; now inversion Hn.
Qed.

Lemma drain_created (self : R) (fuel : nat) :
  drain fuel (Created self) = drain fuel (Suspended self (lo self) (hi self) 0).
Proof. destruct fuel; reflexivity. Qed.

Lemma drain_suspended (self : R) (start stop : Z) (n : nat) :
  version self = 4 ->
  forall (index : Z) (fuel : nat),
    Z.to_nat (stop - (start + index) + 1) = n ->
    (n < fuel)%nat ->
    drain fuel (Suspended self start stop index)
    = Some (Ok (map Address_v4 (walk (start + index) n))).
Proof.
  intros Hv.
  induction n as [|n IH]; intros index fuel Hn Hfuel;
    (destruct fuel as [|fuel]; [lia|]); cbn [drain next]; unfold loop_body.
  - replace (stop <? start + index) with true by lia. reflexivity.
  - replace (stop <? start + index) with false by lia.
    rewrite (address_v4 self _ Hv).
    rewrite (IH (index + 1) fuel) by lia.
    unfold walk. cbn [Py.count_from map]. do 5 f_equal. lia.
Qed.

Lemma drain_more_fuel (fuel : nat) :
  forall (g : generator) (r : result (list IPAddress.t)),
    drain fuel g = Some r -> drain (S fuel) g = Some r.
Proof.
  induction fuel as [|fuel IH]; intros g r Hd; [discriminate Hd|].
  cbn [drain] in Hd. change (drain (S (S fuel)) g) with
    (match next g with
     | (Ok None, _) => Some (Ok [])
     | (Raise e, _) => Some (Raise e)
     | (Ok (Some a), g') =>
         match drain (S fuel) g' with
         | Some (Ok l) => Some (Ok (a :: l))
         | Some (Raise e) => Some (Raise e)
         | None => None
         end
     end).
  destruct (next g) as [[[a|]|e] g']; [|exact Hd|exact Hd].
  destruct (drain fuel g') as [r'|] eqn:Hd'; [|discriminate Hd].
  now rewrite (IH _ _ Hd').
Qed.

Lemma drain_fuel_le (fuel fuel' : nat) (g : generator)
      (r : result (list IPAddress.t)) :
  (fuel <= fuel')%nat -> drain fuel g = Some r -> drain fuel' g = Some r.
Proof.
  intros Hle Hd. induction Hle as [|fuel' _ IH]; [exact Hd|].
  now apply drain_more_fuel.
Qed.

Lemma drain_after_next (fuel : nat) (g : generator) (l : list IPAddress.t) :
  drain fuel g = Some (Ok l) -> drain fuel (snd (next g)) = Some (Ok (tl l)).
Proof.
  destruct fuel as [|fuel]; [discriminate|]. cbn [drain].
  destruct (next g) as [[[a|]|e] g'] eqn:Hn; cbn [snd].
  - destruct (drain fuel g') as [[l'|e]|] eqn:Hd'; try discriminate.
    intros Hl. injection Hl as <-. cbn [tl]. now apply drain_more_fuel.
  - intros Hl. injection Hl as <-. now rewrite (next_stop _ _ Hn).
  - discriminate.
Qed.

Lemma drain_advance (k : nat) :
  forall (fuel : nat) (g : generator) (l : list IPAddress.t),
    drain fuel g = Some (Ok l) ->
    drain fuel (advance k g) = Some (Ok (skipn k l)).
Proof.
  induction k as [|k IH]; intros fuel g l Hd; [exact Hd|].
  cbn [advance]. rewrite (IH _ _ _ (drain_after_next _ _ _ Hd)).
  destruct l; [now rewrite skipn_nil|reflexivity].
Qed.

Lemma In_walk (n : nat) :
  forall start x, In x (walk start n) <-> start <= x < start + Z.of_nat n.
Proof.
  unfold walk. induction n as [|n IH]; intros start x; cbn [Py.count_from In].
  - lia.
  - rewrite IH. lia.
Qed.

Lemma NoDup_walk (n : nat) : forall start, NoDup (walk start n).
Proof.
  induction n as [|n IH]; intros start; [constructor|].
  unfold walk. cbn [Py.count_from]. constructor; [|apply IH].
  intros Hin. apply In_walk in Hin. lia.
Qed.

(** Iterating a range of version 4 with enough fuel yields the Addresses of
    lo, lo + 1, ..., hi and stops. *)
Lemma drain_iter (self : R) (fuel : nat) :
  version self = 4 ->
  (Z.to_nat (__len__ self) < fuel)%nat ->
  drain fuel (__iter__ self)
  = Some (Ok (map Address_v4 (walk (lo self) (Z.to_nat (__len__ self))))).
Proof.
  intros Hv Hfuel. unfold __iter__, iter_. rewrite drain_created.
  rewrite (drain_suspended self (lo self) (hi self) (Z.to_nat (__len__ self)) Hv);
    [now rewrite Z.add_0_r| |exact Hfuel].
  unfold __len__. f_equal. lia.
Qed.

(** Whatever fuel lets the iteration finish, the outcome is the same. *)
Lemma drain_iter_unique (self : R) (fuel : nat)
      (r : result (list IPAddress.t)) :
  version self = 4 ->
  drain fuel (__iter__ self) = Some r ->
  r = Ok (map Address_v4 (walk (lo self) (Z.to_nat (__len__ self)))).
Proof.
  intros Hv Hd.
  pose proof (drain_fuel_le fuel (fuel + S (Z.to_nat (__len__ self)))
                _ _ ltac:(lia) Hd) as Hbig.
  rewrite (drain_iter self _ Hv) in Hbig by lia. now injection Hbig.
Qed.

(** On a range of another version the first step of an iteration that has
    an address to yield raises. *)
Lemma next_not_v4 (self : R) :
  version self <> 4 -> version self <> 0 -> lo self <= hi self ->
  next (__iter__ self) = (Raise IPAddress.undefined_long, Finished).
Proof.
  intros H4 H0 Hle. cbn [__iter__ iter_ next]. unfold loop_body.
  replace (hi self <? lo self + 0) with false by lia.
  now rewrite (address_not_v4 self _ H4 H0).
Qed.

End RangeProperties.

(** ** Version detection on text *)

Lemma get_version_text (s : string) :
  Converter.get_version (Converter.VStr s) = if Py.contains "." s then 4 else 6.
Proof. reflexivity. Qed.

Lemma IPNetwork_dotted_v6_fails (network s cidr : string) (x : Z) :
  Converter.v6_to_int s = Ok x ->
  Py.contains "." s = true ->
  Py.split "/" network = [s; cidr] ->
  fails (IPNetwork.__init__ network None).
Proof.
  intros Hv Hdot Hs. unfold fails, IPNetwork.__init__.
  rewrite (split_two_has_separator _ _ _ _ Hs). cbn [negb].
  cbn [Converter.version_or Converter.get_version].
  rewrite (split_part_contains "/" "." network s) by (rewrite ?Hs; simpl; auto).
  change (4 =? 4) with true. cbv iota.
  unfold Converter.select_to_int. change (4 =? 4) with true. cbv iota.
  unfold IPNetwork.expand. rewrite Hs, unpack2_two. cbn [bind].
  destruct (Py.int_of_str cidr) as [c|e]; cbn [bind]; [|eauto].
  destruct (32 <? c); cbn [bind]; [eauto|].
  rewrite (v6_text_illegal_for_v4 _ _ Hv). cbn [bind]. eauto.
Qed.

(** A text with a '.' and no version builds the Address of version 4 that
    holds the text. *)
Lemma IPAddress_of_dotted_text (s : string) :
  Py.contains "." s = true ->
  IPAddress.__init__ (Converter.VStr s) None = Ok (Address_v4_of_text s).
Proof.
  intros Hdot. unfold IPAddress.__init__.
  cbn [Converter.version_or Converter.get_version]. now rewrite Hdot.
Qed.

(** C10, as amended.  Without an explicit version a text is version 4
    exactly when it contains a '.'.  So for a legal IPv6 text with a
    dotted-decimal tail: CIDR construction without a version takes it for
    version 4 and fails; Address construction takes it for version 4 and
    returns the Address holding the text, whose conversion to an integer then
    fails with InvalidAddress; the codec of version 6 converts the text, and
    with version 6 the CIDR text builds a range. *)
Theorem dotted_ipv6_text_defaults_to_v4 (s : string) (x : Z) :
  Converter.v6_to_int s = Ok x ->
  Py.contains "." s = true ->
  (forall t : string,
      Converter.get_version (Converter.VStr t)
      = if Py.contains "." t then 4 else 6)
  /\ IPAddress.__init__ (Converter.VStr s) None = Ok (Address_v4_of_text s)
  /\ IPAddress.__int__ (Address_v4_of_text s) = Raise InvalidAddress
  /\ Converter.select_to_int 6 s = Ok x
  /\ (forall network cidr : string,
         Py.split "/" network = [s; cidr] ->
         fails (IPNetwork.__init__ network None))
  /\ (forall (network cidr : string) (p : Z),
         Py.split "/" network = [s; cidr] ->
         Py.int_of_str cidr = Ok p ->
         p <= 128 ->
         succeeds (IPNetwork.__init__ network (Some 6))).
Proof.
  intros Hv Hdot.
  split; [exact get_version_text|].
  split; [exact (IPAddress_of_dotted_text s Hdot)|].
  split; [exact (v6_text_illegal_for_v4 _ _ Hv)|].
  split; [exact Hv|]. split.
  - intros network cidr Hs.
    exact (IPNetwork_dotted_v6_fails network s cidr x Hv Hdot Hs).
  - intros network cidr p Hs Hp Hle. eexists.
    exact (IPNetwork_init_ok network (Some 6) s cidr p x Hs Hp Hle Hv).
Qed.

(** ** The claims on the examples of the specification *)

Example span_10_0_0_1_to_3_built :
  IPRange.__init__ (Some "10.0.0.1-10.0.0.3") None None None
  = Ok span_10_0_0_1_to_3.
Proof. reflexivity. Qed.

Example net_v6_one_built : IPNetwork.__init__ "::1/128" None = Ok net_v6_one.
Proof. reflexivity. Qed.

(** C5. The test of lines 111 and 205, (start + step < 0) or (step > stop),
    is not a test for an empty slice.  On "10.0.0.0/24" the slices [1:2:3],
    [2:5:7] and [1::-2] select one position each, 1, 2 and 1, and the code
    returns the Address of lo for all three; the slice [5:2] selects nothing
    and the code returns the empty list; the slice [2:5], which passes the
    test, returns the Addresses of lo + 2, lo + 3, lo + 4.  On the IPv6
    range "::/0" the slice [2:5] raises NameError at line 63. *)
Theorem slice_guard_misfires :
  IPNetwork.__init__ "10.0.0.0/24" None = Ok net_10_0_0_0_24
  /\ lo net_10_0_0_0_24 = 167772160
  /\ (Py.indices slice_1_2_3 (__len__ net_10_0_0_0_24) = Ok (1, 2, 3) /\
      Py.range 1 2 3 = Ok [1] /\
      __getitem__ net_10_0_0_0_24 (ISlice slice_1_2_3)
      = Ok (Many [Address_v4 167772160]))
  /\ (Py.indices slice_2_5_7 (__len__ net_10_0_0_0_24) = Ok (2, 5, 7) /\
      Py.range 2 5 7 = Ok [2] /\
      __getitem__ net_10_0_0_0_24 (ISlice slice_2_5_7)
      = Ok (Many [Address_v4 167772160]))
  /\ (Py.indices slice_1_back_2 (__len__ net_10_0_0_0_24) = Ok (1, -1, -2) /\
      Py.range 1 (-1) (-2) = Ok [1] /\
      __getitem__ net_10_0_0_0_24 (ISlice slice_1_back_2)
      = Ok (Many [Address_v4 167772160]))
  /\ (Py.indices slice_5_2 (__len__ net_10_0_0_0_24) = Ok (5, 2, 1) /\
      Py.range 5 2 1 = Ok [] /\
      __getitem__ net_10_0_0_0_24 (ISlice slice_5_2) = Ok (Many []))
  /\ (Py.indices slice_2_5 (__len__ net_10_0_0_0_24) = Ok (2, 5, 1) /\
      Py.range 2 5 1 = Ok [2; 3; 4] /\
      __getitem__ net_10_0_0_0_24 (ISlice slice_2_5)
      = Ok (Many [Address_v4 167772162; Address_v4 167772163;
                  Address_v4 167772164]))
  /\ (IPNetwork.__init__ "::/0" None = Ok net_v6_all /\
      __getitem__ net_v6_all (ISlice slice_2_5)
      = Raise IPAddress.undefined_long).
Proof.
  split; [exact net_10_0_0_0_24_built|].
  repeat split; reflexivity.
Qed.

(** C6. On the IPv6 range "::1/128", of length 1, the indices 0 and -1 are
    within the range and the code raises NameError at line 63, where the
    claim has the Address of lo, which is hi; the index 1 is refused with
    IndexOutOfRange.  On the IPv4 range "10.0.0.0/24" the same indices
    return the Addresses of lo and of hi. *)
Theorem integer_index_raises_on_ipv6 :
  IPNetwork.__init__ "::1/128" None = Ok net_v6_one
  /\ IPNetwork.version net_v6_one = 6
  /\ __len__ net_v6_one = 1
  /\ __getitem__ net_v6_one (IInt 0) = Raise IPAddress.undefined_long
  /\ __getitem__ net_v6_one (IInt (-1)) = Raise IPAddress.undefined_long
  /\ __getitem__ net_v6_one (IInt 1) = Raise IndexOutOfRange
  /\ IPNetwork.__init__ "10.0.0.0/24" None = Ok net_10_0_0_0_24
  /\ __getitem__ net_10_0_0_0_24 (IInt 0) = Ok (One (Address_v4 167772160))
  /\ __getitem__ net_10_0_0_0_24 (IInt (-1)) = Ok (One (Address_v4 167772415)).
Proof.
  split; [exact net_v6_one_built|].
  repeat split; reflexivity.
Qed.

(** C7 as stated fails: on "10.0.0.0/24" the index 1.5 is not refused, it
    is the position 1; the text "5" is the position 5. *)
Lemma fractional_index_is_truncated :
  other_index (IFloat one_and_a_half)
  /\ lo net_10_0_0_0_24 = 167772160
  /\ __getitem__ net_10_0_0_0_24 (IFloat one_and_a_half)
     = Ok (One (Address_v4 167772161))
  /\ __getitem__ net_10_0_0_0_24 (IFloat one_and_a_half) <> Raise InvalidIndexType
  /\ __getitem__ net_10_0_0_0_24 (IStr "5")
     = Ok (One (Address_v4 167772165)).
Proof.
  repeat split; try reflexivity. discriminate.
Qed.

(** The amended C7 on the text "abc". *)
Lemma other_index_converted_witness :
  other_index (IStr "abc")
  /\ int_of_index (IStr "abc") = Raise Py.bad_literal
  /\ __getitem__ net_10_0_0_0_24 (IStr "abc") = Raise InvalidIndexType.
Proof.
  split; [exact I|]. split; [reflexivity|].
  exact (proj1 (proj2 (other_index_converted net_10_0_0_0_24 (IStr "abc") I))
               _ eq_refl).
Defined.

(** C8 as stated fails: the codec of the range "::/0" reads the text "::1"
    as 1, which lies within the bounds, but the Address of "::1" with
    version 4 converts itself with the dotted-decimal codec, and the test
    raises. *)
Lemma contains_as_stated_fails :
  IPAddress.__init__ (Converter.VStr "::1") (Some 4)
  = Ok (Address_v4_of_text "::1")
  /\ normalize_by_range_codec net_v6_all (CAddr (Address_v4_of_text "::1"))
     = Ok 1
  /\ lo net_v6_all <= 1 <= hi net_v6_all
  /\ __contains__ net_v6_all (CAddr (Address_v4_of_text "::1"))
     = Raise InvalidAddress.
Proof.
  split; [reflexivity|]. split; [reflexivity|].
  split; [vm_compute; split; congruence|reflexivity].
Qed.

(** The amended C8 on the membership examples of the specification, and on
    the Address of "::1" with version 4 in the range "::/0". *)
Lemma contains_normalized_witness :
  (to_int net_192_168_1_0_24 "192.168.1.128" = Ok 3232235904
   /\ __contains__ net_192_168_1_0_24 (CStr "192.168.1.128") = Ok true)
  /\ (to_int net_192_168_1_0_24 "192.168.2.1" = Ok 3232236033
      /\ __contains__ net_192_168_1_0_24 (CStr "192.168.2.1") = Ok false)
  /\ (IPAddress.__init__ (Converter.VStr "::1") (Some 4)
      = Ok (Address_v4_of_text "::1")
      /\ Converter.select_to_int 4 "::1" = Raise InvalidAddress
      /\ __contains__ net_v6_all (CAddr (Address_v4_of_text "::1"))
         = Raise InvalidAddress)
  /\ (IPAddress.__init__ (Converter.VStr "10.0.0.255") None
      = Ok (Address_v4_of_text "10.0.0.255")
      /\ Converter.select_to_int 4 "10.0.0.255" = Ok 167772415
      /\ __contains__ net_v6_all (CAddr (Address_v4_of_text "10.0.0.255"))
         = Ok true).
Proof.
  split; [split; [reflexivity|]|split; [split; [reflexivity|]|split]].
  - exact (proj1 (proj2 (contains_normalized net_192_168_1_0_24))
                 "192.168.1.128" 3232235904 eq_refl).
  - exact (proj1 (proj2 (contains_normalized net_192_168_1_0_24))
                 "192.168.2.1" 3232236033 eq_refl).
  - split; [reflexivity|]. split; [reflexivity|].
    exact (proj2 (proj1 (proj2 (proj2 (proj2 (contains_normalized net_v6_all))))
                        "::1" (Some 4) (Address_v4_of_text "::1") eq_refl)
                 InvalidAddress eq_refl).
  - split; [reflexivity|]. split; [reflexivity|].
    exact (proj1 (proj1 (proj2 (proj2 (proj2 (contains_normalized net_v6_all))))
                        "10.0.0.255" None (Address_v4_of_text "10.0.0.255")
                        eq_refl)
                 167772415 eq_refl).
Defined.

(** C9. Iterating the IPv6 range "::1/128", which has one address to yield,
    raises NameError at line 63 on the first step and yields nothing, where
    the claim has one Address; so does iterating "::/0".  Iterating the
    IPv4 range "10.0.0.1-10.0.0.3" yields the three Addresses of 10.0.0.1,
    10.0.0.2 and 10.0.0.3. *)
Theorem iteration_raises_on_ipv6 :
  IPNetwork.__init__ "::1/128" None = Ok net_v6_one
  /\ __len__ net_v6_one = 1
  /\ next (__iter__ net_v6_one) = (Raise IPAddress.undefined_long, Finished)
  /\ (forall fuel : nat,
         drain (S fuel) (__iter__ net_v6_one)
         = Some (Raise IPAddress.undefined_long))
  /\ (forall fuel : nat,
         drain (S fuel) (__iter__ net_v6_all)
         = Some (Raise IPAddress.undefined_long))
  /\ IPRange.__init__ (Some "10.0.0.1-10.0.0.3") None None None
     = Ok span_10_0_0_1_to_3
  /\ drain 4 (__iter__ span_10_0_0_1_to_3)
     = Some (Ok [Address_v4 167772161; Address_v4 167772162;
                 Address_v4 167772163]).
Proof.
  split; [exact net_v6_one_built|]. split; [reflexivity|].
  split; [reflexivity|]. split; [intros fuel; reflexivity|].
  split; [intros fuel; reflexivity|].
  split; [exact span_10_0_0_1_to_3_built|reflexivity].
Qed.

(** C10 as stated fails: the Address of "::ffff:1.2.3.4" without a version
    is constructed, with version 4 and the text as it is. *)
Lemma dotted_ipv6_address_is_constructed :
  Converter.v6_to_int "::ffff:1.2.3.4" = Ok 281470698652420
  /\ IPAddress.__init__ (Converter.VStr "::ffff:1.2.3.4") None
     = Ok {| IPAddress.ip := Converter.VStr "::ffff:1.2.3.4";
             IPAddress.version := 4;
             IPAddress.int_ := IPAddress.int;
             IPAddress.to_int := Converter.v4_to_int;
             IPAddress.to_addr := Converter.int_to_v4 |}.
Proof. split; reflexivity. Qed.

(** The amended C10 on "::ffff:1.2.3.4" and "::ffff:1.2.3.4/96". *)
Lemma dotted_ipv6_text_defaults_to_v4_witness :
  Converter.v6_to_int "::ffff:1.2.3.4" = Ok 281470698652420
  /\ Py.contains "." "::ffff:1.2.3.4" = true
  /\ IPAddress.__init__ (Converter.VStr "::ffff:1.2.3.4") None
     = Ok (Address_v4_of_text "::ffff:1.2.3.4")
  /\ IPAddress.__int__ (Address_v4_of_text "::ffff:1.2.3.4")
     = Raise InvalidAddress
  /\ fails (IPNetwork.__init__ "::ffff:1.2.3.4/96" None)
  /\ succeeds (IPNetwork.__init__ "::ffff:1.2.3.4/96" (Some 6)).
Proof.
  pose proof (dotted_ipv6_text_defaults_to_v4 "::ffff:1.2.3.4" 281470698652420
                eq_refl eq_refl) as (_ & Hinit & Hint & _ & Hfail & Hok).
  split; [reflexivity|]. split; [reflexivity|]. split; [exact Hinit|].
  split; [exact Hint|]. split.
  - exact (Hfail "::ffff:1.2.3.4/96" "96" eq_refl).
  - refine (Hok "::ffff:1.2.3.4/96" "96" 96 eq_refl eq_refl _).
    vm_compute. congruence.
Defined.

(** * Further properties of the code *)

(** ** What [slice.indices] and [range] return *)

Lemma indices_bounds (sl : Py.slice) (n s t k : Z) :
  Py.indices sl n = Ok (s, t, k) ->
  0 <= n /\ k <> 0 /\
  (0 < k -> 0 <= s <= n /\ 0 <= t <= n) /\
  (k < 0 -> -1 <= s <= n - 1 /\ -1 <= t <= n - 1).
Proof.
  unfold Py.indices, Py.clamp. intros Hi.
  destruct (n <? 0) eqn:Hn; [discriminate Hi|].
  destruct (_ =? 0) eqn:Hk; [discriminate Hi|].
  injection Hi as <- <- <-. bools.
  destruct (Py.sl_step sl) as [k0|];
    [destruct (k0 <? 0) eqn:Hneg|change (1 <? 0) with false]; cbv iota.
  all: destruct (Py.sl_start sl) as [s0|]; destruct (Py.sl_stop sl) as [t0|];
    repeat match goal with
           | |- context [?a <? ?b] => destruct (a <? b) eqn:?
           end; bools; lia.
Qed.

Lemma In_count_from (n : nat) :
  forall (start step x : Z),
    In x (Py.count_from start step n) <->
    exists i : nat, (i < n)%nat /\ x = start + Z.of_nat i * step.
Proof.
  induction n as [|n IH]; intros start step x; cbn [Py.count_from In].
  - split; [contradiction|]. intros (i & Hi & _). lia.
  - rewrite IH. split.
    + intros [<-|(i & Hi & ->)]; [exists 0%nat; lia|exists (S i); lia].
    + intros ([|i] & Hi & ->); [left; lia|right; exists i; lia].
Qed.

(** The elements of [range(start, stop, step)] lie between its ends. *)
Lemma range_elements (start stop step x : Z) (xs : list Z) :
  Py.range start stop step = Ok xs -> In x xs ->
  (0 < step -> start <= x < stop) /\ (step < 0 -> stop < x <= start).
Proof.
  unfold Py.range, Py.range_len. destruct (step =? 0) eqn:Hz; [discriminate|].
  intros Hr Hin. injection Hr as <-. bools.
  apply In_count_from in Hin as (i & Hi & ->).
  destruct ((0 <? step) && (start <? stop)) eqn:Hup.
  - bools. pose proof (Z.mul_div_le (stop - start - 1) step ltac:(lia)).
    assert (0 <= (stop - start - 1) / step) by (apply Z.div_pos; lia).
    split; [nia|lia].
  - destruct ((step <? 0) && (stop <? start)) eqn:Hdown; [|simpl in Hi; lia].
    bools. pose proof (Z.mul_div_le (start - stop - 1) (- step) ltac:(lia)).
    assert (0 <= (start - stop - 1) / - step) by (apply Z.div_pos; lia).
    split; [lia|nia].
Qed.

Lemma count_from_snoc (n : nat) :
  forall (start step : Z),
    Py.count_from start step (S n)
    = Py.count_from start step n ++ [start + Z.of_nat n * step].
Proof.
  induction n as [|n IH]; intros start step.
  - cbn. f_equal. lia.
  - change (Py.count_from start step (S (S n)))
      with (start :: Py.count_from (start + step) step (S n)).
    rewrite IH. cbn [Py.count_from app]. do 3 f_equal. lia.
Qed.

Lemma rev_walk (n : nat) (start : Z) :
  rev (walk start n) = Py.count_from (start + Z.of_nat n - 1) (-1) n.
Proof.
  unfold walk. revert start. induction n as [|n IH]; intros start; [reflexivity|].
  change (Py.count_from start 1 (S n))
    with (start :: Py.count_from (start + 1) 1 n).
  cbn [rev]. rewrite IH, count_from_snoc.
  replace (start + 1 + Z.of_nat n - 1) with (start + Z.of_nat (S n) - 1) by lia.
  do 2 f_equal. lia.
Qed.

(** ** Indexing, slicing, membership and iteration together *)

Section RangeCompositions.

Context {R : Type} `{RangeObject R}.

(** X1. On a range of version 4 and length N, an index i with 0 <= i < N
    and the negative index i - N both return the Address of lo + i, and the
    range contains it. *)
Theorem negative_index_mirrors (self : R) (i : Z) :
  version self = 4 ->
  0 <= i < __len__ self ->
  __getitem__ self (IInt i) = Ok (One (Address_v4 (lo self + i)))
  /\ __getitem__ self (IInt (i - __len__ self))
     = Ok (One (Address_v4 (lo self + i)))
  /\ IPAddress.__int__ (Address_v4 (lo self + i)) = Ok (lo self + i)
  /\ __contains__ self (CAddr (Address_v4 (lo self + i))) = Ok true.
Proof.
  intros Hv Hi. split; [exact (getitem_from_start self i Hv Hi)|].
  split; [|split; [reflexivity|]].
  - rewrite (getitem_from_end self (i - __len__ self) Hv) by lia.
    do 3 f_equal. unfold __len__. lia.
  - apply contains_Address_v4. unfold __len__ in Hi. lia.
Qed.

(** X2. Iteration and indexing agree on a range of version 4: with more
    fuel than the length an iteration finishes; an iteration that finishes
    has yielded as many Addresses as the length says; the k-th one is the
    Address of lo + k, which the index k returns and the range contains. *)
Theorem iteration_agrees_with_index (self : R) :
  version self = 4 ->
  (forall fuel : nat,
      (Z.to_nat (__len__ self) < fuel)%nat ->
      exists l : list IPAddress.t, drain fuel (__iter__ self) = Some (Ok l))
  /\ (forall (fuel : nat) (e : exn),
         drain fuel (__iter__ self) <> Some (Raise e))
  /\ (forall (fuel : nat) (l : list IPAddress.t),
         drain fuel (__iter__ self) = Some (Ok l) ->
         List.length l = Z.to_nat (__len__ self) /\
         forall (k : nat) (a : IPAddress.t),
           nth_error l k = Some a ->
           a = Address_v4 (lo self + Z.of_nat k) /\
           __getitem__ self (IInt (Z.of_nat k)) = Ok (One a) /\
           __contains__ self (CAddr a) = Ok true).
Proof.
  intros Hv. split; [|split].
  - intros fuel Hfuel. eexists. exact (drain_iter self fuel Hv Hfuel).
  - intros fuel e Hd. apply (drain_iter_unique self fuel _ Hv) in Hd.
    discriminate Hd.
  - intros fuel l Hd. apply (drain_iter_unique self fuel _ Hv) in Hd.
    injection Hd as ->.
    assert (Hlen : List.length (map Address_v4
                      (walk (lo self) (Z.to_nat (__len__ self))))
                   = Z.to_nat (__len__ self)).
    { rewrite length_map. apply count_from_length. }
    split; [exact Hlen|]. intros k a Hk.
    assert (Hlt : (k < Z.to_nat (__len__ self))%nat).
    { rewrite <- Hlen. apply nth_error_Some. congruence. }
    rewrite nth_error_map in Hk.
    destruct (nth_error (walk (lo self) (Z.to_nat (__len__ self))) k)
      as [x|] eqn:Hx; [|discriminate Hk].
    injection Hk as <-.
    apply nth_error_nth with (d := 0) in Hx.
    unfold walk in Hx. rewrite count_from_nth in Hx by exact Hlt. subst x.
    replace (lo self + Z.of_nat k * 1) with (lo self + Z.of_nat k) by lia.
    split; [reflexivity|]. split.
    + apply (getitem_from_start self _ Hv). lia.
    + apply contains_Address_v4. unfold __len__ in *. lia.
Qed.

(** X3. On a range of version 4 that is not empty the slice [:] is the list
    an iteration yields, and the slice [::-1] is that list reversed. *)
Theorem full_slice_is_iteration (self : R) (fuel : nat)
        (l : list IPAddress.t) :
  version self = 4 ->
  1 <= __len__ self ->
  drain fuel (__iter__ self) = Some (Ok l) ->
  l = map Address_v4 (walk (lo self) (Z.to_nat (__len__ self)))
  /\ __getitem__ self (ISlice (Py.Slice None None None)) = Ok (Many l)
  /\ __getitem__ self (ISlice (Py.Slice None None (Some (-1))))
     = Ok (Many (rev l)).
Proof.
  intros Hv Hn Hd. apply (drain_iter_unique self fuel _ Hv) in Hd.
  injection Hd as ->. split; [reflexivity|].
  set (n := Z.to_nat (__len__ self)).
  assert (Hlen : __len__ self = Z.of_nat n) by (unfold n; lia).
  cbn [__getitem__]. unfold Py.indices. cbn [Py.sl_step Py.sl_start Py.sl_stop].
  replace (__len__ self <? 0) with false by lia.
  change (1 =? 0) with false. change (-1 =? 0) with false.
  change (1 <? 0) with false. change (-1 <? 0) with true.
  cbv iota. cbn [Py.clamp bind]. split.
  - replace ((0 + 1 <? 0) || (__len__ self <? 1)) with false by lia.
    unfold Py.range, Py.range_len. change (1 =? 0) with false. cbv iota.
    replace ((0 <? 1) && (lo self + 0 <? lo self + __len__ self))
      with true by lia.
    cbn [bind]. rewrite (comprehension_v4 self _ Hv). cbn [bind].
    do 3 f_equal. unfold walk. f_equal; [lia|].
    rewrite Z.div_1_r. unfold n. lia.
  - rewrite <- map_rev, rev_walk. fold n. rewrite <- Hlen.
    destruct (Z.eq_dec (__len__ self) 1) as [H1|H1].
    + replace ((__len__ self - 1 + -1 <? 0) || (-1 <? -1)) with true by lia.
      rewrite (address_v4 self _ Hv). cbn [bind].
      replace n with 1%nat by lia. cbn [Py.count_from map].
      do 4 f_equal. lia.
    + replace ((__len__ self - 1 + -1 <? 0) || (-1 <? -1)) with false by lia.
      unfold Py.range, Py.range_len. change (-1 =? 0) with false. cbv iota.
      replace ((0 <? -1) && (lo self + (__len__ self - 1) <? lo self + -1))
        with false by lia.
      replace ((-1 <? 0) && (lo self + -1 <? lo self + (__len__ self - 1)))
        with true by lia.
      cbn [bind]. rewrite (comprehension_v4 self _ Hv). cbn [bind].
      do 3 f_equal. f_equal; [lia|].
      change (- -1) with 1. rewrite Z.div_1_r. unfold n. lia.
Qed.

(** X4. On a range of version 4 that is not empty every slice returns a
    list, and every Address in it is the Address of an integer within
    [lo, hi]: the range contains it. *)
Theorem slice_stays_within_range (self : R) (sl : Py.slice) :
  version self = 4 ->
  1 <= __len__ self ->
  match Py.sl_step sl with Some k => k <> 0 | None => True end ->
  exists l : list IPAddress.t,
    __getitem__ self (ISlice sl) = Ok (Many l) /\
    forall a : IPAddress.t,
      In a l ->
      exists x : Z,
        a = Address_v4 x /\ lo self <= x <= hi self /\
        IPAddress.__int__ a = Ok x /\
        __contains__ self (CAddr a) = Ok true.
Proof.
  intros Hv Hn Hstep.
  destruct (Py.indices sl (__len__ self)) as [[[s t] k]|e] eqn:Hi.
  2:{ unfold Py.indices in Hi.
      replace (__len__ self <? 0) with false in Hi by lia.
      destruct (Py.sl_step sl) as [k|];
        [replace (k =? 0) with false in Hi by lia|]; discriminate Hi. }
  pose proof (slice_of_v4_range self sl s t k Hv Hi) as Hg.
  apply indices_bounds in Hi as (_ & Hk & Hup & Hdown).
  assert (Hin : forall x, lo self <= x <= hi self ->
            exists y, Address_v4 x = Address_v4 y /\ lo self <= y <= hi self /\
                      IPAddress.__int__ (Address_v4 x) = Ok y /\
                      __contains__ self (CAddr (Address_v4 x)) = Ok true).
  { intros x Hx. exists x. split; [reflexivity|]. split; [exact Hx|].
    split; [reflexivity|now apply contains_Address_v4]. }
  destruct ((s + k <? 0) || (t <? k)).
  - eexists. split; [exact Hg|]. intros a [<-|[]].
    apply Hin. unfold __len__ in Hn. lia.
  - destruct Hg as (positions & Hr & Hg). eexists. split; [exact Hg|].
    intros a Ha. apply in_map_iff in Ha as (i & <- & Hx).
    apply Hin.
    pose proof (range_elements _ _ _ _ _ Hr Hx) as [Hpos Hnegk].
    unfold __len__ in *. lia.
Qed.

(** X24. Integer indexing on a range of version 4 and length N: the index
    i returns the Address of hi + i + 1 when -N <= i < 0 and the Address of
    lo + i when 0 <= i < N, and is refused with IndexOutOfRange otherwise; so
    the index N is refused, and on a range that is not empty the index -1
    returns the Address of hi and the index -N the Address of lo.  The
    Address of x converts to the integer x. *)
Theorem integer_index_on_version_4 (self : R) (i : Z) :
  version self = 4 ->
  (- __len__ self <= i < 0 ->
   __getitem__ self (IInt i) = Ok (One (Address_v4 (hi self + i + 1))))
  /\ (0 <= i < __len__ self ->
      __getitem__ self (IInt i) = Ok (One (Address_v4 (lo self + i))))
  /\ (~ (- __len__ self <= i < __len__ self) ->
      __getitem__ self (IInt i) = Raise IndexOutOfRange)
  /\ __getitem__ self (IInt (__len__ self)) = Raise IndexOutOfRange
  /\ (1 <= __len__ self ->
      __getitem__ self (IInt (-1)) = Ok (One (Address_v4 (hi self))) /\
      __getitem__ self (IInt (- __len__ self)) = Ok (One (Address_v4 (lo self))))
  /\ (forall x : Z, IPAddress.__int__ (Address_v4 x) = Ok x).
Proof.
  intros Hv. split; [exact (getitem_from_end self i Hv)|].
  split; [exact (getitem_from_start self i Hv)|].
  split; [exact (getitem_out_of_range self i)|].
  split; [apply getitem_out_of_range; lia|]. split; [|reflexivity].
  intros Hn. split.
  - rewrite (getitem_from_end self (-1) Hv) by lia. do 3 f_equal. lia.
  - rewrite (getitem_from_end self (- __len__ self) Hv) by lia.
    do 3 f_equal. unfold __len__. lia.
Qed.

(** X25. Iterating a range of version 4 and length N, with more fuel than
    N, stops after yielding N Addresses: the i-th is the Address of
    lo + i, so their integers are strictly ascending; no Address is yielded
    twice; the Addresses yielded are those of the integers of [lo, hi]; and
    a new iterator starts again at lo whatever was consumed from another
    one, which goes on from where it was. *)
Theorem iteration_on_version_4 (self : R) :
  version self = 4 ->
  exists l : list IPAddress.t,
    (forall fuel : nat,
        (Z.to_nat (__len__ self) < fuel)%nat ->
        drain fuel (__iter__ self) = Some (Ok l))
    /\ (0 <= __len__ self -> Z.of_nat (List.length l) = __len__ self)
    /\ (forall (i : nat) (a : IPAddress.t),
           nth_error l i = Some a ->
           a = Address_v4 (lo self + Z.of_nat i) /\
           IPAddress.__int__ a = Ok (lo self + Z.of_nat i))
    /\ (forall (i j : nat) (a b : IPAddress.t),
           (i < j)%nat -> nth_error l i = Some a -> nth_error l j = Some b ->
           exists x y : Z,
             IPAddress.__int__ a = Ok x /\ IPAddress.__int__ b = Ok y /\ x < y)
    /\ NoDup l
    /\ (forall a : IPAddress.t,
           In a l <-> exists x : Z, a = Address_v4 x /\ lo self <= x <= hi self)
    /\ (forall (k fuel : nat),
           (Z.to_nat (__len__ self) < fuel)%nat ->
           drain fuel (advance k (__iter__ self)) = Some (Ok (skipn k l))).
Proof.
  intros Hv.
  set (values := walk (lo self) (Z.to_nat (__len__ self))).
  exists (map Address_v4 values).
  assert (Hdrain : forall fuel : nat,
             (Z.to_nat (__len__ self) < fuel)%nat ->
             drain fuel (__iter__ self) = Some (Ok (map Address_v4 values)))
    by (intros fuel; apply (drain_iter self fuel Hv)).
  assert (Hlen : List.length values = Z.to_nat (__len__ self))
    by apply count_from_length.
  assert (Hnth : forall (i : nat) (a : IPAddress.t),
             nth_error (map Address_v4 values) i = Some a ->
             a = Address_v4 (lo self + Z.of_nat i)).
  { intros i a Hi.
    assert (Hlt : (i < Z.to_nat (__len__ self))%nat).
    { rewrite <- Hlen, <- (length_map Address_v4). apply nth_error_Some.
      congruence. }
    rewrite nth_error_map in Hi.
    destruct (nth_error values i) as [x|] eqn:Hx; [|discriminate Hi].
    injection Hi as <-. apply nth_error_nth with (d := 0) in Hx.
    unfold values, walk in Hx. rewrite count_from_nth in Hx by exact Hlt.
    subst x. f_equal. lia. }
  split; [exact Hdrain|]. split; [rewrite length_map; lia|].
  split; [|split; [|split; [|split]]].
  - intros i a Hi. apply Hnth in Hi. subst a. split; reflexivity.
  - intros i j a b Hij Ha Hb. apply Hnth in Ha, Hb. subst a b.
    exists (lo self + Z.of_nat i), (lo self + Z.of_nat j).
    split; [reflexivity|]. split; [reflexivity|lia].
  - apply NoDup_Address_v4, NoDup_walk.
  - intros a. rewrite in_map_iff. unfold values.
    split; intros (x & Hx & Hin); exists x.
    + apply In_walk in Hin. unfold __len__ in Hin. split; [now symmetry|lia].
    + split; [now symmetry|]. apply In_walk. unfold __len__. lia.
  - intros k fuel Hfuel. apply drain_advance, Hdrain, Hfuel.
Qed.

(** X23. On a range whose version is not 4 no Address is ever built.  An
    integer index within the range raises the NameError of line 63, and one
    outside it is refused as on any range; when the range is not empty the
    slice [:] raises the NameError, and so does the first step of an
    iteration, which yields nothing.  Membership of an integer, which builds
    no Address, is answered as on any range. *)
Theorem no_address_outside_version_4 (self : R) :
  version self <> 4 -> version self <> 0 ->
  (forall i : Z,
      - __len__ self <= i < __len__ self ->
      __getitem__ self (IInt i) = Raise IPAddress.undefined_long)
  /\ (forall i : Z,
         ~ (- __len__ self <= i < __len__ self) ->
         __getitem__ self (IInt i) = Raise IndexOutOfRange)
  /\ (1 <= __len__ self ->
      __getitem__ self (ISlice (Py.Slice None None None))
      = Raise IPAddress.undefined_long /\
      next (__iter__ self) = (Raise IPAddress.undefined_long, Finished) /\
      forall fuel : nat,
        drain (S fuel) (__iter__ self) = Some (Raise IPAddress.undefined_long))
  /\ (forall x : Z, __contains__ self (CInt x) = Ok (within self x)).
Proof.
  intros H4 H0. split; [|split; [exact (getitem_out_of_range self)|split]].
  - intros i Hi. rewrite getitem_in_range by exact Hi.
    now rewrite (address_not_v4 self _ H4 H0).
  - intros Hn.
    assert (Hnext : next (__iter__ self)
                    = (Raise IPAddress.undefined_long, Finished)).
    { apply next_not_v4; [exact H4|exact H0|unfold __len__ in Hn; lia]. }
    split; [|split; [exact Hnext|]].
    + cbn [__getitem__]. unfold Py.indices.
      cbn [Py.sl_step Py.sl_start Py.sl_stop].
      replace (__len__ self <? 0) with false by lia.
      change (1 =? 0) with false. change (1 <? 0) with false.
      cbv iota. cbn [Py.clamp bind].
      replace ((0 + 1 <? 0) || (__len__ self <? 1)) with false by lia.
      unfold Py.range, Py.range_len. change (1 =? 0) with false. cbv iota.
      replace ((0 <? 1) && (lo self + 0 <? lo self + __len__ self))
        with true by lia.
      cbn [bind]. rewrite Z.div_1_r.
      destruct (Z.to_nat (lo self + __len__ self - (lo self + 0) - 1 + 1))
        as [|n] eqn:Hc; [lia|].
      cbn [Py.count_from Py.comprehension].
      now rewrite (address_not_v4 self _ H4 H0).
    + intros fuel. cbn [drain]. now rewrite Hnext.
  - reflexivity.
Qed.

End RangeCompositions.

(** ** Packing and unpacking *)

Lemma be_bytes_length (n : nat) : forall x, List.length (Inet.be_bytes n x) = n.
Proof.
  induction n as [|n IH]; intros x; cbn [Inet.be_bytes]; [reflexivity|].
  rewrite length_app, IH. simpl. lia.
Qed.

Lemma be_bytes_bytes (n : nat) : forall x, Forall byte (Inet.be_bytes n x).
Proof.
  induction n as [|n IH]; intros x; cbn [Inet.be_bytes]; [constructor|].
  apply Forall_app. split; [apply IH|].
  constructor; [|constructor]. apply Z.mod_pos_bound. lia.
Qed.

Lemma be_value_snoc (bs : list Z) (b : Z) :
  Inet.be_value (bs ++ [b]) = Inet.be_value bs * 256 + b.
Proof. unfold Inet.be_value. now rewrite fold_left_app. Qed.

Lemma be_value_be_bytes (n : nat) :
  forall x, 0 <= x < 256 ^ Z.of_nat n -> Inet.be_value (Inet.be_bytes n x) = x.
Proof.
  induction n as [|n IH]; intros x Hx.
  - change (256 ^ Z.of_nat 0) with 1 in Hx. cbn. lia.
  - cbn [Inet.be_bytes]. rewrite be_value_snoc, IH.
    + pose proof (Z.div_mod x 256). lia.
    + rewrite Nat2Z.inj_succ, Z.pow_succ_r in Hx by lia.
      split; [apply Z.div_pos; lia|apply Z.div_lt_upper_bound; lia].
Qed.

Lemma be_bytes_be_value (bs : list Z) :
  Forall byte bs -> Inet.be_bytes (List.length bs) (Inet.be_value bs) = bs.
Proof.
  induction bs as [|b bs IH] using rev_ind; intros Hb; [reflexivity|].
  apply Forall_app in Hb as [Hbs Hb]. inversion Hb as [|? ? Hb1 _]; subst.
  unfold byte in Hb1.
  rewrite length_app, Nat.add_comm. cbn [List.length Nat.add Inet.be_bytes].
  rewrite be_value_snoc.
  replace ((Inet.be_value bs * 256 + b) / 256) with (Inet.be_value bs)
    by (apply Z.div_unique with (r := b); lia).
  replace ((Inet.be_value bs * 256 + b) mod 256) with b
    by (apply Z.mod_unique with (q := Inet.be_value bs); lia).
  now rewrite IH.
Qed.

(** ** Digits *)

Lemma digit_value_digit_char (d : Z) :
  0 <= d <= 9 -> Py.digit_value (Inet.digit_char d) = Some d.
Proof.
  intros Hd.
  assert (Hc : d = 0 \/ d = 1 \/ d = 2 \/ d = 3 \/ d = 4 \/ d = 5 \/ d = 6
               \/ d = 7 \/ d = 8 \/ d = 9) by lia.
  repeat destruct Hc as [->|Hc]; try subst d; reflexivity.
Qed.

Lemma hex_digit_value_digit_char (d : Z) :
  0 <= d <= 15 -> Inet.hex_digit_value (Inet.digit_char d) = Some d.
Proof.
  intros Hd.
  assert (Hc : d = 0 \/ d = 1 \/ d = 2 \/ d = 3 \/ d = 4 \/ d = 5 \/ d = 6
               \/ d = 7 \/ d = 8 \/ d = 9 \/ d = 10 \/ d = 11 \/ d = 12
               \/ d = 13 \/ d = 14 \/ d = 15) by lia.
  repeat destruct Hc as [->|Hc]; try subst d; reflexivity.
Qed.

Lemma digit_value_inv (ch : ascii) (d : Z) :
  Py.digit_value ch = Some d -> 0 <= d <= 9 /\ ch = Inet.digit_char d.
Proof.
  destruct ch as [[] [] [] [] [] [] [] []]; cbv; intros Hd;
    try discriminate Hd; injection Hd as <-; split; try reflexivity;
    split; discriminate.
Qed.

(** ** Reading back a rendered dotted-decimal text *)

Lemma pton4_first_digit (done : list Z) (octets d : Z) (rest : string) :
  0 <= d <= 9 -> octets <= 3 ->
  Inet.pton4_loop done 0 false octets (String (Inet.digit_char d) rest)
  = Inet.pton4_loop done d true (octets + 1) rest.
Proof.
  intros Hd Ho. cbn [Inet.pton4_loop]. rewrite digit_value_digit_char by exact Hd.
  cbn [andb]. replace (255 <? 0 * 10 + d) with false by lia.
  replace (4 <? octets + 1) with false by lia.
  unfold Inet.u8. now rewrite Z.mod_small by lia.
Qed.

Lemma pton4_next_digit (done : list Z) (cur octets d : Z) (rest : string) :
  0 <= d <= 9 -> 1 <= cur -> cur * 10 + d <= 255 ->
  Inet.pton4_loop done cur true octets (String (Inet.digit_char d) rest)
  = Inet.pton4_loop done (cur * 10 + d) true octets rest.
Proof.
  intros Hd Hc Hn. cbn [Inet.pton4_loop].
  rewrite digit_value_digit_char by exact Hd.
  replace (true && (cur =? 0)) with false by lia.
  replace (255 <? cur * 10 + d) with false by lia.
  unfold Inet.u8. now rewrite Z.mod_small by lia.
Qed.

Lemma pton4_decimal (done : list Z) (octets b : Z) (rest : string) :
  byte b -> octets <= 3 ->
  Inet.pton4_loop done 0 false octets (Inet.decimal b ++ rest)%string
  = Inet.pton4_loop done b true (octets + 1) rest.
Proof.
  unfold byte, Inet.decimal. intros Hb Ho.
  destruct (b <? 10) eqn:H10; [|destruct (b <? 100) eqn:H100]; bools;
    cbn [append].
  - now rewrite pton4_first_digit by lia.
  - rewrite pton4_first_digit, pton4_next_digit;
      try (Z.div_mod_to_equations; lia).
    f_equal. Z.div_mod_to_equations. lia.
  - rewrite pton4_first_digit, !pton4_next_digit;
      try (Z.div_mod_to_equations; lia).
    f_equal. Z.div_mod_to_equations. lia.
Qed.

Lemma pton4_dot (done : list Z) (cur octets : Z) (rest : string) :
  octets <> 4 ->
  Inet.pton4_loop done cur true octets (String "." rest)
  = Inet.pton4_loop (done ++ [cur]) 0 false octets rest.
Proof.
  intros Ho. cbn. now replace (octets =? 4) with false by lia.
Qed.

Lemma append_nil_r_local (s : string) : (s ++ EmptyString)%string = s.
Proof. induction s as [|c s IH]; cbn; [reflexivity|now rewrite IH]. Qed.

Lemma inet_pton4_dotted (a b c d : Z) :
  byte a -> byte b -> byte c -> byte d ->
  Inet.inet_pton4 (Inet.dotted [a; b; c; d]) = Some [a; b; c; d].
Proof.
  intros Ha Hb Hc Hd. unfold Inet.inet_pton4. cbn [Inet.dotted].
  rewrite pton4_decimal by (assumption || lia). cbn [append].
  rewrite pton4_dot by lia.
  rewrite pton4_decimal by (assumption || lia). cbn [append].
  rewrite pton4_dot by lia.
  rewrite pton4_decimal by (assumption || lia). cbn [append].
  rewrite pton4_dot by lia.
  rewrite <- (append_nil_r_local (Inet.decimal d)).
  rewrite pton4_decimal by (assumption || lia). reflexivity.
Qed.

Lemma pton4_loop_excludes (c : ascii) (src : string) :
  Py.digit_value c = None -> c <> "."%char ->
  forall done cur saw octets b,
    Inet.pton4_loop done cur saw octets src = Some b ->
    Py.contains c src = false.
Proof.
  intros Hc Hdot.
  induction src as [|ch rest IH]; intros done cur saw octets b Hp;
    [reflexivity|].
  cbn [Inet.pton4_loop] in Hp. cbn [Py.contains].
  assert (Hch : Ascii.eqb ch c = false).
  { destruct (Ascii.eqb_spec ch c) as [->|]; [|reflexivity].
    rewrite Hc in Hp. destruct (Ascii.eqb_spec c "."); [contradiction|].
    discriminate Hp. }
  rewrite Hch. split_cases Hp; eauto.
Qed.

Lemma inet_pton_AF_INET_ok (s : string) (b : list Z) :
  Inet.inet_pton4 s = Some b -> Inet.inet_pton Inet.AF_INET s = Ok b.
Proof.
  intros Hp. unfold Inet.inet_pton.
  rewrite (pton4_loop_excludes zero s eq_refl ltac:(discriminate)
             _ _ _ _ _ Hp).
  now rewrite Hp.
Qed.

Lemma decimal_snoc (cur d : Z) :
  1 <= cur -> 0 <= d <= 9 -> cur * 10 + d <= 255 ->
  Inet.decimal (cur * 10 + d)
  = (Inet.decimal cur ++ String (Inet.digit_char d) EmptyString)%string.
Proof.
  intros Hc Hd Hn. unfold Inet.decimal.
  destruct (cur <? 10) eqn:Hc10; bools.
  - replace (cur * 10 + d <? 10) with false by lia.
    replace (cur * 10 + d <? 100) with true by lia.
    replace ((cur * 10 + d) / 10) with cur by (Z.div_mod_to_equations; lia).
    replace ((cur * 10 + d) mod 10) with d by (Z.div_mod_to_equations; lia).
    reflexivity.
  - replace (cur <? 100) with true by lia.
    replace (cur * 10 + d <? 10) with false by lia.
    replace (cur * 10 + d <? 100) with false by lia.
    replace ((cur * 10 + d) / 100) with (cur / 10)
      by (Z.div_mod_to_equations; lia).
    replace ((cur * 10 + d) / 10) with cur by (Z.div_mod_to_equations; lia).
    replace ((cur * 10 + d) mod 10) with d by (Z.div_mod_to_equations; lia).
    reflexivity.
Qed.

Lemma append_assoc_local (a b c : string) :
  ((a ++ b) ++ c)%string = (a ++ (b ++ c))%string.
Proof. induction a as [|x a IH]; cbn; [reflexivity|now rewrite IH]. Qed.

Lemma dotted_cons (b : Z) (rest : list Z) :
  rest <> [] ->
  Inet.dotted (b :: rest)
  = (Inet.decimal b ++ String "." (Inet.dotted rest))%string.
Proof. destruct rest; [contradiction|reflexivity]. Qed.

(** A text the dotted-decimal parser accepts is the rendering of the bytes
    it returns: no other spelling of them is accepted. *)
Lemma pton4_loop_canonical (src : string) :
  forall done cur (saw : bool) octets b,
    Inet.len done + (if saw then 1 else 0) = octets ->
    Inet.len done <= 3 ->
    (if saw then 0 <= cur <= 255 else cur = 0) ->
    Inet.pton4_loop done cur saw octets src = Some b ->
    exists tl : list Z,
      b = done ++ tl /\ tl <> [] /\
      (if saw then (Inet.decimal cur ++ src)%string else src) = Inet.dotted tl.
Proof.
  assert (Hsnoc : forall (l : list Z) (x : Z), Inet.len (l ++ [x]) = Inet.len l + 1).
  { intros l x. unfold Inet.len. rewrite length_app. simpl. lia. }
  induction src as [|ch rest IH]; intros done cur saw octets b Hinv Hle Hcur Hp;
    cbn [Inet.pton4_loop] in Hp.
  - destruct (octets <? 4) eqn:Ho; [discriminate Hp|]. injection Hp as <-.
    bools. destruct saw; [|lia].
    exists [cur]. split; [reflexivity|]. split; [discriminate|].
    apply append_nil_r_local.
  - destruct (Py.digit_value ch) as [d|] eqn:Hd.
    + apply digit_value_inv in Hd as [Hd ->].
      destruct saw; cbn [andb] in Hp.
      * destruct (cur =? 0) eqn:Hz; [discriminate Hp|].
        destruct (255 <? cur * 10 + d) eqn:Hbig; [discriminate Hp|]. bools.
        unfold Inet.u8 in Hp. rewrite Z.mod_small in Hp by lia.
        apply IH in Hp as (tl & Hb & Hne & Htl); [|exact Hinv|exact Hle|lia].
        exists tl. split; [exact Hb|]. split; [exact Hne|].
        rewrite <- Htl, decimal_snoc by lia.
        now rewrite append_assoc_local.
      * subst cur. cbn [Z.mul Z.add] in Hp.
        destruct (255 <? d) eqn:Hbig; [discriminate Hp|].
        destruct (4 <? octets + 1) eqn:Ho; [discriminate Hp|]. bools.
        unfold Inet.u8 in Hp. rewrite Z.mod_small in Hp by lia.
        apply IH in Hp as (tl & Hb & Hne & Htl); [|lia|exact Hle|lia].
        exists tl. split; [exact Hb|]. split; [exact Hne|].
        rewrite <- Htl. unfold Inet.decimal.
        now replace (d <? 10) with true by lia.
    + destruct (Ascii.eqb ch "." && saw) eqn:Hdot; [|discriminate Hp].
      apply andb_prop in Hdot as [Hdot ->]. apply Ascii.eqb_eq in Hdot. subst ch.
      destruct (octets =? 4) eqn:Ho; [discriminate Hp|]. bools.
      apply IH in Hp as (tl & Hb & Hne & Htl);
        [|rewrite Hsnoc; lia|rewrite Hsnoc; lia|reflexivity].
      exists (cur :: tl). split; [now rewrite Hb, <- app_assoc|].
      split; [discriminate|]. rewrite dotted_cons by exact Hne.
      now rewrite Htl.
Qed.

Lemma inet_pton4_canonical (s : string) (b : list Z) :
  Inet.inet_pton4 s = Some b -> s = Inet.dotted b.
Proof.
  intros Hp. unfold Inet.inet_pton4 in Hp.
  apply pton4_loop_canonical in Hp as (tl & -> & _ & Hs);
    [exact Hs|reflexivity|unfold Inet.len; simpl; lia|reflexivity].
Qed.

Lemma pack_L_ok (n : Z) :
  0 <= n <= Converter.v4_MAX -> Inet.pack_L n = Ok (Inet.be_bytes 4 n).
Proof.
  unfold Converter.v4_MAX, Inet.pack_L. intros Hn.
  now replace ((0 <=? n) && (n <=? 4294967295)) with true by lia.
Qed.

Lemma int_to_v4_ok (n : Z) :
  0 <= n <= Converter.v4_MAX ->
  Converter.int_to_v4 n = Ok (Inet.dotted (Inet.be_bytes 4 n)).
Proof.
  intros Hn. unfold Converter.int_to_v4. rewrite pack_L_ok by exact Hn.
  reflexivity.
Qed.

Lemma v4_to_int_dotted_bytes (n : Z) :
  0 <= n <= Converter.v4_MAX ->
  Converter.v4_to_int (Inet.dotted (Inet.be_bytes 4 n)) = Ok n.
Proof.
  intros Hn.
  pose proof (be_bytes_bytes 4 n) as Hb.
  pose proof (be_bytes_length 4 n) as Hl.
  destruct (Inet.be_bytes 4 n) as [|a [|b [|c [|d [|]]]]] eqn:Hbytes;
    try discriminate Hl.
  inversion Hb as [|? ? Ha Hb']; subst.
  inversion Hb' as [|? ? Hb1 Hb'']; subst.
  inversion Hb'' as [|? ? Hc Hb''']; subst.
  inversion Hb''' as [|? ? Hd _]; subst.
  unfold Converter.v4_to_int.
  rewrite (inet_pton_AF_INET_ok _ _ (inet_pton4_dotted a b c d Ha Hb1 Hc Hd)).
  cbn [bind]. unfold Inet.unpack_L.
  change (Inet.len [a; b; c; d] =? 4) with true. cbv iota.
  cbn [Converter.except_OSError]. f_equal.
  rewrite <- Hbytes. apply (be_value_be_bytes 4).
  unfold Converter.v4_MAX in Hn. change (256 ^ Z.of_nat 4) with 4294967296. lia.
Qed.

(** X5. An integer within the IPv4 address space is rendered as a text that
    the IPv4 codec reads back as the same integer. *)
Theorem v4_render_then_parse (n : Z) :
  0 <= n <= Converter.v4_MAX ->
  exists s : string,
    Converter.int_to_v4 n = Ok s /\ Converter.v4_to_int s = Ok n.
Proof.
  intros Hn. exists (Inet.dotted (Inet.be_bytes 4 n)).
  split; [now apply int_to_v4_ok|now apply v4_to_int_dotted_bytes].
Qed.

(** X6. A text the IPv4 codec accepts is in canonical form: rendering the
    integer it denotes gives the same text back. *)
Theorem v4_parse_then_render (s : string) (n : Z) :
  Converter.v4_to_int s = Ok n -> Converter.int_to_v4 n = Ok s.
Proof.
  intros Hv. pose proof (v4_to_int_bound _ _ Hv) as Hn.
  apply v4_to_int_ok in Hv as (b & Hp & Hlen & ->).
  apply inet_pton_ok in Hp as [_ Hp].
  pose proof (inet_pton4_bytes _ _ Hp) as [Hb _].
  rewrite int_to_v4_ok by exact Hn. f_equal.
  replace 4%nat with (List.length b) by (unfold Inet.len in Hlen; lia).
  rewrite be_bytes_be_value by exact Hb.
  symmetry. now apply inet_pton4_canonical.
Qed.

(** ** The two codecs and the detection of the version *)

Lemma contains_append (c : ascii) (a b : string) :
  Py.contains c (a ++ b)%string = Py.contains c a || Py.contains c b.
Proof.
  induction a as [|x a IH]; cbn [append Py.contains]; [reflexivity|].
  rewrite IH. now rewrite orb_assoc.
Qed.

Lemma dotted_has_dot (a b : Z) (rest : list Z) :
  Py.contains "." (Inet.dotted (a :: b :: rest)) = true.
Proof.
  rewrite dotted_cons by discriminate. rewrite contains_append.
  cbn [Py.contains]. change (Ascii.eqb "." ".") with true.
  cbn [orb]. apply orb_true_r.
Qed.

Lemma v4_text_has_dot (s : string) (n : Z) :
  Converter.v4_to_int s = Ok n -> Py.contains "." s = true.
Proof.
  intros Hv. apply v4_to_int_ok in Hv as (b & Hp & Hlen & _).
  apply inet_pton_ok in Hp as [_ Hp].
  rewrite (inet_pton4_canonical _ _ Hp).
  destruct b as [|x [|y rest]]; try (unfold Inet.len in Hlen; simpl in Hlen; lia).
  apply dotted_has_dot.
Qed.

Lemma v4_text_illegal_for_v6 (s : string) (n : Z) :
  Converter.v4_to_int s = Ok n -> Converter.v6_to_int s = Raise InvalidAddress.
Proof.
  intros Hv. apply v4_to_int_ok in Hv as (b & Hp & _).
  apply inet_pton_ok in Hp as [Hz Hp].
  unfold Converter.v6_to_int, Inet.inet_pton. rewrite Hz.
  destruct (Inet.inet_pton6 s) as [b6|] eqn:H6; [|reflexivity].
  apply pton6_rejects_pton4 in H6. congruence.
Qed.

(** X7. The integers of the two codecs: the IPv4 codec returns an integer
    within [0, 2^32 - 1], which the fallback detection takes for version 4;
    the IPv6 codec returns one within [0, 2^128 - 1], which the detection
    takes for version 6 only when it is above 2^32 - 1. *)
Theorem codec_ranges (s : string) (n : Z) :
  (Converter.v4_to_int s = Ok n ->
   0 <= n <= Converter.v4_MAX /\
   Converter.get_version (Converter.VInt n) = 4)
  /\ (Converter.v6_to_int s = Ok n ->
      0 <= n <= Converter.v6_MAX /\
      (Converter.get_version (Converter.VInt n) = 6 <-> Converter.v4_MAX < n)).
Proof.
  split; intros Hv.
  - apply v4_to_int_bound in Hv. split; [exact Hv|].
    cbn [Converter.get_version].
    now replace ((0 <=? n) && (n <=? Converter.v4_MAX)) with true by lia.
  - apply v6_to_int_bound in Hv. split; [exact Hv|].
    cbn [Converter.get_version].
    destruct ((0 <=? n) && (n <=? Converter.v4_MAX)) eqn:Hc; bools.
    + split; [discriminate|lia].
    + split; [lia|reflexivity].
Qed.

(** X8. No text is legal for both codecs.  A text the IPv4 codec accepts
    contains a '.', so it is detected as version 4 and the Address built
    from it without a version converts to the integer of the codec, while
    the IPv6 codec refuses it; a text the IPv6 codec accepts is refused by
    the IPv4 codec. *)
Theorem codecs_are_disjoint (s : string) (n : Z) :
  (Converter.v4_to_int s = Ok n ->
   Converter.get_version (Converter.VStr s) = 4 /\
   (a <- IPAddress.__init__ (Converter.VStr s) None ;; IPAddress.__int__ a)
   = Ok n /\
   Converter.v6_to_int s = Raise InvalidAddress)
  /\ (Converter.v6_to_int s = Ok n ->
      Converter.v4_to_int s = Raise InvalidAddress).
Proof.
  split; intros Hv; [|exact (v6_text_illegal_for_v4 _ _ Hv)].
  assert (H4 : Converter.get_version (Converter.VStr s) = 4).
  { cbn [Converter.get_version]. now rewrite (v4_text_has_dot _ _ Hv). }
  split; [exact H4|]. split; [|exact (v4_text_illegal_for_v6 _ _ Hv)].
  rewrite (IPAddress_of_dotted_text s (v4_text_has_dot _ _ Hv)).
  exact Hv.
Qed.

(** X9. The rendering functions return a text exactly for the integers of
    their address space; for any other integer the [struct.error] of [pack]
    is passed on, and the ValueError of lines 44 and 51 is never raised. *)
Theorem rendering_domain (n : Z) :
  (0 <= n <= Converter.v4_MAX -> succeeds (Converter.int_to_v4 n))
  /\ (~ 0 <= n <= Converter.v4_MAX ->
      exists msg : string, Converter.int_to_v4 n = Raise (StructError msg))
  /\ (0 <= n <= Converter.v6_MAX -> succeeds (Converter.int_to_v6 n))
  /\ (~ 0 <= n <= Converter.v6_MAX ->
      exists msg : string, Converter.int_to_v6 n = Raise (StructError msg))
  /\ (forall msg : string,
         Converter.int_to_v4 n <> Raise (ValueError msg) /\
         Converter.int_to_v6 n <> Raise (ValueError msg)).
Proof.
  assert (Hland : 0 <= Z.land n (2 ^ 64 - 1) <= 18446744073709551615).
  { change (2 ^ 64 - 1) with (Z.ones 64). rewrite Z.land_ones by lia.
    pose proof (Z.mod_pos_bound n (2 ^ 64) ltac:(lia)).
    change (2 ^ 64) with 18446744073709551616 in *. lia. }
  assert (Hshift : Z.shiftr n 64 = n / 2 ^ 64)
    by (apply Z.shiftr_div_pow2; lia).
  assert (H4 : 0 <= n <= Converter.v4_MAX -> succeeds (Converter.int_to_v4 n)).
  { intros Hn. eexists. apply int_to_v4_ok. exact Hn. }
  assert (H4' : ~ 0 <= n <= Converter.v4_MAX ->
                exists msg, Converter.int_to_v4 n = Raise (StructError msg)).
  { unfold Converter.v4_MAX. intros Hn. unfold Converter.int_to_v4, Inet.pack_L.
    replace ((0 <=? n) && (n <=? 4294967295)) with false by lia.
    destruct ((0 <=? n) && (n <=? 18446744073709551615)); eexists; reflexivity. }
  assert (H6 : 0 <= n <= Converter.v6_MAX -> succeeds (Converter.int_to_v6 n)).
  { unfold Converter.v6_MAX. intros Hn.
    unfold succeeds, Converter.int_to_v6, Inet.pack_QQ.
    replace ((0 <=? Z.shiftr n 64) && (Z.shiftr n 64 <=? 18446744073709551615))
      with true
      by (rewrite Hshift; change (2 ^ 64) with 18446744073709551616;
          Z.div_mod_to_equations; lia).
    replace ((0 <=? Z.land n (2 ^ 64 - 1))
             && (Z.land n (2 ^ 64 - 1) <=? 18446744073709551615))
      with true by lia.
    cbn [bind Inet.inet_ntop].
    replace (Inet.len (Inet.be_bytes 8 (Z.shiftr n 64)
                       ++ Inet.be_bytes 8 (Z.land n (2 ^ 64 - 1))) =? 16)
      with true
      by (unfold Inet.len; rewrite length_app, !be_bytes_length; reflexivity).
    eexists. reflexivity. }
  assert (H6' : ~ 0 <= n <= Converter.v6_MAX ->
                exists msg, Converter.int_to_v6 n = Raise (StructError msg)).
  { unfold Converter.v6_MAX. intros Hn. unfold Converter.int_to_v6, Inet.pack_QQ.
    replace ((0 <=? Z.shiftr n 64) && (Z.shiftr n 64 <=? 18446744073709551615))
      with false
      by (rewrite Hshift; change (2 ^ 64) with 18446744073709551616;
          Z.div_mod_to_equations; lia).
    eexists. reflexivity. }
  split; [exact H4|]. split; [exact H4'|]. split; [exact H6|].
  split; [exact H6'|]. intros msg. split; intros Hr.
  - destruct (Z_le_dec 0 n) as [H0|H0];
      [destruct (Z_le_dec n Converter.v4_MAX) as [H1|H1]|].
    + destruct (H4 (conj H0 H1)) as [t Ht]. congruence.
    + destruct H4' as [m Hm]; [lia|congruence].
    + destruct H4' as [m Hm]; [lia|congruence].
  - destruct (Z_le_dec 0 n) as [H0|H0];
      [destruct (Z_le_dec n Converter.v6_MAX) as [H1|H1]|].
    + destruct (H6 (conj H0 H1)) as [t Ht]. congruence.
    + destruct H6' as [m Hm]; [lia|congruence].
    + destruct H6' as [m Hm]; [lia|congruence].
Qed.

(** X10. An Address built from an integer n of the IPv4 address space,
    without a version, renders as a text from which an Address, again
    without a version, converts back to n. *)
Theorem address_round_trip_v4 (n : Z) :
  0 <= n <= Converter.v4_MAX ->
  exists s : string,
    (a <- IPAddress.__init__ (Converter.VInt n) None ;; IPAddress.__str__ a)
    = Ok s /\
    (a <- IPAddress.__init__ (Converter.VStr s) None ;; IPAddress.__int__ a)
    = Ok n.
Proof.
  intros Hn.
  pose proof (int_to_v4_ok n Hn) as Hs.
  pose proof (v4_to_int_dotted_bytes n Hn) as Hv.
  exists (Inet.dotted (Inet.be_bytes 4 n)). split.
  - unfold IPAddress.__init__.
    cbn [Converter.version_or Converter.get_version].
    replace ((0 <=? n) && (n <=? Converter.v4_MAX)) with true by lia.
    exact Hs.
  - rewrite (IPAddress_of_dotted_text _ (v4_text_has_dot _ _ Hv)).
    exact Hv.
Qed.

(** X11. Membership of a text of the other family is not false but an
    error: a range whose codec is the IPv4 one raises InvalidAddress for a
    legal IPv6 text, and a range whose codec is the IPv6 one raises it for a
    legal IPv4 text. *)
Theorem membership_across_families {R : Type} `{RangeObject R}
        (self : R) (s : string) (n : Z) :
  (to_int self = Converter.v4_to_int ->
   Converter.v6_to_int s = Ok n ->
   __contains__ self (CStr s) = Raise InvalidAddress)
  /\ (to_int self = Converter.v6_to_int ->
      Converter.v4_to_int s = Ok n ->
      __contains__ self (CStr s) = Raise InvalidAddress).
Proof.
  split; intros Hcodec Hv; unfold __contains__; cbn [normalize];
    rewrite Hcodec.
  - now rewrite (v6_text_illegal_for_v4 _ _ Hv).
  - now rewrite (v4_text_illegal_for_v6 _ _ Hv).
Qed.

(** ** What a CIDR block is *)

Lemma div_eq_iff (x m q : Z) :
  0 < m -> (x / m = q <-> q * m <= x <= q * m + m - 1).
Proof.
  intros Hm. split.
  - intros <-. pose proof (Z.div_mod x m). pose proof (Z.mod_pos_bound x m Hm).
    lia.
  - intros Hx. symmetry. apply Z.div_unique with (r := x - q * m); lia.
Qed.

Lemma IPNetwork_init_inv (network : string) (version : option Z)
      (r : IPNetwork.t) :
  let v := Converter.version_or version
             (Converter.get_version (Converter.VStr network)) in
  IPNetwork.__init__ network version = Ok r ->
  exists (addr cidr : string) (p a : Z),
    Py.split "/" network = [addr; cidr] /\
    Py.int_of_str cidr = Ok p /\
    p <= bitwidth v /\
    Converter.select_to_int v addr = Ok a /\
    r = {| IPNetwork.network := network;
           IPNetwork.version := v;
           IPNetwork.to_int := Converter.select_to_int v;
           IPNetwork.bit := bitwidth v;
           IPNetwork.range :=
             (Z.shiftl (Z.shiftr a (bitwidth v - p)) (bitwidth v - p),
              Z.lor (Z.shiftl (Z.shiftr a (bitwidth v - p)) (bitwidth v - p))
                    (Z.shiftl 1 (bitwidth v - p) - 1)) |}.
Proof.
  intros v. unfold IPNetwork.__init__.
  destruct (negb (Py.contains "/" network)); [discriminate|].
  fold v. fold (bitwidth v). unfold IPNetwork.expand.
  destruct (Py.split "/" network) as [|addr [|cidr [|]]]; try discriminate.
  cbn [Py.unpack2 bind].
  destruct (Py.int_of_str cidr) as [p|] eqn:Hp; [|discriminate]. cbn [bind].
  destruct (bitwidth v <? p) eqn:Hlt; [discriminate|]. bools.
  destruct (Converter.select_to_int v addr) as [a|] eqn:Ha; [|discriminate].
  cbn [bind]. intros Hr. injection Hr as <-.
  exists addr, cidr, p, a. repeat split; (assumption || reflexivity).
Qed.

(** X13. Membership in a CIDR block is agreement on the leading bits: for a
    prefix length p in [0, bitwidth], an integer x is contained exactly
    when x >> (bitwidth - p) equals address >> (bitwidth - p); so the block
    contains the address it was built from. *)
Theorem cidr_membership_is_prefix_match (network : string)
        (version : option Z) (addr cidr : string) (p a : Z) (r : IPNetwork.t) :
  let v := Converter.version_or version
             (Converter.get_version (Converter.VStr network)) in
  Py.split "/" network = [addr; cidr] ->
  Py.int_of_str cidr = Ok p ->
  0 <= p <= bitwidth v ->
  Converter.select_to_int v addr = Ok a ->
  IPNetwork.__init__ network version = Ok r ->
  (forall x : Z,
      __contains__ r (CInt x) = Ok true <->
      Z.shiftr x (bitwidth v - p) = Z.shiftr a (bitwidth v - p))
  /\ __contains__ r (CStr addr) = Ok true.
Proof.
  intros v Hs Hp Hrange Ha Hr.
  rewrite (IPNetwork_init_ok network version addr cidr p a Hs Hp
             (proj2 Hrange) Ha) in Hr.
  fold v in Hr. clearbody v. injection Hr as <-.
  set (bits := bitwidth v - p) in *.
  assert (Hbits : 0 <= bits) by (unfold bits; lia).
  assert (Hpow : 0 < 2 ^ bits) by (apply Z.pow_pos_nonneg; lia).
  destruct (cidr_block a bits Hbits) as [_ Hhi].
  assert (Hlo : Z.shiftl (Z.shiftr a bits) bits = a / 2 ^ bits * 2 ^ bits).
  { now rewrite Z.shiftr_div_pow2, Z.shiftl_mul_pow2 by lia. }
  assert (Hmatch : forall x : Z,
             (Z.shiftl (Z.shiftr a bits) bits <=? x)
             && (x <=? Z.lor (Z.shiftl (Z.shiftr a bits) bits)
                             (Z.shiftl 1 bits - 1)) = true
             <-> Z.shiftr x bits = Z.shiftr a bits).
  { intros x. rewrite Hhi, Hlo, !Z.shiftr_div_pow2 by lia.
    rewrite (div_eq_iff x (2 ^ bits) (a / 2 ^ bits) Hpow). lia. }
  unfold __contains__. cbn [normalize bind to_int IPNetwork_RangeObject
                            IPNetwork.to_int].
  unfold lo, hi. cbn [range IPNetwork_RangeObject IPNetwork.range fst snd].
  split.
  - intros x. rewrite <- Hmatch. split; [now intros [= ->]|now intros ->].
  - rewrite Ha. cbn [bind]. f_equal. now apply Hmatch.
Qed.

(** X14. CIDR blocks of one address nest: the block of a longer prefix lies
    within the block of a shorter one. *)
Theorem cidr_blocks_nest (net_p net_q addr cidr_p cidr_q : string)
        (bit p q a : Z) (to_int : string -> result Z)
        (lo_p hi_p lo_q hi_q : Z) :
  Py.split "/" net_p = [addr; cidr_p] ->
  Py.split "/" net_q = [addr; cidr_q] ->
  Py.int_of_str cidr_p = Ok p ->
  Py.int_of_str cidr_q = Ok q ->
  p <= q <= bit ->
  IPNetwork.expand net_p bit to_int = Ok (lo_p, hi_p) ->
  IPNetwork.expand net_q bit to_int = Ok (lo_q, hi_q) ->
  lo_p <= lo_q /\ lo_q <= hi_q /\ hi_q <= hi_p.
Proof.
  intros Hsp Hsq Hp Hq Hpq Hep Heq.
  unfold IPNetwork.expand in Hep, Heq.
  rewrite Hsp, unpack2_two in Hep. rewrite Hsq, unpack2_two in Heq.
  cbn [bind] in Hep, Heq. rewrite Hp in Hep. rewrite Hq in Heq.
  cbn [bind] in Hep, Heq.
  replace (bit <? p) with false in Hep by lia.
  replace (bit <? q) with false in Heq by lia.
  destruct (to_int addr) as [x|]; [|discriminate Hep].
  cbn [bind] in Hep, Heq. injection Hep as <- <-. injection Heq as <- <-.
  set (bp := bit - p). set (bq := bit - q).
  assert (Hb : 0 <= bq <= bp) by (unfold bp, bq; lia).
  destruct (cidr_block x bp ltac:(lia)) as [Hlp Hhp].
  destruct (cidr_block x bq ltac:(lia)) as [Hlq Hhq].
  rewrite Hhp, Hhq, Hlp, Hlq.
  assert (Hq0 : 0 < 2 ^ bq) by (apply Z.pow_pos_nonneg; lia).
  assert (Hk0 : 0 < 2 ^ (bp - bq)) by (apply Z.pow_pos_nonneg; lia).
  assert (Hsplit : 2 ^ bp = 2 ^ (bp - bq) * 2 ^ bq).
  { rewrite <- Z.pow_add_r by lia. f_equal. lia. }
  pose proof (Z.mod_pos_bound x (2 ^ bq) Hq0) as Hmq.
  assert (Hmm : (x mod 2 ^ bp) mod 2 ^ bq = x mod 2 ^ bq).
  { apply Z.mod_mod_divide. exists (2 ^ (bp - bq)). exact Hsplit. }
  pose proof (Z.div_mod (x mod 2 ^ bp) (2 ^ bq) ltac:(lia)) as Hdm.
  rewrite Hmm in Hdm.
  pose proof (Z.mod_pos_bound x (2 ^ bp) ltac:(lia)) as Hmp.
  assert (Hd0 : 0 <= (x mod 2 ^ bp) / 2 ^ bq) by (apply Z.div_pos; lia).
  assert (Hd1 : (x mod 2 ^ bp) / 2 ^ bq < 2 ^ (bp - bq)).
  { apply Z.div_lt_upper_bound; lia. }
  nia.
Qed.

(** X15. The two extreme prefix lengths: with the prefix length equal to
    the bit width the range is the one address; with the prefix length 0 it
    is the whole address space of the version. *)
Theorem cidr_prefix_extremes (network : string) (version : option Z)
        (addr cidr : string) (p a : Z) (r : IPNetwork.t) :
  let v := Converter.version_or version
             (Converter.get_version (Converter.VStr network)) in
  Py.split "/" network = [addr; cidr] ->
  Py.int_of_str cidr = Ok p ->
  Converter.select_to_int v addr = Ok a ->
  IPNetwork.__init__ network version = Ok r ->
  (p = bitwidth v -> IPNetwork.range r = (a, a) /\ __len__ r = 1)
  /\ (p = 0 -> IPNetwork.range r = (0, 2 ^ bitwidth v - 1)
               /\ __len__ r = 2 ^ bitwidth v).
Proof.
  intros v Hs Hp Ha Hr.
  assert (Hw : 0 <= bitwidth v) by (unfold bitwidth; destruct (v =? 4); lia).
  pose proof (select_to_int_bound _ _ _ Ha) as Hbound.
  split; intros ->.
  - rewrite (IPNetwork_init_ok network version addr cidr _ a Hs Hp
               (Z.le_refl _) Ha) in Hr.
    fold v in Hr. injection Hr as <-.
    unfold __len__, lo, hi.
    cbn [range IPNetwork_RangeObject IPNetwork.range fst snd].
    rewrite Z.sub_diag. rewrite Z.shiftr_0_r, Z.shiftl_0_r.
    change (Z.shiftl 1 0 - 1) with 0. rewrite Z.lor_0_r.
    split; [reflexivity|lia].
  - rewrite (IPNetwork_init_ok network version addr cidr 0 a Hs Hp Hw Ha) in Hr.
    fold v in Hr. injection Hr as <-.
    unfold __len__, lo, hi.
    cbn [range IPNetwork_RangeObject IPNetwork.range fst snd].
    rewrite Z.sub_0_r.
    destruct (cidr_block a (bitwidth v) Hw) as [Hlo Hhi].
    rewrite Hhi, Hlo, Z.mod_small by lia.
    rewrite Z.sub_diag. split; [reflexivity|lia].
Qed.

(** ** The pair path of [IPRange] *)

Lemma lstrip_contains (c : ascii) (s : string) :
  Py.contains c (Py.lstrip s) = true -> Py.contains c s = true.
Proof.
  induction s as [|x r IH]; cbn [Py.lstrip]; [auto|].
  destruct (Py.isspace x); [|auto].
  intros Hc. cbn [Py.contains]. rewrite (IH Hc). apply orb_true_r.
Qed.

Lemma rstrip_contains (c : ascii) (s : string) :
  Py.contains c (Py.rstrip s) = true -> Py.contains c s = true.
Proof.
  induction s as [|x r IH]; cbn [Py.rstrip]; [auto|].
  destruct (Py.rstrip r) as [|y r'] eqn:Hr.
  - destruct (Py.isspace x); [discriminate|].
    cbn [Py.contains]. rewrite orb_false_r. intros ->. reflexivity.
  - cbn [Py.contains] in *. intros Hc.
    apply orb_true_iff in Hc as [->|Hc]; [reflexivity|].
    rewrite (IH Hc). apply orb_true_r.
Qed.

Lemma strip_contains (c : ascii) (s : string) :
  Py.contains c (Py.strip s) = true -> Py.contains c s = true.
Proof.
  unfold Py.strip. intros Hc. now apply lstrip_contains, rstrip_contains.
Qed.

Lemma IPRange_pair_inv (range_ : option string) (start stop : string)
      (version : option Z) (r : IPRange.t) :
  let v := Converter.version_or version
             (Converter.get_version (Converter.VStr start)) in
  IPRange.truthy range_ = false ->
  IPRange.__init__ range_ (Some start) (Some stop) version = Ok r ->
  exists l h : Z,
    Converter.select_to_int v (Py.strip start) = Ok l /\
    Converter.select_to_int v (Py.strip stop) = Ok h /\
    r = {| IPRange.range_ := Some start;
           IPRange.version := v;
           IPRange.to_int := Converter.select_to_int v;
           IPRange.range := (l, h) |}.
Proof.
  intros v Ht. unfold IPRange.__init__. rewrite Ht.
  cbn [IPRange.as_value IPRange.text]. fold v.
  destruct (IPRange.truthy (Some start) && IPRange.truthy (Some stop));
    [|discriminate].
  destruct (Converter.select_to_int v (Py.strip start)) as [l|] eqn:Hl;
    [|discriminate].
  destruct (Converter.select_to_int v (Py.strip stop)) as [h|] eqn:Hh;
    [|discriminate].
  cbn [bind]. intros Hr. injection Hr as <-. exists l, h. auto.
Qed.

(** X16. The pair path keeps the bounds inside the address space, though
    not their order: a range built from (start, stop) has the version
    resolved from start alone, and its two bounds are what the codec of that
    version reads from the two trimmed texts, each within
    [0, 2^bitwidth - 1]. *)
Theorem pair_path_bounds (range_ : option string) (start stop : string)
        (version : option Z) (r : IPRange.t) :
  let v := Converter.version_or version
             (Converter.get_version (Converter.VStr start)) in
  IPRange.truthy range_ = false ->
  IPRange.__init__ range_ (Some start) (Some stop) version = Ok r ->
  IPRange.version r = v
  /\ Converter.select_to_int v (Py.strip start) = Ok (lo r)
  /\ Converter.select_to_int v (Py.strip stop) = Ok (hi r)
  /\ 0 <= lo r < 2 ^ bitwidth v
  /\ 0 <= hi r < 2 ^ bitwidth v.
Proof.
  intros v Ht Hr.
  apply IPRange_pair_inv in Hr as (l & h & Hl & Hh & ->); [|exact Ht].
  fold v in Hl, Hh. unfold lo, hi.
  cbn [range IPRange_RangeObject IPRange.range IPRange.version fst snd].
  split; [reflexivity|]. split; [exact Hl|]. split; [exact Hh|].
  split; eapply select_to_int_bound; eassumption.
Qed.

(** X17. A pair of addresses of two families never builds a range when no
    version is given: the codec is chosen from start, and it refuses the
    text of the other family. *)
Theorem mixed_family_pair_fails (start stop : string) (a b : Z) :
  (Converter.v4_to_int (Py.strip start) = Ok a /\
   Converter.v6_to_int (Py.strip stop) = Ok b)
  \/ (Converter.v6_to_int (Py.strip start) = Ok a /\
      Converter.v4_to_int (Py.strip stop) = Ok b) ->
  IPRange.__init__ None (Some start) (Some stop) None = Raise InvalidAddress.
Proof.
  intros Hfam. unfold IPRange.__init__.
  change (IPRange.truthy None) with false. cbv iota.
  cbn [IPRange.as_value IPRange.text Converter.version_or
       Converter.get_version].
  assert (Hne : forall (s : string) (x : Z),
             Converter.select_to_int 4 (Py.strip s) = Ok x \/
             Converter.select_to_int 6 (Py.strip s) = Ok x ->
             IPRange.truthy (Some s) = true).
  { intros [|c s] x [Hx|Hx]; try reflexivity; discriminate Hx. }
  destruct Hfam as [[Ha Hb]|[Ha Hb]].
  - rewrite (Hne start a (or_introl Ha)), (Hne stop b (or_intror Hb)).
    cbn [andb].
    rewrite (strip_contains _ _ (v4_text_has_dot _ _ Ha)).
    change (Converter.select_to_int 4) with Converter.v4_to_int.
    rewrite Ha. cbn [bind].
    now rewrite (v6_text_illegal_for_v4 _ _ Hb).
  - rewrite (Hne start a (or_intror Ha)), (Hne stop b (or_introl Hb)).
    cbn [andb].
    destruct (Py.contains "." start).
    + change (Converter.select_to_int 4) with Converter.v4_to_int.
      now rewrite (v6_text_illegal_for_v4 _ _ Ha).
    + change (Converter.select_to_int 6) with Converter.v6_to_int.
      rewrite Ha. cbn [bind].
      now rewrite (v4_text_illegal_for_v6 _ _ Hb).
Qed.

(** ** Reading back a rendered colon-hex text *)

Lemma lor_shiftl_add (v d n : Z) :
  0 <= n -> 0 <= d < 2 ^ n -> Z.lor (Z.shiftl v n) d = v * 2 ^ n + d.
Proof.
  intros Hn Hd.
  assert (Hland : Z.land (Z.shiftl v n) d = 0).
  { apply Z.bits_inj'. intros i Hi. rewrite Z.land_spec, Z.bits_0.
    destruct (Z.lt_ge_cases i n) as [Hlt|Hge].
    - now rewrite Z.shiftl_spec_low.
    - destruct (Z.eq_dec d 0) as [->|Hd0];
        [now rewrite Z.bits_0, andb_false_r|].
      rewrite (Z.bits_above_log2 d i), andb_false_r; [reflexivity|lia|].
      apply Z.lt_le_trans with n; [|exact Hge].
      apply Z.log2_lt_pow2; lia. }
  rewrite <- (Z.lxor_lor _ _ Hland), <- (Z.add_nocarry_lxor _ _ Hland).
  now rewrite Z.shiftl_mul_pow2.
Qed.

Lemma pton6_hex_digit (curtok : string) (tp : list Z) (c : option nat)
      (seen v d : Z) (rest : string) :
  0 <= d <= 15 -> 0 <= seen <= 3 -> 0 <= v -> v * 16 + d <= 65535 ->
  Inet.pton6_loop curtok (Inet.St6 tp c seen v)
                  (String (Inet.digit_char d) rest)
  = Inet.pton6_loop curtok (Inet.St6 tp c (seen + 1) (v * 16 + d)) rest.
Proof.
  intros Hd Hs Hv Hn. cbn [Inet.pton6_loop].
  rewrite hex_digit_value_digit_char by exact Hd.
  cbn [Inet.xdigits_seen Inet.val Inet.tp Inet.colonp].
  replace (seen =? 4) with false by lia.
  rewrite (lor_shiftl_add v d 4) by lia. change (2 ^ 4) with 16.
  now replace (65535 <? v * 16 + d) with false by lia.
Qed.

(** The loop reads the digits [sprintf "%x"] wrote for a word as that word. *)
Lemma pton6_hex (curtok : string) (tp : list Z) (c : option nat) (w : Z)
      (rest : string) :
  word16 w ->
  Inet.pton6_loop curtok (Inet.St6 tp c 0 0) (Inet.hex w ++ rest)%string
  = Inet.pton6_loop curtok (Inet.St6 tp c (hexlen w) w) rest.
Proof.
  unfold word16, Inet.hex, hexlen. intros Hw.
  destruct (w <? 16) eqn:H1; [|destruct (w <? 256) eqn:H2;
                                [|destruct (w <? 4096) eqn:H3]];
    bools; cbn [append].
  - rewrite pton6_hex_digit by lia. reflexivity.
  - rewrite !pton6_hex_digit by (Z.div_mod_to_equations; lia).
    do 2 f_equal. Z.div_mod_to_equations. lia.
  - rewrite !pton6_hex_digit by (Z.div_mod_to_equations; lia).
    do 2 f_equal. Z.div_mod_to_equations. lia.
  - rewrite !pton6_hex_digit by (Z.div_mod_to_equations; lia).
    do 2 f_equal. Z.div_mod_to_equations. lia.
Qed.

Lemma hexlen_pos (w : Z) : 1 <= hexlen w <= 4.
Proof.
  unfold hexlen. destruct (w <? 16), (w <? 256), (w <? 4096); lia.
Qed.

Lemma hex_append_not_empty (w : Z) (rest : string) :
  (Inet.hex w ++ rest)%string <> EmptyString.
Proof.
  unfold Inet.hex. destruct (w <? 16), (w <? 256), (w <? 4096); discriminate.
Qed.

(** A colon after a group stores the group. *)
Lemma pton6_separator (curtok : string) (tp : list Z) (c : option nat)
      (w : Z) (rest : string) :
  rest <> EmptyString -> Inet.len tp + 2 <= 16 ->
  Inet.pton6_loop curtok (Inet.St6 tp c (hexlen w) w) (String ":" rest)
  = Inet.pton6_loop rest (Inet.St6 (tp ++ Inet.group_bytes w) c 0 0) rest.
Proof.
  intros Hrest Hlen. cbn [Inet.pton6_loop]. change (Inet.hex_digit_value ":") with (@None Z).
  cbv iota. change (Ascii.eqb ":" ":") with true. cbv iota.
  cbn [Inet.xdigits_seen Inet.val Inet.tp Inet.colonp].
  pose proof (hexlen_pos w).
  replace (hexlen w =? 0) with false by lia.
  destruct rest; [contradiction|].
  now replace (16 <? Inet.len tp + 2) with false by lia.
Qed.

(** A colon where no group was read is the [::]. *)
Lemma pton6_gap (curtok : string) (tp : list Z) (v : Z) (rest : string) :
  Inet.pton6_loop curtok (Inet.St6 tp None 0 v) (String ":" rest)
  = Inet.pton6_loop rest (Inet.St6 tp (Some (List.length tp)) 0 v) rest.
Proof. reflexivity. Qed.

Lemma decimal_digits_as_hex (curtok : string) (tp : list Z) (c : option nat)
      (b : Z) (rest : string) :
  byte b ->
  exists k v : Z,
    1 <= k <= 3 /\
    Inet.pton6_loop curtok (Inet.St6 tp c 0 0) (Inet.decimal b ++ rest)%string
    = Inet.pton6_loop curtok (Inet.St6 tp c k v) rest.
Proof.
  unfold byte, Inet.decimal. intros Hb.
  destruct (b <? 10) eqn:H1; [|destruct (b <? 100) eqn:H2]; bools;
    cbn [append].
  - exists 1, (0 * 16 + b). split; [lia|].
    now rewrite pton6_hex_digit by lia.
  - eexists 2, _. split; [lia|].
    rewrite !pton6_hex_digit by (Z.div_mod_to_equations; lia). reflexivity.
  - eexists 3, _. split; [lia|].
    rewrite !pton6_hex_digit by (Z.div_mod_to_equations; lia). reflexivity.
Qed.

(** A dotted-decimal tail at the start of a group is read by the
    dotted-decimal parser. *)
Lemma pton6_dotted_tail (tp : list Z) (c : option nat) (a b d e : Z) :
  byte a -> byte b -> byte d -> byte e ->
  Inet.len tp + 4 <= 16 ->
  exists v : Z,
    Inet.pton6_loop (Inet.dotted [a; b; d; e]) (Inet.St6 tp c 0 0)
                    (Inet.dotted [a; b; d; e])
    = Some (Inet.St6 (tp ++ [a; b; d; e]) c 0 v).
Proof.
  intros Ha Hb Hd He Hlen.
  pose proof (inet_pton4_dotted a b d e Ha Hb Hd He) as Hp.
  set (text := Inet.dotted [a; b; d; e]) in *.
  assert (Htext : text = (Inet.decimal a
                          ++ String "." (Inet.dotted [b; d; e]))%string)
    by reflexivity.
  destruct (decimal_digits_as_hex text tp c a
              (String "." (Inet.dotted [b; d; e])) Ha) as (k & v & Hk & Hrun).
  exists v. rewrite Htext at 2. rewrite Hrun.
  cbn [Inet.pton6_loop]. change (Inet.hex_digit_value ".") with (@None Z).
  cbv iota. change (Ascii.eqb "." ":") with false.
  change (Ascii.eqb "." ".") with true. cbv iota.
  cbn [Inet.tp Inet.colonp Inet.val andb].
  replace (Inet.len tp + 4 <=? 16) with true by lia.
  now rewrite Hp.
Qed.

Lemma word_of_bytes (x y : Z) :
  byte x -> byte y ->
  word16 (Z.lor (Z.shiftl x 8) y)
  /\ Inet.group_bytes (Z.lor (Z.shiftl x 8) y) = [x; y]
  /\ (Z.lor (Z.shiftl x 8) y = 0 -> x = 0 /\ y = 0).
Proof.
  unfold byte, word16. intros Hx Hy.
  rewrite (lor_shiftl_add x y 8) by (change (2 ^ 8) with 256; lia).
  change (2 ^ 8) with 256. split; [lia|]. split; [|lia].
  unfold Inet.group_bytes, Inet.u8. rewrite Z.shiftr_div_pow2 by lia.
  change (2 ^ 8) with 256. change 255 with (Z.ones 8).
  rewrite !Z.land_ones by lia. change (2 ^ 8) with 256.
  rewrite !Z.mod_mod by lia.
  replace ((x * 256 + y) / 256) with x
    by (apply Z.div_unique with (r := y); lia).
  replace ((x * 256 + y) mod 256) with y
    by (apply Z.mod_unique with (q := x); lia).
  now rewrite Z.mod_small by lia.
Qed.

(** *** The run of zero words that is written as [::] *)

Lemma keep_longer_zero_run (words : list Z) (best cur : Inet.run) :
  zero_run words best -> zero_run words cur ->
  zero_run words (Inet.keep_longer best cur).
Proof.
  intros Hb Hc. unfold Inet.keep_longer.
  destruct cur as [[cb cl]|]; [|exact Hb].
  destruct best as [[bb bl]|]; [|exact Hc].
  destruct (bl <? cl)%nat; assumption.
Qed.

Lemma scan_runs_zero_run (rest : list Z) :
  forall (pre : list Z) (best cur : Inet.run),
    zero_run (pre ++ rest) best ->
    zero_run (pre ++ rest) cur ->
    (forall base len, cur = Some (base, len) ->
                      (base + len = List.length pre)%nat) ->
    zero_run (pre ++ rest)
             (Inet.scan_runs (List.length pre) rest best cur).
Proof.
  induction rest as [|w rest IH]; intros pre best cur Hb Hc Hend;
    cbn [Inet.scan_runs].
  - now apply keep_longer_zero_run.
  - assert (Hpre : pre ++ w :: rest = (pre ++ [w]) ++ rest)
      by now rewrite <- app_assoc.
    assert (Hlen : S (List.length pre) = List.length (pre ++ [w]))
      by (rewrite length_app; simpl; lia).
    rewrite Hpre in *. rewrite Hlen.
    destruct (w =? 0) eqn:Hw; bools.
    + apply IH; [exact Hb| |].
      * destruct cur as [[cb cl]|]; cbn.
        -- destruct Hc as (H1 & H2 & H3).
           specialize (Hend cb cl eq_refl).
           split; [lia|]. split; [rewrite !length_app in *; simpl in *; lia|].
           intros i Hi. destruct (Nat.eq_dec i (List.length pre)) as [->|Hne].
           ++ rewrite app_nth1 by (rewrite length_app; simpl; lia).
              rewrite app_nth2 by lia. rewrite Nat.sub_diag. exact Hw.
           ++ apply H3. lia.
        -- split; [lia|]. split; [rewrite !length_app; simpl; lia|].
           intros i Hi. replace i with (List.length pre) by lia.
           rewrite app_nth1 by (rewrite length_app; simpl; lia).
           rewrite app_nth2 by lia. rewrite Nat.sub_diag. exact Hw.
      * intros base len Hcur. rewrite <- Hlen.
        destruct cur as [[cb cl]|]; injection Hcur as <- <-;
          [specialize (Hend cb cl eq_refl)|]; lia.
    + apply IH; [now apply keep_longer_zero_run|exact I|discriminate].
Qed.

Lemma best_run_zero_run (words : list Z) :
  match Inet.best_run words with
  | None => True
  | Some (base, len) =>
      (2 <= len)%nat /\ (base + len <= List.length words)%nat /\
      forall i : nat, (base <= i < base + len)%nat -> nth i words 1 = 0
  end.
Proof.
  unfold Inet.best_run.
  pose proof (scan_runs_zero_run words [] None None I I
                ltac:(discriminate)) as Hz.
  cbn [app List.length] in Hz.
  destruct (Inet.scan_runs 0 words None None) as [[base len]|]; [|exact I].
  destruct (len <? 2)%nat eqn:Hl; [exact I|].
  apply Nat.ltb_ge in Hl. destruct Hz as (_ & H2 & H3). auto.
Qed.

(** *** The ends of the colon-hex parser *)

Lemma inet_pton6_leading_gap (rest : string) :
  Inet.inet_pton6 (String ":" (String ":" rest))
  = match Inet.pton6_loop (String ":" rest) (Inet.St6 [] None 0 0)
                          (String ":" rest) with
    | Some s => Inet.pton6_finish s
    | None => None
    end.
Proof. reflexivity. Qed.

Lemma inet_pton6_leading_hex (w : Z) (rest : string) :
  word16 w ->
  Inet.inet_pton6 (Inet.hex w ++ rest)%string
  = match Inet.pton6_loop (Inet.hex w ++ rest)%string (Inet.St6 [] None 0 0)
                          (Inet.hex w ++ rest)%string with
    | Some s => Inet.pton6_finish s
    | None => None
    end.
Proof.
  intros Hw.
  assert (Hd : exists d r, 0 <= d <= 15 /\
                           (Inet.hex w ++ rest)%string
                           = String (Inet.digit_char d) r).
  { unfold word16 in Hw. unfold Inet.hex.
    destruct (w <? 16) eqn:H1; [|destruct (w <? 256) eqn:H2;
                                  [|destruct (w <? 4096) eqn:H3]];
      bools; cbn [append]; eexists _, _; (split; [|reflexivity]);
      Z.div_mod_to_equations; lia. }
  destruct Hd as (d & r & Hd & ->).
  assert (Hc : d = 0 \/ d = 1 \/ d = 2 \/ d = 3 \/ d = 4 \/ d = 5 \/ d = 6
               \/ d = 7 \/ d = 8 \/ d = 9 \/ d = 10 \/ d = 11 \/ d = 12
               \/ d = 13 \/ d = 14 \/ d = 15) by lia.
  repeat destruct Hc as [->|Hc]; try subst d; reflexivity.
Qed.

Lemma pton6_finish_pending (tp : list Z) (c : option nat) (w : Z) :
  Inet.len tp + 2 <= 16 ->
  Inet.pton6_finish (Inet.St6 tp c (hexlen w) w)
  = Inet.pton6_finish (Inet.St6 (tp ++ Inet.group_bytes w) c 0 0).
Proof.
  intros Hlen. unfold Inet.pton6_finish.
  cbn [Inet.xdigits_seen Inet.tp Inet.val Inet.colonp].
  pose proof (hexlen_pos w).
  replace (0 <? hexlen w) with true by lia.
  now replace (16 <? Inet.len tp + 2) with false by lia.
Qed.

Lemma pton6_loop_end (curtok : string) (s : Inet.st6) :
  Inet.pton6_loop curtok s EmptyString = Some s.
Proof. reflexivity. Qed.

Lemma dotted_not_empty (a b : Z) (rest : list Z) :
  Inet.dotted (a :: b :: rest) <> EmptyString.
Proof.
  rewrite dotted_cons by discriminate. unfold Inet.decimal.
  destruct (a <? 10), (a <? 100); discriminate.
Qed.

Ltac word_side :=
  first [assumption
        | apply hex_append_not_empty
        | apply dotted_not_empty
        | discriminate
        | (unfold Inet.len; cbn [List.length app]; lia)].

Ltac read_text :=
  repeat first
    [ rewrite pton6_gap
    | rewrite pton6_hex by assumption
    | rewrite pton6_separator by word_side
    | rewrite pton6_loop_end ].

(** The colon-hex parser reads the rendering of sixteen bytes back as
    those bytes: by cases on where the run written as [::] lies. *)
Lemma inet_pton6_ntop6_bytes
      (b0 b1 b2 b3 b4 b5 b6 b7 b8 b9 b10 b11 b12 b13 b14 b15 : Z) :
  Forall byte [b0; b1; b2; b3; b4; b5; b6; b7; b8; b9; b10; b11; b12; b13; b14; b15] ->
  Inet.inet_pton6 (Inet.inet_ntop6 [b0; b1; b2; b3; b4; b5; b6; b7; b8; b9; b10; b11; b12; b13; b14; b15])
  = Some [b0; b1; b2; b3; b4; b5; b6; b7; b8; b9; b10; b11; b12; b13; b14; b15].
Proof.
  intros Hb.
  repeat match goal with
         | H : Forall byte (_ :: _) |- _ =>
             let Hx := fresh "Hbyte" in
             apply Forall_cons_iff in H as [Hx H]
         end.
  clear Hb.
  unfold Inet.inet_ntop6. cbn [Inet.words_of nth].
  destruct (word_of_bytes b0 b1) as (W0 & G0 & Z0); [assumption..|].
  destruct (word_of_bytes b2 b3) as (W1 & G1 & Z1); [assumption..|].
  destruct (word_of_bytes b4 b5) as (W2 & G2 & Z2); [assumption..|].
  destruct (word_of_bytes b6 b7) as (W3 & G3 & Z3); [assumption..|].
  destruct (word_of_bytes b8 b9) as (W4 & G4 & Z4); [assumption..|].
  destruct (word_of_bytes b10 b11) as (W5 & G5 & Z5); [assumption..|].
  destruct (word_of_bytes b12 b13) as (W6 & G6 & Z6); [assumption..|].
  destruct (word_of_bytes b14 b15) as (W7 & G7 & Z7); [assumption..|].
  remember (Z.lor (Z.shiftl b0 8) b1) as w0 eqn:E0.
  remember (Z.lor (Z.shiftl b2 8) b3) as w1 eqn:E1.
  remember (Z.lor (Z.shiftl b4 8) b5) as w2 eqn:E2.
  remember (Z.lor (Z.shiftl b6 8) b7) as w3 eqn:E3.
  remember (Z.lor (Z.shiftl b8 8) b9) as w4 eqn:E4.
  remember (Z.lor (Z.shiftl b10 8) b11) as w5 eqn:E5.
  remember (Z.lor (Z.shiftl b12 8) b13) as w6 eqn:E6.
  remember (Z.lor (Z.shiftl b14 8) b15) as w7 eqn:E7.
  clear E0 E1 E2 E3 E4 E5 E6 E7.
  pose proof (best_run_zero_run [w0; w1; w2; w3; w4; w5; w6; w7]) as Hrun.
  destruct (Inet.best_run [w0; w1; w2; w3; w4; w5; w6; w7]) as [[base len]|].
  - destruct Hrun as (Hl & Hbl & Hz). cbn [List.length] in Hbl.
    destruct base as [|[|[|[|[|[|[|base]]]]]]];
      destruct len as [|[|[|[|[|[|[|[|[|len]]]]]]]]]; try lia.
    all: try (assert (nth 0 [w0; w1; w2; w3; w4; w5; w6; w7] 1 = 0) as Hzero0
                by (apply Hz; lia);
              cbn [nth] in Hzero0).
    all: try (assert (nth 1 [w0; w1; w2; w3; w4; w5; w6; w7] 1 = 0) as Hzero1
                by (apply Hz; lia);
              cbn [nth] in Hzero1).
    all: try (assert (nth 2 [w0; w1; w2; w3; w4; w5; w6; w7] 1 = 0) as Hzero2
                by (apply Hz; lia);
              cbn [nth] in Hzero2).
    all: try (assert (nth 3 [w0; w1; w2; w3; w4; w5; w6; w7] 1 = 0) as Hzero3
                by (apply Hz; lia);
              cbn [nth] in Hzero3).
    all: try (assert (nth 4 [w0; w1; w2; w3; w4; w5; w6; w7] 1 = 0) as Hzero4
                by (apply Hz; lia);
              cbn [nth] in Hzero4).
    all: try (assert (nth 5 [w0; w1; w2; w3; w4; w5; w6; w7] 1 = 0) as Hzero5
                by (apply Hz; lia);
              cbn [nth] in Hzero5).
    all: try (assert (nth 6 [w0; w1; w2; w3; w4; w5; w6; w7] 1 = 0) as Hzero6
                by (apply Hz; lia);
              cbn [nth] in Hzero6).
    all: try (assert (nth 7 [w0; w1; w2; w3; w4; w5; w6; w7] 1 = 0) as Hzero7
                by (apply Hz; lia);
              cbn [nth] in Hzero7).
    all: repeat match goal with
                | Hw : ?w = 0, Hz' : ?w = 0 -> _ /\ _ |- _ =>
                    destruct (Hz' Hw) as [-> ->]; clear Hz'; subst w
                end.
    all: clear Hz.
    all: cbv [Inet.ntop6_loop Inet.in_run Inet.encapsulated Nat.eqb Nat.leb
              Nat.ltb Nat.add andb orb skipn Inet.inet_ntop4].
    all: try match goal with
             | |- context [if ?w =? 65535 then _ else _] =>
                 destruct (w =? 65535) eqn:Hffff
             end.
    all: first [rewrite inet_pton6_leading_gap
               |rewrite inet_pton6_leading_hex by assumption].
    all: read_text.
    all: try match goal with
             | |- context [Inet.pton6_loop (Inet.dotted [?a; ?b; ?d; ?e])
                                           (Inet.St6 ?tp ?c 0 0) _] =>
                 let v := fresh "v" in
                 let Hv := fresh "Hv" in
                 destruct (pton6_dotted_tail tp c a b d e) as [v Hv];
                 [assumption|assumption|assumption|assumption|word_side|];
                 rewrite Hv
             end.
    all: rewrite ?pton6_finish_pending by word_side.
    all: rewrite ?G0, ?G1, ?G2, ?G3, ?G4, ?G5, ?G6, ?G7.
    all: try reflexivity.
  - cbv [Inet.ntop6_loop Inet.in_run Inet.encapsulated Nat.eqb andb].
    rewrite inet_pton6_leading_hex by assumption.
    read_text.
    rewrite pton6_finish_pending by word_side.
    rewrite G0, G1, G2, G3, G4, G5, G6, G7. reflexivity.
Qed.

Lemma inet_pton6_ntop6 (src : list Z) :
  Inet.len src = 16 -> Forall byte src ->
  Inet.inet_pton6 (Inet.inet_ntop6 src) = Some src.
Proof.
  unfold Inet.len. intros Hlen Hb.
  do 17 (destruct src as [|? src]; [try (simpl in Hlen; lia)|]).
  - now apply inet_pton6_ntop6_bytes.
  - simpl in Hlen. lia.
Qed.

(** *** The characters of a legal colon-hex text *)

Lemma hex_digit_none_decimal_none (c : ascii) :
  Inet.hex_digit_value c = None -> Py.digit_value c = None.
Proof.
  unfold Inet.hex_digit_value, Py.digit_value.
  destruct ((48 <=? Py.code c) && (Py.code c <=? 57)); [discriminate|auto].
Qed.

Lemma append_cons_middle (pre : string) (ch : ascii) (rest : string) :
  (pre ++ String ch rest)%string
  = ((pre ++ String ch EmptyString) ++ rest)%string.
Proof. now rewrite append_assoc_local. Qed.

Lemma pton6_loop_excludes (c : ascii) (src : string) :
  Inet.hex_digit_value c = None -> c <> ":"%char -> c <> "."%char ->
  forall (pre curtok : string) (s s' : Inet.st6),
    curtok = (pre ++ src)%string ->
    Inet.pton6_loop curtok s src = Some s' ->
    Py.contains c src = false.
Proof.
  intros Hc Hcolon Hdot.
  induction src as [|ch rest IH]; intros pre curtok s s' Hcur Hp;
    [reflexivity|].
  cbn [Inet.pton6_loop] in Hp. cbn [Py.contains].
  destruct (Ascii.eqb_spec ch c) as [->|Hne]; cbn [orb].
  - rewrite Hc in Hp.
    destruct (Ascii.eqb_spec c ":"); [contradiction|].
    destruct (Ascii.eqb_spec c "."); [contradiction|].
    discriminate Hp.
  - destruct (Inet.hex_digit_value ch) as [d|].
    + split_cases Hp.
      eapply (IH (pre ++ String ch EmptyString)%string); [|exact Hp].
      rewrite Hcur. apply append_cons_middle.
    + destruct (Ascii.eqb ch ":") eqn:Hch.
      * split_cases Hp; eapply (IH EmptyString); try exact Hp; reflexivity.
      * destruct (Ascii.eqb ch "." && (Inet.len (Inet.tp s) + 4 <=? 16))
          eqn:Hd; [|discriminate Hp].
        destruct (Inet.inet_pton4 curtok) as [b4|] eqn:H4; [|discriminate Hp].
        pose proof (pton4_loop_excludes c curtok
                      (hex_digit_none_decimal_none c Hc) Hdot
                      _ _ _ _ _ H4) as Hex.
        rewrite Hcur, contains_append in Hex.
        apply orb_false_elim in Hex as [_ Hex].
        cbn [Py.contains] in Hex. now apply orb_false_elim in Hex as [_ Hex].
Qed.

Lemma inet_pton6_excludes (c : ascii) (src : string) (b : list Z) :
  Inet.hex_digit_value c = None -> c <> ":"%char -> c <> "."%char ->
  Inet.inet_pton6 src = Some b -> Py.contains c src = false.
Proof.
  intros Hc Hcolon Hdot Hp. unfold Inet.inet_pton6 in Hp.
  destruct (match src with EmptyString => None | String _ _ => _ end)
    as [src'|] eqn:Hstart; [|discriminate Hp].
  destruct (Inet.pton6_loop src' _ src') as [s|] eqn:Hl; [|discriminate Hp].
  pose proof (pton6_loop_excludes c src' Hc Hcolon Hdot EmptyString src'
                _ _ eq_refl Hl) as Hex.
  destruct src as [|x r]; [discriminate Hstart|].
  destruct (Ascii.eqb_spec x ":") as [->|Hx].
  - destruct r as [|y r']; [discriminate Hstart|].
    destruct (Ascii.eqb_spec y ":") as [->|Hy].
    + injection Hstart as <-. cbn [Py.contains] in *.
      destruct (Ascii.eqb ":" c) eqn:E;
        [apply Ascii.eqb_eq in E; now elim Hcolon|exact Hex].
    + exfalso. destruct y as [[] [] [] [] [] [] [] []];
        try discriminate Hstart. now apply Hy.
  - assert (Hsame : src' = String x r).
    { destruct x as [[] [] [] [] [] [] [] []];
        try (injection Hstart as <-; reflexivity).
      now elim Hx. }
    now rewrite <- Hsame.
Qed.

Lemma int_to_v6_ok (n : Z) :
  0 <= n <= Converter.v6_MAX ->
  Converter.int_to_v6 n
  = Ok (Inet.inet_ntop6 (Inet.be_bytes 8 (n / 2 ^ 64)
                         ++ Inet.be_bytes 8 (n mod 2 ^ 64))).
Proof.
  unfold Converter.v6_MAX. intros Hn.
  unfold Converter.int_to_v6, Inet.pack_QQ.
  rewrite Z.shiftr_div_pow2 by lia.
  change (2 ^ 64 - 1) with (Z.ones 64). rewrite Z.land_ones by lia.
  pose proof (Z.mod_pos_bound n (2 ^ 64) ltac:(lia)) as Hm.
  change (2 ^ 64) with 18446744073709551616 in *.
  replace ((0 <=? n / 18446744073709551616)
           && (n / 18446744073709551616 <=? 18446744073709551615))
    with true by (Z.div_mod_to_equations; lia).
  replace ((0 <=? n mod 18446744073709551616)
           && (n mod 18446744073709551616 <=? 18446744073709551615))
    with true by lia.
  cbn [bind Inet.inet_ntop].
  replace (Inet.len (Inet.be_bytes 8 (n / 18446744073709551616)
                     ++ Inet.be_bytes 8 (n mod 18446744073709551616)) =? 16)
    with true
    by (unfold Inet.len; rewrite length_app, !be_bytes_length; reflexivity).
  reflexivity.
Qed.

Lemma firstn_skipn_app_exact {A : Type} (x y : list A) :
  firstn (List.length x) (x ++ y) = x /\ skipn (List.length x) (x ++ y) = y.
Proof.
  split.
  - rewrite firstn_app, Nat.sub_diag, firstn_all. cbn [firstn].
    apply app_nil_r.
  - rewrite skipn_app, Nat.sub_diag, skipn_all. reflexivity.
Qed.

Lemma v6_to_int_rendered (n : Z) :
  0 <= n <= Converter.v6_MAX ->
  Converter.v6_to_int
    (Inet.inet_ntop6 (Inet.be_bytes 8 (n / 2 ^ 64)
                      ++ Inet.be_bytes 8 (n mod 2 ^ 64))) = Ok n.
Proof.
  unfold Converter.v6_MAX. intros Hn.
  set (hi := n / 2 ^ 64). set (lo := n mod 2 ^ 64).
  set (b := Inet.be_bytes 8 hi ++ Inet.be_bytes 8 lo).
  assert (Hhi : 0 <= hi < 2 ^ 64).
  { unfold hi. change (2 ^ 64) with 18446744073709551616.
    Z.div_mod_to_equations. lia. }
  assert (Hlo : 0 <= lo < 2 ^ 64) by (apply Z.mod_pos_bound; lia).
  assert (Hlen : Inet.len b = 16).
  { unfold b, Inet.len. now rewrite length_app, !be_bytes_length. }
  assert (Hb : Forall byte b).
  { apply Forall_app. split; apply be_bytes_bytes. }
  pose proof (inet_pton6_ntop6 b Hlen Hb) as Hp.
  unfold Converter.v6_to_int, Inet.inet_pton.
  rewrite (inet_pton6_excludes zero _ _ eq_refl ltac:(discriminate)
             ltac:(discriminate) Hp).
  rewrite Hp. cbn [bind]. unfold Inet.unpack_QQ. rewrite Hlen.
  change (16 =? 16) with true. cbv iota. cbn [bind Converter.except_OSError].
  unfold b.
  destruct (firstn_skipn_app_exact (Inet.be_bytes 8 hi) (Inet.be_bytes 8 lo))
    as [Hfirst Hskip].
  rewrite be_bytes_length in Hfirst, Hskip. rewrite Hfirst, Hskip.
  rewrite !(be_value_be_bytes 8) by assumption.
  rewrite (lor_shiftl_add hi lo 64) by lia.
  f_equal. unfold hi, lo. pose proof (Z.div_mod n (2 ^ 64)). lia.
Qed.

(** X18. An integer within the IPv6 address space is rendered as a text
    that the IPv6 codec reads back as the same integer. *)
Theorem v6_render_then_parse (n : Z) :
  0 <= n <= Converter.v6_MAX ->
  exists s : string,
    Converter.int_to_v6 n = Ok s /\ Converter.v6_to_int s = Ok n.
Proof.
  intros Hn. eexists. split; [now apply int_to_v6_ok|].
  now apply v6_to_int_rendered.
Qed.

(** ** What every constructed range satisfies *)

(** X20. Whatever the prefix length, a range built from a CIDR text is not
    empty: 0 <= lo <= hi, lo is a multiple of the block size 2^(bit - p),
    and the length is that block size; when the prefix length is not
    negative, hi is also within the address space of the version. *)
Theorem IPNetwork_range_shape (network : string) (version : option Z)
        (r : IPNetwork.t) :
  IPNetwork.__init__ network version = Ok r ->
  exists (addr cidr : string) (p : Z),
    Py.split "/" network = [addr; cidr] /\
    Py.int_of_str cidr = Ok p /\
    p <= IPNetwork.bit r /\
    0 <= lo r <= hi r /\
    lo r mod 2 ^ (IPNetwork.bit r - p) = 0 /\
    __len__ r = 2 ^ (IPNetwork.bit r - p) /\
    (0 <= p -> hi r < 2 ^ IPNetwork.bit r).
Proof.
  intros Hr.
  apply IPNetwork_init_inv in Hr as (addr & cidr & p & a & Hs & Hp & Hle & Ha & ->).
  set (v := Converter.version_or version _) in *. clearbody v.
  exists addr, cidr, p. cbn [IPNetwork.bit].
  unfold __len__, lo, hi.
  cbn [range IPNetwork_RangeObject IPNetwork.range fst snd].
  set (bits := bitwidth v - p).
  assert (Hbits : 0 <= bits) by (unfold bits; lia).
  assert (Hpow : 0 < 2 ^ bits) by (apply Z.pow_pos_nonneg; lia).
  pose proof (select_to_int_bound _ _ _ Ha) as Hbound.
  destruct (cidr_block a bits Hbits) as [Hlo Hhi].
  assert (Hq : 0 <= a / 2 ^ bits) by (apply Z.div_pos; lia).
  assert (Hmul : Z.shiftl (Z.shiftr a bits) bits = a / 2 ^ bits * 2 ^ bits).
  { now rewrite Z.shiftr_div_pow2, Z.shiftl_mul_pow2 by lia. }
  split; [exact Hs|]. split; [exact Hp|]. split; [exact Hle|].
  rewrite Hhi. split; [rewrite Hmul; nia|].
  split; [rewrite Hmul; apply Z.mod_mul; lia|]. split; [lia|].
  intros Hp0.
  pose proof (cidr_block_within a bits (bitwidth v) ltac:(unfold bits; lia)
                Hbound) as [_ Hin].
  rewrite Hhi in Hin. lia.
Qed.

(** X21. A range built from a dash text has its bounds in order and within
    the address space: the text has one '-', the codec of the resolved
    version reads lo and hi from its two trimmed parts, and
    0 <= lo <= hi < 2^bitwidth, so the length is at least 1. *)
Theorem dash_path_range (text : string) (start stop : option string)
        (version : option Z) (r : IPRange.t) :
  let v := Converter.version_or version
             (Converter.get_version (Converter.VStr text)) in
  IPRange.truthy (Some text) = true ->
  IPRange.__init__ (Some text) start stop version = Ok r ->
  IPRange.version r = v
  /\ (exists first last : string,
         Py.split "-" text = [first; last] /\
         Converter.select_to_int v (Py.strip first) = Ok (lo r) /\
         Converter.select_to_int v (Py.strip last) = Ok (hi r))
  /\ 0 <= lo r <= hi r
  /\ hi r < 2 ^ bitwidth v
  /\ 1 <= __len__ r.
Proof.
  intros v Ht. unfold IPRange.__init__. rewrite Ht.
  cbn [IPRange.text IPRange.as_value]. fold v. intros Hi.
  destruct (negb (Py.contains "-" text)); [discriminate Hi|].
  destruct (IPRange.expand text (Converter.select_to_int v))
    as [bounds|] eqn:He; [|discriminate Hi].
  cbn [bind] in Hi. injection Hi as <-.
  apply IPRange_expand_ok in He as (first & last & Hs & Hl & Hh & Hle).
  pose proof (select_to_int_bound _ _ _ Hl) as Bl.
  pose proof (select_to_int_bound _ _ _ Hh) as Bh.
  unfold __len__, lo, hi.
  cbn [range IPRange_RangeObject IPRange.range IPRange.version].
  split; [reflexivity|]. split; [now exists first, last|]. lia.
Qed.

(** X22. A range whose bounds are out of order, as the pair path can build
    it, is empty for every operation: every integer index is out of range,
    no integer is contained, and an iteration yields nothing. *)
Theorem unordered_range_is_empty {R : Type} `{RangeObject R} (self : R) :
  hi self < lo self ->
  __len__ self <= 0
  /\ (forall i : Z, __getitem__ self (IInt i) = Raise IndexOutOfRange)
  /\ (forall x : Z, __contains__ self (CInt x) = Ok false)
  /\ (forall fuel : nat, (0 < fuel)%nat ->
                         drain fuel (__iter__ self) = Some (Ok [])).
Proof.
  intros Hord.
  assert (Hlen : __len__ self <= 0) by (unfold __len__; lia).
  split; [exact Hlen|]. split; [|split].
  - intros i. cbn [__getitem__ int_of_index bind].
    replace ((- __len__ self <=? i) && (i <? 0)) with false by lia.
    now replace ((0 <=? i) && (i <=? __len__ self - 1)) with false by lia.
  - intros x. unfold __contains__. cbn [normalize bind]. f_equal. lia.
  - intros [|fuel] Hfuel; [lia|].
    cbn [drain __iter__ iter_ next]. unfold loop_body.
    now replace (hi self <? lo self + 0) with true by lia.
Qed.

(** ** The further properties on concrete inputs *)

(** X1 on "10.0.0.0/24" and the index 5. *)
Lemma negative_index_mirrors_witness :
  version net_10_0_0_0_24 = 4
  /\ 0 <= 5 < __len__ net_10_0_0_0_24
  /\ __getitem__ net_10_0_0_0_24 (IInt 5)
     = Ok (One (Address_v4 (lo net_10_0_0_0_24 + 5)))
  /\ __getitem__ net_10_0_0_0_24 (IInt (5 - __len__ net_10_0_0_0_24))
     = Ok (One (Address_v4 (lo net_10_0_0_0_24 + 5)))
  /\ IPAddress.__int__ (Address_v4 (lo net_10_0_0_0_24 + 5))
     = Ok (lo net_10_0_0_0_24 + 5)
  /\ __contains__ net_10_0_0_0_24 (CAddr (Address_v4 (lo net_10_0_0_0_24 + 5)))
     = Ok true.
Proof.
  assert (Hi : 0 <= 5 < __len__ net_10_0_0_0_24)
    by (vm_compute; split; congruence).
  split; [reflexivity|]. split; [exact Hi|].
  exact (negative_index_mirrors net_10_0_0_0_24 5 eq_refl Hi).
Defined.

(** X2 on "10.0.0.1-10.0.0.3". *)
Lemma iteration_agrees_with_index_witness :
  version span_10_0_0_1_to_3 = 4
  /\ drain 4 (__iter__ span_10_0_0_1_to_3)
     = Some (Ok [Address_v4 167772161; Address_v4 167772162;
                 Address_v4 167772163])
  /\ (Address_v4 167772163
      = Address_v4 (lo span_10_0_0_1_to_3 + Z.of_nat 2) /\
      __getitem__ span_10_0_0_1_to_3 (IInt (Z.of_nat 2))
      = Ok (One (Address_v4 167772163)) /\
      __contains__ span_10_0_0_1_to_3 (CAddr (Address_v4 167772163)) = Ok true).
Proof.
  assert (Hd : drain 4 (__iter__ span_10_0_0_1_to_3)
               = Some (Ok [Address_v4 167772161; Address_v4 167772162;
                           Address_v4 167772163]))
    by reflexivity.
  split; [reflexivity|]. split; [exact Hd|].
  exact (proj2 (proj2 (proj2 (iteration_agrees_with_index span_10_0_0_1_to_3
                                eq_refl))
                      4%nat _ Hd)
               2%nat _ eq_refl).
Defined.

(** X3 on "10.0.0.1-10.0.0.3". *)
Lemma full_slice_is_iteration_witness :
  version span_10_0_0_1_to_3 = 4
  /\ 1 <= __len__ span_10_0_0_1_to_3
  /\ __getitem__ span_10_0_0_1_to_3 (ISlice (Py.Slice None None (Some (-1))))
     = Ok (Many (rev [Address_v4 167772161; Address_v4 167772162;
                      Address_v4 167772163])).
Proof.
  assert (Hn : 1 <= __len__ span_10_0_0_1_to_3) by (vm_compute; congruence).
  split; [reflexivity|]. split; [exact Hn|].
  exact (proj2 (proj2 (full_slice_is_iteration span_10_0_0_1_to_3 4 _
                         eq_refl Hn eq_refl))).
Defined.

(** X4 on the slice [2:5] of "10.0.0.0/24". *)
Lemma slice_stays_within_range_witness :
  version net_10_0_0_0_24 = 4
  /\ 1 <= __len__ net_10_0_0_0_24
  /\ exists l : list IPAddress.t,
      __getitem__ net_10_0_0_0_24 (ISlice slice_2_5) = Ok (Many l) /\
      forall a : IPAddress.t,
        In a l ->
        exists x : Z,
          a = Address_v4 x /\
          lo net_10_0_0_0_24 <= x <= hi net_10_0_0_0_24 /\
          IPAddress.__int__ a = Ok x /\
          __contains__ net_10_0_0_0_24 (CAddr a) = Ok true.
Proof.
  assert (Hn : 1 <= __len__ net_10_0_0_0_24) by (vm_compute; congruence).
  split; [reflexivity|]. split; [exact Hn|].
  exact (slice_stays_within_range net_10_0_0_0_24 slice_2_5 eq_refl Hn I).
Defined.

(** X24 on "10.0.0.0/24": the index -1 is the Address of hi. *)
Lemma integer_index_on_version_4_witness :
  version net_10_0_0_0_24 = 4
  /\ - __len__ net_10_0_0_0_24 <= -1 < 0
  /\ __getitem__ net_10_0_0_0_24 (IInt (-1))
     = Ok (One (Address_v4 (hi net_10_0_0_0_24 + -1 + 1))).
Proof.
  assert (Hi : - __len__ net_10_0_0_0_24 <= -1 < 0)
    by (vm_compute; split; congruence).
  split; [reflexivity|]. split; [exact Hi|].
  exact (proj1 (integer_index_on_version_4 net_10_0_0_0_24 (-1) eq_refl) Hi).
Defined.

(** X25 on "10.0.0.1-10.0.0.3": three Addresses, 10.0.0.1 to 10.0.0.3. *)
Lemma iteration_on_version_4_witness :
  version span_10_0_0_1_to_3 = 4
  /\ exists l : list IPAddress.t,
      (forall fuel : nat,
          (Z.to_nat (__len__ span_10_0_0_1_to_3) < fuel)%nat ->
          drain fuel (__iter__ span_10_0_0_1_to_3) = Some (Ok l))
      /\ NoDup l.
Proof.
  split; [reflexivity|].
  assert (Hv : version span_10_0_0_1_to_3 = 4) by reflexivity.
  destruct (iteration_on_version_4 span_10_0_0_1_to_3 Hv)
    as (l & Hd & _ & _ & _ & Hnd & _).
  exists l. split; [exact Hd|exact Hnd].
Defined.

(** X23 on "::1/128". *)
Lemma no_address_outside_version_4_witness :
  version net_v6_one <> 4 /\ version net_v6_one <> 0
  /\ - __len__ net_v6_one <= 0 < __len__ net_v6_one
  /\ __getitem__ net_v6_one (IInt 0) = Raise IPAddress.undefined_long.
Proof.
  assert (H4 : version net_v6_one <> 4) by discriminate.
  assert (H0 : version net_v6_one <> 0) by discriminate.
  assert (Hi : - __len__ net_v6_one <= 0 < __len__ net_v6_one)
    by (vm_compute; split; congruence).
  split; [exact H4|]. split; [exact H0|]. split; [exact Hi|].
  exact (proj1 (no_address_outside_version_4 net_v6_one H4 H0) 0 Hi).
Defined.

(** X5 on the integer of "10.0.0.255". *)
Lemma v4_render_then_parse_witness :
  0 <= 167772415 <= Converter.v4_MAX
  /\ exists s : string,
      Converter.int_to_v4 167772415 = Ok s /\
      Converter.v4_to_int s = Ok 167772415.
Proof.
  assert (Hn : 0 <= 167772415 <= Converter.v4_MAX)
    by (vm_compute; split; congruence).
  split; [exact Hn|exact (v4_render_then_parse 167772415 Hn)].
Defined.

(** X6 on "10.0.0.255". *)
Lemma v4_parse_then_render_witness :
  Converter.v4_to_int "10.0.0.255" = Ok 167772415
  /\ Converter.int_to_v4 167772415 = Ok "10.0.0.255".
Proof.
  split; [reflexivity|].
  exact (v4_parse_then_render "10.0.0.255" 167772415 eq_refl).
Defined.

(** X7 on "10.0.0.255" and on "::1". *)
Lemma codec_ranges_witness :
  (0 <= 167772415 <= Converter.v4_MAX /\
   Converter.get_version (Converter.VInt 167772415) = 4)
  /\ (0 <= 1 <= Converter.v6_MAX /\
      (Converter.get_version (Converter.VInt 1) = 6 <-> Converter.v4_MAX < 1)).
Proof.
  split.
  - exact (proj1 (codec_ranges "10.0.0.255" 167772415) eq_refl).
  - exact (proj2 (codec_ranges "::1" 1) eq_refl).
Defined.

(** X8 on "10.0.0.255" and on "::1". *)
Lemma codecs_are_disjoint_witness :
  Converter.v6_to_int "10.0.0.255" = Raise InvalidAddress
  /\ Converter.v4_to_int "::1" = Raise InvalidAddress.
Proof.
  split.
  - exact (proj2 (proj2 (proj1 (codecs_are_disjoint "10.0.0.255" 167772415)
                               eq_refl))).
  - exact (proj2 (codecs_are_disjoint "::1" 1) eq_refl).
Defined.

(** X9 on -1 and on 2^32. *)
Lemma rendering_domain_witness :
  (exists msg : string, Converter.int_to_v4 (-1) = Raise (StructError msg))
  /\ (exists msg : string,
         Converter.int_to_v4 4294967296 = Raise (StructError msg))
  /\ succeeds (Converter.int_to_v6 4294967296).
Proof.
  assert (H1 : ~ 0 <= -1 <= Converter.v4_MAX)
    by (unfold Converter.v4_MAX; lia).
  assert (H2 : ~ 0 <= 4294967296 <= Converter.v4_MAX)
    by (unfold Converter.v4_MAX; lia).
  assert (H3 : 0 <= 4294967296 <= Converter.v6_MAX)
    by (unfold Converter.v6_MAX; lia).
  split; [exact (proj1 (proj2 (rendering_domain (-1))) H1)|].
  split; [exact (proj1 (proj2 (rendering_domain 4294967296)) H2)|].
  exact (proj1 (proj2 (proj2 (rendering_domain 4294967296))) H3).
Defined.

(** X10 on the integer of "10.0.0.255". *)
Lemma address_round_trip_v4_witness :
  0 <= 167772415 <= Converter.v4_MAX
  /\ exists s : string,
      (a <- IPAddress.__init__ (Converter.VInt 167772415) None ;;
       IPAddress.__str__ a) = Ok s /\
      (a <- IPAddress.__init__ (Converter.VStr s) None ;;
       IPAddress.__int__ a) = Ok 167772415.
Proof.
  assert (Hn : 0 <= 167772415 <= Converter.v4_MAX)
    by (vm_compute; split; congruence).
  split; [exact Hn|exact (address_round_trip_v4 167772415 Hn)].
Defined.

(** X11 on "10.0.0.0/24" and "::1", and on "::/0" and "10.0.0.255". *)
Lemma membership_across_families_witness :
  __contains__ net_10_0_0_0_24 (CStr "::1") = Raise InvalidAddress
  /\ __contains__ net_v6_all (CStr "10.0.0.255") = Raise InvalidAddress.
Proof.
  split.
  - exact (proj1 (membership_across_families net_10_0_0_0_24 "::1" 1)
                 eq_refl eq_refl).
  - exact (proj2 (membership_across_families net_v6_all "10.0.0.255" 167772415)
                 eq_refl eq_refl).
Defined.

(** X13 on "10.0.0.0/24". *)
Lemma cidr_membership_is_prefix_match_witness :
  0 <= 24 <= bitwidth 4
  /\ __contains__ net_10_0_0_0_24 (CStr "10.0.0.0") = Ok true.
Proof.
  assert (Hp : 0 <= 24 <= bitwidth 4) by (vm_compute; split; congruence).
  split; [exact Hp|].
  exact (proj2 (cidr_membership_is_prefix_match "10.0.0.0/24" None
                  "10.0.0.0" "24" 24 167772160 net_10_0_0_0_24
                  eq_refl eq_refl Hp eq_refl eq_refl)).
Defined.

(** X14 on "10.0.0.0/16" and "10.0.0.0/24". *)
Lemma cidr_blocks_nest_witness :
  16 <= 24 <= 32
  /\ (167772160 <= 167772160 /\ 167772160 <= 167772415
      /\ 167772415 <= 167837695).
Proof.
  assert (Hpq : 16 <= 24 <= 32) by (split; discriminate).
  split; [exact Hpq|].
  exact (cidr_blocks_nest "10.0.0.0/16" "10.0.0.0/24" "10.0.0.0" "16" "24"
           32 16 24 167772160 Converter.v4_to_int
           167772160 167837695 167772160 167772415
           eq_refl eq_refl eq_refl eq_refl Hpq eq_refl eq_refl).
Defined.

(** X15 on "10.0.0.5/32". *)
Lemma cidr_prefix_extremes_witness :
  IPNetwork.range net_10_0_0_5_32 = (167772165, 167772165)
  /\ __len__ net_10_0_0_5_32 = 1.
Proof.
  exact (proj1 (cidr_prefix_extremes "10.0.0.5/32" None "10.0.0.5" "32" 32
                  167772165 net_10_0_0_5_32 eq_refl eq_refl eq_refl eq_refl)
               eq_refl).
Defined.

(** X16 on the pair ("10.0.0.10", "10.0.0.5"). *)
Lemma pair_path_bounds_witness :
  IPRange.__init__ None (Some "10.0.0.10") (Some "10.0.0.5") None
  = Ok span_10_0_0_10_to_5
  /\ 0 <= lo span_10_0_0_10_to_5 < 2 ^ bitwidth 4
  /\ 0 <= hi span_10_0_0_10_to_5 < 2 ^ bitwidth 4.
Proof.
  split; [reflexivity|].
  exact (proj2 (proj2 (proj2 (pair_path_bounds None "10.0.0.10" "10.0.0.5"
                                None span_10_0_0_10_to_5 eq_refl eq_refl)))).
Defined.

(** X17 on the pair ("10.0.0.1", "::1"). *)
Lemma mixed_family_pair_fails_witness :
  IPRange.__init__ None (Some "10.0.0.1") (Some "::1") None
  = Raise InvalidAddress.
Proof.
  exact (mixed_family_pair_fails "10.0.0.1" "::1" 167772161 1
           (or_introl (conj eq_refl eq_refl))).
Defined.

(** X18 on the integer of "2001:db8::1". *)
Lemma v6_render_then_parse_witness :
  0 <= 42540766411282592856903984951653826561 <= Converter.v6_MAX
  /\ exists s : string,
      Converter.int_to_v6 42540766411282592856903984951653826561 = Ok s /\
      Converter.v6_to_int s = Ok 42540766411282592856903984951653826561.
Proof.
  assert (Hn : 0 <= 42540766411282592856903984951653826561
               <= Converter.v6_MAX)
    by (vm_compute; split; congruence).
  split; [exact Hn|exact (v6_render_then_parse _ Hn)].
Defined.

(** X20 on "10.0.0.0/24". *)
Lemma IPNetwork_range_shape_witness :
  exists (addr cidr : string) (p : Z),
    Py.split "/" "10.0.0.0/24" = [addr; cidr] /\
    Py.int_of_str cidr = Ok p /\
    p <= IPNetwork.bit net_10_0_0_0_24 /\
    0 <= lo net_10_0_0_0_24 <= hi net_10_0_0_0_24 /\
    lo net_10_0_0_0_24 mod 2 ^ (IPNetwork.bit net_10_0_0_0_24 - p) = 0 /\
    __len__ net_10_0_0_0_24 = 2 ^ (IPNetwork.bit net_10_0_0_0_24 - p) /\
    (0 <= p -> hi net_10_0_0_0_24 < 2 ^ IPNetwork.bit net_10_0_0_0_24).
Proof.
  exact (IPNetwork_range_shape "10.0.0.0/24" None net_10_0_0_0_24 eq_refl).
Defined.

(** X21 on "10.0.0.1-10.0.0.3". *)
Lemma dash_path_range_witness :
  0 <= lo span_10_0_0_1_to_3 <= hi span_10_0_0_1_to_3
  /\ hi span_10_0_0_1_to_3 < 2 ^ bitwidth 4
  /\ 1 <= __len__ span_10_0_0_1_to_3.
Proof.
  exact (proj2 (proj2 (dash_path_range "10.0.0.1-10.0.0.3" None None None
                         span_10_0_0_1_to_3 eq_refl eq_refl))).
Defined.

(** X22 on what the pair ("10.0.0.10", "10.0.0.5") builds. *)
Lemma unordered_range_is_empty_witness :
  hi span_10_0_0_10_to_5 < lo span_10_0_0_10_to_5
  /\ __len__ span_10_0_0_10_to_5 <= 0
  /\ drain 1 (__iter__ span_10_0_0_10_to_5) = Some (Ok []).
Proof.
  assert (Hord : hi span_10_0_0_10_to_5 < lo span_10_0_0_10_to_5)
    by reflexivity.
  split; [exact Hord|].
  split; [exact (proj1 (unordered_range_is_empty span_10_0_0_10_to_5 Hord))|].
  exact (proj2 (proj2 (proj2 (unordered_range_is_empty span_10_0_0_10_to_5
                                Hord))) 1%nat (Nat.lt_0_succ 0)).
Defined.
